(** * Snapmaker 2.0 CNC postprocessor: a shallow embedding of
      [Snapmaker_2_CNC_post.py] and the properties of its G-code engine.

    Numbers.  FreeCAD hands every parameter of a path command to the
    postprocessor as a Python float.  The embedding reads them as exact
    rationals ([Q]), compared with [Qeq]: rounding of binary floating point
    is outside the model.

    Effects.  Python exceptions, the FreeCAD console and the [while] loop of
    the peck cycle are explicit: fallible functions return a [result], the
    console is a list of messages carried by the postprocessor, and the loop
    takes fuel. *)

From Stdlib Require Import QArith Qround Qabs Qminmax Lqa ZArith Lia.
From stdpp Require Import base gmap strings list pretty.

(** ** Python values, exceptions and the console *)

Inductive exn : Type :=
| AttributeError
| KeyError
| TypeError.

(** Outcome of a call: a value, a raised exception, or a loop that used up
    its fuel. *)
Inductive result (A : Type) : Type :=
| Ok (a : A)
| Raise (e : exn)
| OutOfFuel.
Arguments Ok {A} a.
Arguments Raise {A} e.
Arguments OutOfFuel {A}.

Definition bind {A B : Type} (r : result A) (k : A → result B) : result B :=
  match r with
  | Ok a => k a
  | Raise e => Raise e
  | OutOfFuel => OutOfFuel
  end.

Notation "x ←! r ; k" := (bind r (λ x, k))
  (at level 100, r at next level, k at level 200, right associativity,
   format "'[v' x  ←!  r ; '/' k ']'").

(** Messages written to [FreeCAD.Console]. *)
Inductive logmsg : Type :=
| PrintLog (s : string)
| PrintMessage (s : string)
| PrintWarning (s : string)
| PrintError (s : string).

Global Instance logmsg_eq_dec : EqDecision logmsg.
Proof. solve_decision. Defined.

Global Instance Qeq_rel_dec : RelDecision Qeq := Qeq_dec.
Global Instance Qlt_rel_dec : RelDecision Qlt :=
  λ x y, match Qlt_le_dec x y with
         | left H => left H
         | right H => right (Qle_not_lt _ _ H)
         end.
Global Instance Qle_rel_dec : RelDecision Qle :=
  λ x y, match Qlt_le_dec y x with
         | left H => right (Qlt_not_le _ _ H)
         | right H => left H
         end.
Global Instance Q_inhabited : Inhabited Q := populate 0%Q.

(** ** Module constants *)

(** The newline character. *)
Definition LF : string := String (Ascii.ascii_of_nat 10) "".

Definition PRECISION : nat := 3.
Definition DRILL_RETRACT_MODE : string := "G98".
Definition GCODE_SPACER : string := " ".
Definition GCODE_COMMENT_SYMBOLS : string * string := (";", "").
Definition GCODE_COMMANDS : list string :=
  ["G0"; "G00"; "G1"; "G01"; "G2"; "G02"; "G3"; "G03"; "G4"; "G04"; "G17";
   "G21"; "G28"; "G54"; "G80"; "G90"; "M3"; "M03"; "M4"; "M04"; "M5"; "M05";
   "M17"; "M18"; "M25"; "M76"; "M81"].
Definition GCODE_PARAMETERS : list string :=
  ["X"; "Y"; "Z"; "A"; "B"; "C"; "I"; "J"; "F"; "S"; "T"; "Q"; "R"; "L"; "H";
   "D"; "P"; "O"].

Definition default_MIN_SPINDLE_SPEED : Z := 6000.
Definition default_MAX_SPINDLE_SPEED : Z := 12000.

(** [BOUNDARIES]: machine name to build volume (X, Y, Z). *)
Definition default_BOUNDARIES : list (string * (Q * Q * Q)) :=
  [("original", (90, 90, 50)%Q);
   ("original_z_extension", (90, 90, 146)%Q);
   ("A150", (160, 160, 90)%Q);
   ("A250", (230, 250, 180)%Q);
   ("A250T", (230, 250, 180)%Q);
   ("A350", (320, 350, 275)%Q);
   ("A350T", (320, 350, 275)%Q)].

(** ** Commands and lines *)

(** [Command] wraps a [Path.Command]: a name and a dict from parameter
    letter to float. *)
Record Command : Type := mkCommand {
  Name : string;
  Parameters : gmap string Q
}.

(** What a [Gcode] list holds: [Command] objects, plain [str] (raw text),
    [Comment] (a [str] subclass) and [Header] (a [Comment] subclass). *)
Inductive line : Type :=
| LCommand (c : Command)
| LStr (s : string)
| LComment (s : string)
| LHeader (s : string).

(** Any Python value, as far as [Command.__eq__] looks at it: a line, [None],
    a float, or some other object seen through its optional [Name] and
    [Parameters] attributes (a raw [Path.Command] has both). *)
Inductive pyobj : Type :=
| PyLine (l : line)
| PyNone
| PyFloat (q : Q)
| PyObject (name : option string) (parameters : option (gmap string Q)).

(** [other.Name]: only [Command] and objects that carry the attribute answer;
    [str], [Comment], [Header], [None] and floats raise [AttributeError]. *)
Definition getattr_Name (o : pyobj) : result string :=
  match o with
  | PyLine (LCommand c) => Ok (Name c)
  | PyObject (Some n) _ => Ok n
  | _ => Raise AttributeError
  end.

Definition getattr_Parameters (o : pyobj) : result (gmap string Q) :=
  match o with
  | PyLine (LCommand c) => Ok (Parameters c)
  | PyObject _ (Some p) => Ok p
  | _ => Raise AttributeError
  end.

(** Equality of two parameter dicts: same keys, equal floats. *)
Definition dict_eq (m1 m2 : gmap string Q) : bool :=
  bool_decide (map_relation (λ _ : string, Qeq)
                 (λ _ _, False) (λ _ _, False) m1 m2).

(** The [try] block of [Command.__eq__]:
    [self._cmd.Name == other.Name and self._cmd.Parameters == other.Parameters].
    [and] does not evaluate [other.Parameters] when the names differ. *)
Definition Command___eq___try (self : Command) (other : pyobj) : result bool :=
  n ←! getattr_Name other;
  if String.eqb (Name self) n
  then (p ←! getattr_Parameters other; Ok (dict_eq (Parameters self) p))
  else Ok false.

(** [Command.__eq__]: [except AttributeError: return False]; any other
    exception would propagate. *)
Definition Command___eq__ (self : Command) (other : pyobj) : result bool :=
  match Command___eq___try self other with
  | Raise AttributeError => Ok false
  | r => r
  end.

(** The characters of a [str], [Comment] or [Header]. *)
Definition line_text (l : line) : string :=
  match l with
  | LCommand _ => ""
  | LStr s | LComment s | LHeader s => s
  end.

(** Python's [a == b] on two lines.  A [Command] on the left answers with its
    own [__eq__]; a [str] on the left returns [NotImplemented] for a
    [Command], so the reflected [Command.__eq__] runs; two strings (of any of
    the three string classes) compare by characters. *)
Definition line_eq (a b : line) : result bool :=
  match a, b with
  | LCommand c, _ => Command___eq__ c (PyLine b)
  | _, LCommand c => Command___eq__ c (PyLine a)
  | _, _ => Ok (String.eqb (line_text a) (line_text b))
  end.

(** ** Configuration *)

(** [--tool-change] is [True]/[False] or a custom gcode text. *)
Inductive tool_change_opt : Type :=
| TCBool (b : bool)
| TCText (s : string).

(** The [argparse.Namespace] built by [configure], restricted to the options
    the functions below read. *)
Record Configuration : Type := mkConfiguration {
  header : bool;
  comments : bool;
  comment_symbols : string * string;
  line_numbers : bool;
  line_start : Z;
  line_increment : Z;
  remove_duplicates : bool;
  precision : nat;
  pause : string;
  units : string;
  postamble : string;
  translate_drill_cycles : bool;
  tool_change : tool_change_opt;
  spindle_wait : Z;
  spacer : string;
  commands : list string;
  final_position : option Command;
  machine : option string;
  boundaries_check : bool
}.

(** The defaults of [configure] (no argument string). *)
Definition default_conf : Configuration := {|
  header := true;
  comments := true;
  comment_symbols := GCODE_COMMENT_SYMBOLS;
  line_numbers := false;
  line_start := 1;
  line_increment := 1;
  remove_duplicates := true;
  precision := PRECISION;
  pause := "M76";
  units := "mm";
  postamble := "M400" +:+ LF +:+ "M5";
  translate_drill_cycles := true;
  tool_change := TCBool true;
  spindle_wait := 0;
  spacer := GCODE_SPACER;
  commands := GCODE_COMMANDS;
  final_position := None;
  machine := None;
  boundaries_check := true
|}.

(** ** The instruction stream *)

(** [Gcode(list)]: the lines, the configuration, and the modal drill retract
    mode, which [__init__] sets to a [Command] object. *)
Record Gcode : Type := mkGcode {
  lines : list line;
  conf : Configuration;
  drillRetractMode : line
}.

Definition Gcode___init__ (configuration : Configuration) : Gcode := {|
  lines := [];
  conf := configuration;
  drillRetractMode := LCommand (mkCommand DRILL_RETRACT_MODE ∅)
|}.

Definition set_lines (self : Gcode) (ls : list line) : Gcode :=
  {| lines := ls; conf := conf self; drillRetractMode := drillRetractMode self |}.

Definition set_drillRetractMode (self : Gcode) (m : line) : Gcode :=
  {| lines := lines self; conf := conf self; drillRetractMode := m |}.

(** [Gcode.append]:
    [if self.conf.remove_duplicates and len(self) and self[-1] == line: return]
    else the line goes to the end of the list. *)
Definition Gcode_append (self : Gcode) (l : line) : result Gcode :=
  dup ←! (if remove_duplicates (conf self)
          then match last (lines self) with
               | None => Ok false
               | Some prev => line_eq prev l
               end
          else Ok false);
  Ok (if dup : bool then self else set_lines self (lines self ++ [l])).

(** [range(i, 0, -1)]: the indices [i, i-1, ..., 1]; index 0 is not in it. *)
Fixpoint range_down (i : nat) : list nat :=
  match i with
  | O => []
  | S k => i :: range_down k
  end.

(** [start % len(self)] with Python's sign convention (the list is not
    empty where this is used, so the result is in [0, len)). *)
Definition start_index (self : Gcode) (start : Z) : nat :=
  Z.to_nat (start `mod` Z.of_nat (length (lines self))).

(** [Gcode.lastCommand] (arguments: the names, [start], [default]).  Python's [None] is [None]
    here, for the default as well as for the value returned when the [for]
    statement ends without a [return].  Both paths of the loop body return:
    the indices after the first one are never visited. *)
Definition Gcode_lastCommand (self : Gcode) (names : list string) (start : Z)
    (default : option Command) : option Command :=
  if decide (length (lines self) = 0%nat) then default
  else
    match range_down (start_index self start) with
    | [] => None
    | i :: _ =>
        match lines self !! i with
        | Some (LCommand c) =>
            if bool_decide (Name c ∈ names) then Some c else default
        | _ => default
        end
    end.

(** [Gcode.lastParameter] (arguments: [param], the names, [start],
    [default]); same loop.  The
    [KeyError] handler cannot run, since the condition has checked
    [param in self[i].Parameters]. *)
Definition Gcode_lastParameter (self : Gcode) (param : string)
    (names : list string) (start : Z) (default : option Q) : option Q :=
  if decide (length (lines self) = 0%nat) then default
  else
    match range_down (start_index self start) with
    | [] => None
    | i :: _ =>
        match lines self !! i with
        | Some (LCommand c) =>
            if (bool_decide (names = []) || bool_decide (Name c ∈ names))
               && bool_decide (is_Some (Parameters c !! param))
            then match Parameters c !! param with
                 | Some v => Some v
                 | None => default
                 end
            else default
        | _ => default
        end
    end.

(** ** Number formatting *)

(** Nearest integer, ties to the even one. *)
Definition round_half_even (q : Q) : Z :=
  let f := Qfloor q in
  match Qcompare (q - inject_Z f) (1 # 2) with
  | Lt => f
  | Gt => (f + 1)%Z
  | Eq => if Z.even f then f else (f + 1)%Z
  end.

(** [n] zeros. *)
Fixpoint zeros (n : nat) : string :=
  match n with
  | O => ""
  | S k => "0" +:+ zeros k
  end.

(** The decimal digits of [n], left-padded with zeros to [p] characters. *)
Definition pad_digits (p : nat) (n : Z) : string :=
  let d := pretty n in zeros (p - String.length d) +:+ d.

(** Python's [f'{x:.{p}f}']: fixed point with exactly [p] digits after the
    point, nearest value, no point at all when [p = 0], and the sign of [x]
    kept even when every printed digit is zero. *)
Definition format_f (p : nat) (x : Q) : string :=
  let scale := (10 ^ Z.of_nat p)%Z in
  let n := round_half_even (Qabs x * inject_Z scale) in
  (if Qlt_le_dec x 0 then "-" else "")
  +:+ pretty (n `div` scale)%Z
  +:+ (match p with
       | O => ""
       | S _ => "." +:+ pad_digits p (n `mod` scale)%Z
       end).

(** [min(a, b)] and [max(a, b)] of Python: the first argument unless the
    second is strictly smaller (larger). *)
Definition py_min (a b : Q) : Q := if Qlt_le_dec b a then b else a.
Definition py_max (a b : Q) : Q := if Qlt_le_dec a b then b else a.

(** ** Rendering *)

Section Postprocessor.
(** The spindle range of the toolhead and the table of build volumes are
    module constants (shipped values: [default_MIN_SPINDLE_SPEED],
    [default_MAX_SPINDLE_SPEED], [default_BOUNDARIES]). *)
Variable MIN_SPINDLE_SPEED MAX_SPINDLE_SPEED : Z.
Variable BOUNDARIES : list (string * (Q * Q * Q)).

(** Library code, not of this repository: FreeCAD's unit conversions
    ([FreeCAD.Units.Quantity(...).getValueAs]), Python's [repr] of a float,
    [str.splitlines], [str(cmd)] of a [Path.Command], and the first group
    of [re.match('^\((.+)\)$', name)]. *)
Variable unit_length : Q → string → Q.
Variable unit_velocity : Q → string → Q.
Variable float_repr : Q → string.
Variable splitlines : string → list string.
Variable PathCommand_str : Command → string.
Variable match_comment : string → option string.

Definition convertPosition (position : Q) (units : string) : Q :=
  unit_length position units.

Definition convertSpeed (speed : Q) (units : string) : Q :=
  unit_velocity speed (units +:+ "/min").

(** [int(max(min(speed, MAX), MIN) * 100 // MAX)]. *)
Definition speedAsPercent (speed : Q) : Z :=
  Qfloor (py_max (py_min speed (inject_Z MAX_SPINDLE_SPEED))
                 (inject_Z MIN_SPINDLE_SPEED)
          * 100 / inject_Z MAX_SPINDLE_SPEED).

(** One turn of the loop of [Command.__str__]: the words that parameter
    letter [param] adds to the line (none or one). *)
Definition render_parameter (cf : Configuration) (self : Command)
    (param : string) : list string :=
  match Parameters self !! param with
  | None => []
  | Some v =>
      if bool_decide (param ∈ ["X"; "Y"; "Z"; "U"; "V"; "W"; "I"; "J"; "K";
                               "R"; "Q"])
      then [param +:+ format_f (precision cf) (convertPosition v (units cf))]
      else if String.eqb param "F"
      then [param +:+ format_f (precision cf) (convertSpeed v (units cf))]
      else if String.eqb param "S"
      then
        if bool_decide (Name self ∈ ["M3"; "M03"; "M4"; "M04"])
        then ["P" +:+ format_f (precision cf) (inject_Z (speedAsPercent v))]
        else if bool_decide (Name self ∈ ["G4"; "G04"])
        then [param +:+ format_f (precision cf) v]
        else [param +:+ format_f (precision cf) (convertSpeed v (units cf))]
      else if bool_decide (param ∈ ["T"; "H"; "D"; "P"; "L"])
      then [param +:+ float_repr v]
      else if bool_decide (param ∈ ["A"; "B"; "C"])
      then [param +:+ float_repr v]
      else []
  end.

(** [Command.__str__]: the name, then the parameters in the order of
    [GCODE_PARAMETERS], joined by the spacer.  [units], [precision] and
    [spacer] are class attributes that [Gcode.__init__] copies from the
    configuration. *)
Definition Command___str__ (cf : Configuration) (self : Command) : string :=
  String.concat (spacer cf)
    (Name self :: flat_map (render_parameter cf self) GCODE_PARAMETERS).

(** What [Command.__str__] prints on the console while it renders: an error
    for a feed rate that is not positive (the line is rendered all the
    same). *)
Definition Command___str___console (cf : Configuration) (self : Command)
    : list logmsg :=
  match Parameters self !! "F" with
  | Some v =>
      let speed := convertSpeed v (units cf) in
      if Qle_bool speed 0
      then [PrintError (Name self +:+ ": negative or null speed provided ("
                        +:+ float_repr speed +:+ ")" +:+ LF)]
      else []
  | None => []
  end.

(** [Comment.__str__]: [symbols[0] + self + symbols[-1]]. *)
Definition Comment___str__ (cf : Configuration) (s : string) : string :=
  fst (comment_symbols cf) +:+ s +:+ snd (comment_symbols cf).

(** [str(line)], also what [f'{line}'] gives. *)
Definition line_str (cf : Configuration) (l : line) : string :=
  match l with
  | LCommand c => Command___str__ cf c
  | LStr s => s
  | LComment s | LHeader s => Comment___str__ cf s
  end.

(** [type(line) in self.types], with [self.types] built by
    [Gcode.__init__]: [Command] and [str] always, [Header] and [Comment]
    when the configuration includes them. *)
Definition in_types (cf : Configuration) (l : line) : bool :=
  match l with
  | LCommand _ | LStr _ => true
  | LHeader _ => header cf
  | LComment _ => comments cf
  end.

(** [type(line) in (Command, str)]: exact types, so a [Comment] or a
    [Header] is not one of them. *)
Definition is_Command_or_str (l : line) : bool :=
  match l with
  | LCommand _ | LStr _ => true
  | _ => false
  end.

(** The loop of [Gcode.__str__], with its counter [nbr]. *)
Fixpoint Gcode___str___lines (cf : Configuration) (nbr : Z) (ls : list line)
    : list string :=
  match ls with
  | [] => []
  | l :: rest =>
      if in_types cf l
      then
        if line_numbers cf && is_Command_or_str l
        then ("N" +:+ pretty (line_start cf + nbr * line_increment cf)%Z
              +:+ spacer cf +:+ line_str cf l)
             :: Gcode___str___lines cf (nbr + 1) rest
        else line_str cf l :: Gcode___str___lines cf nbr rest
      else Gcode___str___lines cf nbr rest
  end.

(** [Gcode.__str__]: the rendered lines joined by newlines. *)
Definition Gcode___str__ (self : Gcode) : string :=
  String.concat LF (Gcode___str___lines (conf self) 0 (lines self)).

(** ** The postprocessor *)

(** [obj.ToolController] and [job.SetupSheet], for their rapid speeds. *)
Record RapidSpeeds : Type := mkRapidSpeeds {
  VertRapid : Q;
  HorizRapid : Q
}.

(** A path object without a [Group]: its name, its tool controller if it
    has one, and the commands of its path. *)
Record PathObject : Type := mkPathObject {
  ObjName : string;
  ToolController : option RapidSpeeds;
  Commands : list Command
}.

(** [Postprocessor]: the stream, the job, and the messages printed on the
    FreeCAD console so far.  [self.conf] is the configuration held by the
    stream. *)
Record Postprocessor : Type := mkPostprocessor {
  gcode : Gcode;
  job : option RapidSpeeds;
  console : list logmsg
}.

Definition set_gcode (self : Postprocessor) (g : Gcode) : Postprocessor :=
  {| gcode := g; job := job self; console := console self |}.

Definition print (self : Postprocessor) (m : logmsg) : Postprocessor :=
  {| gcode := gcode self; job := job self; console := console self ++ [m] |}.

(** [self.gcode.append(line)]. *)
Definition emit (self : Postprocessor) (l : line) : result Postprocessor :=
  g ←! Gcode_append (gcode self) l;
  Ok (set_gcode self g).

(** [getRapidSpeeds(obj, job)], with the warning it prints. *)
Definition getRapidSpeeds (obj : option PathObject)
    (job : option RapidSpeeds) : option Q * option Q * list logmsg :=
  match obj ≫= ToolController, job with
  | Some tc, _ => (Some (VertRapid tc), Some (HorizRapid tc), [])
  | None, Some sheet => (Some (VertRapid sheet), Some (HorizRapid sheet), [])
  | None, None =>
      (None, None,
       [PrintWarning ("No Rapid speeds (vertical and horizontal) set for "
                      +:+ "the selected job" +:+ LF)])
  end.

(** [Command.addParameter]: FreeCAD re-reads the command from its own
    gcode text with the parameter added; read here as adding the entry. *)
Definition addParameter (self : Command) (parameter : string) (value : Q)
    : Command :=
  mkCommand (Name self) (<[parameter := value]> (Parameters self)).

(** The second half of [addCommand]: a rapid move without a feed rate gets
    one from the rapid speeds.  Returns the command as mutated and what was
    printed. *)
Definition rapid_feed (self : Postprocessor) (cmd : Command)
    (obj : option PathObject) : Command * list logmsg :=
  if bool_decide (Name cmd ∈ ["G0"; "G00"])
     && negb (bool_decide (is_Some (Parameters cmd !! "F")))
  then
    let '(vRapidSpeed, hRapidSpeed, msgs) := getRapidSpeeds obj (job self) in
    let hasX := bool_decide (is_Some (Parameters cmd !! "X")) in
    let hasY := bool_decide (is_Some (Parameters cmd !! "Y")) in
    let hasZ := bool_decide (is_Some (Parameters cmd !! "Z")) in
    match vRapidSpeed, hRapidSpeed with
    | Some v, Some h =>
        if hasX || hasY
        then if hasZ
             then (addParameter cmd "F" (py_min v h), msgs)
             else (addParameter cmd "F" h, msgs)
        else if hasZ
        then (addParameter cmd "F" v, msgs)
        else (cmd, msgs)
    | _, _ => (cmd, msgs)
    end
  else (cmd, []).

(** [Postprocessor.addCommand].  The command object is appended first and
    mutated afterwards: when [append] has stored it, the stream holds the
    mutated object; when [append] has dropped it as a duplicate, the stream
    does not change.  The duplicate test sees the command before the
    mutation. *)
Definition addCommand (self : Postprocessor) (cmd : Command)
    (obj : option PathObject) : result Postprocessor :=
  g ←! Gcode_append (gcode self) (LCommand cmd);
  let stored := negb (bool_decide (length (lines g)
                                    = length (lines (gcode self)))) in
  let '(cmd', msgs) := rapid_feed self cmd obj in
  Ok {| gcode := if stored
                 then set_lines g (lines (gcode self) ++ [LCommand cmd'])
                 else g;
        job := job self;
        console := console self ++ msgs |}.

(** [d[k]]: [KeyError] when the key is missing. *)
Definition getitem (d : gmap string Q) (k : string) : result Q :=
  match d !! k with
  | Some v => Ok v
  | None => Raise KeyError
  end.

(** Order comparison of a value that may be [None] with a float:
    [TypeError] on [None]. *)
Definition py_lt (a : option Q) (b : Q) : result bool :=
  match a with
  | Some x => Ok (bool_decide (x < b)%Q)
  | None => Raise TypeError
  end.

Definition py_gt (a : option Q) (b : Q) : result bool :=
  match a with
  | Some x => Ok (bool_decide (b < x)%Q)
  | None => Raise TypeError
  end.

(** [a != b]: [None] differs from every float. *)
Definition py_ne (a : option Q) (b : Q) : bool :=
  match a with
  | Some x => negb (bool_decide (x == b)%Q)
  | None => true
  end.

(** The value a branch of the translator binds to a name that may hold
    [None]. *)
Definition the_float (a : option Q) : result Q :=
  match a with
  | Some x => Ok x
  | None => Raise TypeError
  end.

(** The [while nextStopZ >= drillZ] loop of the peck cycle (G83); one unit
    of fuel per turn. *)
Fixpoint peck_loop (fuel : nat) (self : Postprocessor)
    (obj : option PathObject) (drillZ drillR drillF drillStep chipSpace
     nextStopZ : Q) : result Postprocessor :=
  if bool_decide (drillZ <= nextStopZ)%Q
  then
    match fuel with
    | O => OutOfFuel
    | S fuel' =>
        self ←! addCommand self
                  (mkCommand "G1" {[ "Z" := nextStopZ; "F" := drillF ]}) None;
        if bool_decide (drillZ <= nextStopZ - drillStep)%Q
        then
          self ←! addCommand self (mkCommand "G0" {[ "Z" := drillR ]}) obj;
          self ←! addCommand self
                    (mkCommand "G0" {[ "Z" := (nextStopZ + chipSpace)%Q ]})
                    obj;
          peck_loop fuel' self obj drillZ drillR drillF drillStep chipSpace
                    (nextStopZ - drillStep)%Q
        else if bool_decide (nextStopZ == drillZ)%Q
        then Ok self
        else
          self ←! addCommand self (mkCommand "G0" {[ "Z" := drillR ]}) obj;
          self ←! addCommand self
                    (mkCommand "G0" {[ "Z" := (nextStopZ + chipSpace)%Q ]})
                    obj;
          self ←! addCommand self
                    (mkCommand "G1" {[ "Z" := drillZ; "F" := drillF ]}) None;
          Ok self
    end
  else Ok self.

(** The retract height: [position['Z']] when the mode compares equal to the
    string ["G98"] and the position is above [drillR], else [drillR].
    [and] does not look at the position when the mode test fails. *)
Definition retract_height (self : Postprocessor) (positionZ : option Q)
    (drillR : Q) : result Q :=
  is98 ←! line_eq (drillRetractMode (gcode self)) (LStr "G98");
  if is98 : bool
  then (above ←! py_gt positionZ drillR;
        if above : bool then the_float positionZ else Ok drillR)
  else Ok drillR.

(** [Postprocessor.translateDrill(cmd, obj)]. *)
Definition translateDrill (fuel : nat) (self : Postprocessor)
    (cmd : Command) (obj : PathObject) : result Postprocessor :=
  drillX ←! getitem (Parameters cmd) "X";
  drillY ←! getitem (Parameters cmd) "Y";
  drillZ ←! getitem (Parameters cmd) "Z";
  drillR ←! getitem (Parameters cmd) "R";
  drillF ←! getitem (Parameters cmd) "F";
  let position (param : string) : option Q :=
    Gcode_lastParameter (gcode self) param [] (-1) (Some 0%Q) in
  if bool_decide (drillR < drillZ)%Q
  then Ok (print self (PrintError ("Drill cycle error: R less than Z" +:+ LF)))
  else
    retractZ ←! retract_height self (position "Z") drillR;
    below ←! py_lt (position "Z") retractZ;
    self ←! (if below : bool
             then addCommand self (mkCommand "G0" {[ "Z" := retractZ ]})
                             (Some obj)
             else Ok self);
    self ←! (if py_ne (position "X") drillX && py_ne (position "Y") drillY
             then addCommand self
                    (mkCommand "G0" {[ "X" := drillX; "Y" := drillY ]})
                    (Some obj)
             else Ok self);
    self ←! addCommand self (mkCommand "G0" {[ "Z" := drillR ]}) (Some obj);
    self ←! (if String.eqb (Name cmd) "G81"
             then addCommand self
                    (mkCommand "G1" {[ "Z" := drillZ; "F" := drillF ]}) None
             else if String.eqb (Name cmd) "G82"
             then
               self ←! addCommand self
                         (mkCommand "G1" {[ "Z" := drillZ; "F" := drillF ]})
                         None;
               dwell ←! getitem (Parameters cmd) "P";
               addCommand self (mkCommand "G4" {[ "S" := dwell ]}) None
             else if String.eqb (Name cmd) "G83"
             then
               drillStep ←! getitem (Parameters cmd) "Q";
               let chipSpace := (drillStep * (1 # 2))%Q in
               let nextStopZ := (drillR - drillStep)%Q in
               peck_loop fuel self (Some obj) drillZ drillR drillF drillStep
                         chipSpace nextStopZ
             else Ok self);
    addCommand self (mkCommand "G0" {[ "Z" := retractZ ]}) (Some obj).

(** Truth value of [self.conf.tool_change]. *)
Definition tool_change_on (t : tool_change_opt) : bool :=
  match t with
  | TCBool b => b
  | TCText s => negb (String.eqb s "")
  end.

(** Appends raw text lines one by one ([for line in ...: append(line)]). *)
Fixpoint emit_all (self : Postprocessor) (ls : list string)
    : result Postprocessor :=
  match ls with
  | [] => Ok self
  | l :: rest => self ←! emit self (LStr l); emit_all self rest
  end.

(** The body of the [for cmd in obj.Path.Commands] loop of [parseObject]. *)
Definition parseCommand (fuel : nat) (self : Postprocessor)
    (obj : PathObject) (cmd : Command) : result Postprocessor :=
  let cf := conf (gcode self) in
  if bool_decide (Name cmd ∈ commands cf)
  then
    self ←! addCommand self cmd (Some obj);
    if bool_decide (Name cmd ∈ ["M3"; "M03"; "M4"; "M04"])
    then
      if bool_decide (0 < spindle_wait cf)%Z
      then addCommand self
             (mkCommand "G4" {[ "S" := inject_Z (spindle_wait cf) ]}) None
      else addCommand self (mkCommand "G4" ∅) None
    else if bool_decide (Name cmd ∈ ["M6"; "M06"])
            && tool_change_on (tool_change cf)
    then
      self ←! emit self (LComment "TOOL CHANGE");
      match tool_change cf with
      | TCText text => emit_all self (splitlines text)
      | TCBool _ => addCommand self (mkCommand (pause cf) ∅) None
      end
    else Ok self
  else
    if bool_decide (Name cmd ∈ ["G98"; "G99"]) && translate_drill_cycles cf
    then Ok (set_gcode self
               (set_drillRetractMode (gcode self) (LStr (Name cmd))))
    else if bool_decide (Name cmd ∈ ["G81"; "G82"; "G83"])
            && translate_drill_cycles cf
    then translateDrill fuel self cmd obj
    else if String.eqb (Name cmd) "message"
    then emit self (LComment ("message: " +:+ PathCommand_str cmd))
    else
      match (if comments cf then match_comment (Name cmd) else None) with
      | Some text => emit self (LComment text)
      | None =>
          Ok (print self
                (PrintWarning ("Command ignored: " +:+ Name cmd +:+ LF)))
      end.

(** The command loop. *)
Fixpoint parseCommands (fuel : nat) (self : Postprocessor)
    (obj : PathObject) (cmds : list Command) : result Postprocessor :=
  match cmds with
  | [] => Ok self
  | cmd :: rest =>
      self ←! parseCommand fuel self obj cmd;
      parseCommands fuel self obj rest
  end.

(** [Postprocessor.parseObject(obj)] for an object that has a [Path] and no
    [Group] (a group is walked by calling this on each of its items). *)
Definition parseObject (fuel : nat) (self : Postprocessor)
    (obj : PathObject) : result Postprocessor :=
  parseCommands fuel
    (print self (PrintLog ("Processing object " +:+ ObjName obj +:+ LF)))
    obj (Commands obj).

(** ** Boundary check *)

(** The keys of the [boundaries] dict, in insertion order. *)
Definition axes : list string := ["X"; "Y"; "Z"].

(** The state of the replay: [boundaries[axis] = [max, min]],
    [position[axis]], and the [relative] flag. *)
Record replay : Type := mkReplay {
  boundaries : gmap string (Q * Q);
  position : gmap string Q;
  relative : bool
}.

Definition replay_init : replay := {|
  boundaries := {[ "X" := (0, 0)%Q; "Y" := (0, 0)%Q; "Z" := (0, 0)%Q ]};
  position := {[ "X" := 0%Q; "Y" := 0%Q; "Z" := 0%Q ]};
  relative := false
|}.

(** One turn of [for axis in boundaries.keys()]. *)
Definition replay_axis (cmd : Command) (r : replay) (axis : string)
    : replay :=
  match Parameters cmd !! axis with
  | None => r
  | Some value =>
      let p := if relative r then (position r !!! axis + value)%Q
               else value in
      let b := boundaries r !!! axis in
      {| boundaries :=
           <[axis := (py_max (fst b) p, py_min (snd b) p)]> (boundaries r);
         position := <[axis := p]> (position r);
         relative := relative r |}
  end.

(** One turn of [for cmd in self.gcode].  Both [G90] and [G91] store
    [False] in [relative]. *)
Definition replay_line (r : replay) (l : line) : replay :=
  match l with
  | LCommand cmd =>
      if String.eqb (Name cmd) "G90"
      then {| boundaries := boundaries r; position := position r;
              relative := false |}
      else if String.eqb (Name cmd) "G91"
      then {| boundaries := boundaries r; position := position r;
              relative := false |}
      else if bool_decide (Name cmd ∈ ["G0"; "G1"])
      then foldl (replay_axis cmd) r axes
      else r
  | _ => r
  end.

(** [BOUNDARIES[name]]. *)
Definition machine_limits (name : string) : option (Q * Q * Q) :=
  (λ e, snd (snd e)) <$> list_find (λ e, fst e = name) BOUNDARIES.

(** The last loop: one warning per axis whose [abs(max - min)] is above
    its limit. *)
Definition boundary_warnings (r : replay) (limits : Q * Q * Q)
    : list logmsg :=
  let '(lx, ly, lz) := limits in
  flat_map
    (λ al : string * Q,
       let b := boundaries r !!! fst al in
       if bool_decide (snd al < Qabs (fst b - snd b))%Q
       then [PrintWarning ("Boundary check: job exceeds machine limit on "
                           +:+ fst al +:+ " axis" +:+ LF)]
       else [])
    (zip axes [lx; ly; lz]).

(** [Postprocessor.checkBoundaries]: what it returns ([False], or [None]
    at the end of the body) and what it prints. *)
Definition checkBoundaries (self : Postprocessor)
    : option bool * list logmsg :=
  let start := PrintLog "Boundaries check/n" in
  match machine (conf (gcode self)) ≫= machine_limits with
  | None =>
      (Some false,
       [start;
        PrintError "Boundary check failed, no valid machine name supplied"])
  | Some limits =>
      (None,
       start :: boundary_warnings
                  (foldl replay_line replay_init (lines (gcode self)))
                  limits)
  end.

(** The end of [Postprocessor.export], from the final position to the text
    that goes to the editor and the file. *)
Definition export_finish (self : Postprocessor)
    : result (Postprocessor * string) :=
  let cf := conf (gcode self) in
  self ←! (match final_position cf with
           | Some c => emit self (LCommand c)
           | None => Ok self
           end);
  self ←! emit self (LComment "POSTAMBLE");
  self ←! emit_all self (splitlines (postamble cf));
  let self := print self (PrintMessage ("Postprocessing done" +:+ LF)) in
  let self :=
    if boundaries_check cf
    then {| gcode := gcode self; job := job self;
            console := console self ++ snd (checkBoundaries self) |}
    else self in
  Ok (self, Gcode___str__ (gcode self)).

End Postprocessor.

(** ** Instances of the library functions, for closed examples *)

(** FreeCAD stores lengths in millimetres and speeds in millimetres per
    second: with [units = "mm"] a length is unchanged and a speed is
    multiplied by 60. *)
Definition metric_length (q : Q) (_ : string) : Q := q.
Definition metric_velocity (q : Q) (_ : string) : Q := (q * 60)%Q.

(** [repr] of a float with an integral value. *)
Definition repr_integral (q : Q) : string := pretty (Qfloor q) +:+ ".0".

(** [splitlines] of a text without line breaks. *)
Definition splitlines_single (s : string) : list string :=
  if String.eqb s "" then [] else [s].

(** The regular expression of [parseObject] on a name without line breaks: a
    parenthesis, at least one character, a parenthesis. *)
Definition match_parentheses (s : string) : option string :=
  let n := String.length s in
  if bool_decide (3 ≤ n)%nat
     && String.eqb (String.substring 0 1 s) "("
     && String.eqb (String.substring (n - 1) 1 s) ")"
  then Some (String.substring 1 (n - 2) s)
  else None.

(** A command from a list of parameters. *)
Definition command (name : string) (ps : list (string * Q)) : Command :=
  mkCommand name (list_to_map ps).

(** A stream with the default configuration and the drill retract mode of
    [Gcode.__init__]. *)
Definition stream (ls : list line) : Gcode :=
  set_lines (Gcode___init__ default_conf) ls.

(** ** The contracts of the specification, for comparison *)

(** The backward scan as the specification words it: every line from the
    end to the start of the stream is examined until one matches. *)
Fixpoint lastParameter_scan (param : string) (names : list string)
    (default : option Q) (backward : list line) : option Q :=
  match backward with
  | [] => default
  | LCommand c :: rest =>
      if (bool_decide (names = []) || bool_decide (Name c ∈ names))
         && bool_decide (is_Some (Parameters c !! param))
      then Parameters c !! param
      else lastParameter_scan param names default rest
  | _ :: rest => lastParameter_scan param names default rest
  end.

Definition lastParameter_spec (self : Gcode) (param : string)
    (names : list string) (default : option Q) : option Q :=
  lastParameter_scan param names default (reverse (lines self)).

Fixpoint lastCommand_scan (names : list string) (default : option Command)
    (backward : list line) : option Command :=
  match backward with
  | [] => default
  | LCommand c :: rest =>
      if bool_decide (Name c ∈ names) then Some c
      else lastCommand_scan names default rest
  | _ :: rest => lastCommand_scan names default rest
  end.

Definition lastCommand_spec (self : Gcode) (names : list string)
    (default : option Command) : option Command :=
  lastCommand_scan names default (reverse (lines self)).

(** The clamp of the specification. *)
Definition clamp (x lo hi : Q) : Q := Qmax lo (Qmin x hi).


(** The default configuration with line numbers switched on. *)
Definition numbered_conf : Configuration := {|
  header := true;
  comments := true;
  comment_symbols := GCODE_COMMENT_SYMBOLS;
  line_numbers := true;
  line_start := 1;
  line_increment := 1;
  remove_duplicates := true;
  precision := PRECISION;
  pause := "M76";
  units := "mm";
  postamble := "M400" +:+ LF +:+ "M5";
  translate_drill_cycles := true;
  tool_change := TCBool true;
  spindle_wait := 0;
  spacer := GCODE_SPACER;
  commands := GCODE_COMMANDS;
  final_position := None;
  machine := None;
  boundaries_check := true
|}.

(** How many of the lines are [Command] or plain [str] lines. *)
Fixpoint count_numbered (ls : list line) : nat :=
  match ls with
  | [] => 0
  | l :: rest =>
      (if is_Command_or_str l then 1 else 0) + count_numbered rest
  end.

(** What line [l], at position [j] of the stream [ls], contributes to the
    output when line numbers are on: nothing when its type is excluded; its
    text after [N<start + n * increment>] when it is a [Command] or a plain
    [str], [n] counting the lines of these two types before it; its bare
    text when it is a [Comment] or a [Header]. *)
Definition numbered_output (render : line → string) (cf : Configuration)
    (ls : list line) (j : nat) (l : line) : list string :=
  if in_types cf l
  then
    if is_Command_or_str l
    then ["N" +:+ pretty (line_start cf
                          + Z.of_nat (count_numbered (take j ls))
                            * line_increment cf)%Z
          +:+ spacer cf +:+ render l]
    else [render l]
  else [].

(** The replay as [checkBoundaries] does it.  The position that a line gives
    to an axis: the value of the axis parameter of a command named [G0] or
    [G1], the only two names the loop of the check reads. *)
Definition replayed_move (axis : string) (l : line) : option Q :=
  match l with
  | LCommand c =>
      if bool_decide (Name c ∈ ["G0"; "G1"]) then Parameters c !! axis
      else None
  | _ => None
  end.

(** The positions an axis takes in this replay, and the extent that the
    check compares with the limit: largest minus smallest position, both
    bounds starting at 0 as [boundaries] does. *)
Definition axis_moves (axis : string) (ls : list line) : list Q :=
  omap (replayed_move axis) ls.

Definition travel_max (axis : string) (ls : list line) : Q :=
  foldl Qmax 0%Q (axis_moves axis ls).

Definition travel_min (axis : string) (ls : list line) : Q :=
  foldl Qmin 0%Q (axis_moves axis ls).

Definition travel_extent (axis : string) (ls : list line) : Q :=
  (travel_max axis ls - travel_min axis ls)%Q.

(** The warning of the boundary check for an axis. *)
Definition boundary_warning (axis : string) : logmsg :=
  PrintWarning ("Boundary check: job exceeds machine limit on "
                +:+ axis +:+ " axis" +:+ LF).

(** The warnings of the check in terms of this extent: one per axis whose
    extent is above its limit, in the order X, Y, Z. *)
Definition expected_warnings (ls : list line) (limits : Q * Q * Q)
    : list logmsg :=
  let '(lx, ly, lz) := limits in
  (if bool_decide (lx < travel_extent "X" ls)%Q
   then [boundary_warning "X"] else [])
  ++ (if bool_decide (ly < travel_extent "Y" ls)%Q
      then [boundary_warning "Y"] else [])
  ++ (if bool_decide (lz < travel_extent "Z" ls)%Q
      then [boundary_warning "Z"] else []).








(** An envelope of 100 x 100 x 50 under a machine name, the default
    configuration set to that machine, and a job whose replay spans 120 on
    X, 30 on Y and 5 on Z. *)
Definition bench_BOUNDARIES : list (string * (Q * Q * Q)) :=
  [("bench", (100, 100, 50)%Q)].

Definition bench_conf : Configuration := {|
  header := true;
  comments := true;
  comment_symbols := GCODE_COMMENT_SYMBOLS;
  line_numbers := false;
  line_start := 1;
  line_increment := 1;
  remove_duplicates := true;
  precision := PRECISION;
  pause := "M76";
  units := "mm";
  postamble := "M400" +:+ LF +:+ "M5";
  translate_drill_cycles := true;
  tool_change := TCBool true;
  spindle_wait := 0;
  spacer := GCODE_SPACER;
  commands := GCODE_COMMANDS;
  final_position := None;
  machine := Some "bench";
  boundaries_check := true
|}.

Definition bench_job : Postprocessor := {|
  gcode := mkGcode [LComment "OPERATION: Profile";
                    LCommand (command "G0" [("X", (-20)%Q); ("Y", 30%Q)]);
                    LCommand (command "G1" [("Z", (-5)%Q); ("F", 2%Q)]);
                    LCommand (command "G1" [("X", 100%Q); ("F", 2%Q)])]
             bench_conf (LCommand (mkCommand DRILL_RETRACT_MODE ∅));
  job := None;
  console := []
|}.

(** Whether [Gcode.append] drops a line: duplicate removal is on, the stream
    is not empty, and its last line compares equal to the line. *)
Definition is_duplicate (g : Gcode) (l : line) : bool :=
  remove_duplicates (conf g)
  && match last (lines g) with
     | Some prev =>
         match line_eq prev l with
         | Ok b => b
         | _ => false
         end
     | None => false
     end.

(** The lines that a call has added to the stream. *)
Definition emitted (before after : Postprocessor) : list line :=
  drop (length (lines (gcode before))) (lines (gcode after)).

(** The depth of a feed move ([G1] with a Z parameter), and the depth of the
    last feed move of a list of lines. *)
Definition feed_depth (l : line) : option Q :=
  match l with
  | LCommand c =>
      if String.eqb (Name c) "G1" then Parameters c !! "Z" else None
  | _ => None
  end.

Definition last_feed_depth (ls : list line) : option Q :=
  last (omap feed_depth ls).

(** A rapid move that carries an X or a Y parameter. *)
Definition is_xy_move (l : line) : bool :=
  match l with
  | LCommand c =>
      String.eqb (Name c) "G0"
      && (bool_decide (is_Some (Parameters c !! "X"))
          || bool_decide (is_Some (Parameters c !! "Y")))
  | _ => false
  end.

(** The number of turns of the peck loop: the whole steps that fit between
    the retract height and the target depth. *)
Definition peck_turns (drillZ drillR drillStep : Q) : nat :=
  Z.to_nat (Qfloor ((drillR - drillZ) / drillStep)).

(** The position [translateDrill] reads from the stream. *)
Definition current_position (g : Gcode) (param : string) : option Q :=
  Gcode_lastParameter g param [] (-1) (Some 0%Q).

(** A path object with rapid speeds, and one without. *)
Definition drill_op : PathObject :=
  mkPathObject "Drilling" (Some (mkRapidSpeeds 10 20)) [].

Definition bare_op : PathObject := mkPathObject "Drilling" None [].

(** A postprocessor on a stream, with no job found. *)
Definition postprocessor (g : Gcode) : Postprocessor :=
  mkPostprocessor g None [].

(** The lines of the stream a call returns, when it returns. *)
Definition stream_of (r : result Postprocessor) : option (list line) :=
  match r with
  | Ok self => Some (lines (gcode self))
  | _ => None
  end.

(** The error printed for a cycle whose retract height is below its target
    depth. *)
Definition drill_error : logmsg :=
  PrintError ("Drill cycle error: R less than Z" +:+ LF).

(** Two states of the postprocessor with the same job, configuration and
    drill retract mode. *)
Definition same_context (self self' : Postprocessor) : Prop :=
  job self' = job self
  ∧ conf (gcode self') = conf (gcode self)
  ∧ drillRetractMode (gcode self') = drillRetractMode (gcode self).

(** The stream ends with a rapid move. *)
Definition ends_with_rapid (self : Postprocessor) : Prop :=
  ∃ p, last (lines (gcode self)) = Some (LCommand p) ∧ Name p = "G0".

(** Lines that are neither feed moves nor moves in X or Y. *)
Definition plain_rapids (ls : list line) : Prop :=
  Forall (λ l, is_xy_move l = false ∧ feed_depth l = None) ls.

(** Lines without a move in X or Y. *)
Definition no_xy_move (ls : list line) : Prop :=
  Forall (λ l, is_xy_move l = false) ls.

(** The parameters a cycle needs beyond X, Y, Z, R and F: P for G82; for G83
    a positive Q, and fuel for the turns of its loop. *)
Definition cycle_ready (fuel : nat) (cmd : Command) (z r : Q) : bool :=
  if String.eqb (Name cmd) "G82"
  then bool_decide (is_Some (Parameters cmd !! "P"))
  else if String.eqb (Name cmd) "G83"
  then match Parameters cmd !! "Q" with
       | Some q => bool_decide (0 < q)%Q
                   && bool_decide (peck_turns z r q ≤ fuel)%nat
       | None => false
       end
  else true.

(** A rapid move to the given X and Y. *)
Definition moves_to (x y : Q) (l : line) : Prop :=
  match l with
  | LCommand c =>
      Name c = "G0" ∧ Parameters c !! "X" = Some x ∧ Parameters c !! "Y" = Some y
  | _ => False
  end.

(** A peck cycle whose first peck depth R - Q is already below Z. *)
Definition peck_exceeds_depth (cmd : Command) (z r : Q) : bool :=
  String.eqb (Name cmd) "G83"
  && match Parameters cmd !! "Q" with
     | Some q => bool_decide (r - q < z)%Q
     | None => false
     end.

(** A line with every parameter value in lowest terms, and the stream a call
    returns with every line so written: float arithmetic is exact rational
    arithmetic here, and [1 - 2] and [-1] are equal fractions written
    differently. *)
Definition in_lowest_terms (l : line) : line :=
  match l with
  | LCommand c => LCommand (mkCommand (Name c) (Qred <$> Parameters c))
  | _ => l
  end.

Definition stream_in_lowest_terms (r : result Postprocessor)
    : option (list line) :=
  match stream_of r with
  | Some ls => Some (in_lowest_terms <$> ls)
  | None => None
  end.

(** ** Definitions for further properties *)

(** No two neighbouring lines of the stream compare equal. *)
Definition no_adjacent_duplicates (ls : list line) : Prop :=
  ∀ i a b, ls !! i = Some a → ls !! S i = Some b → line_eq a b ≠ Ok true.

(** The parameter letters [Command.__str__] has a branch for, among those
    its loop visits. *)
Definition rendered_letters : list string :=
  ["X"; "Y"; "Z"; "A"; "B"; "C"; "I"; "J"; "F"; "S"; "T"; "Q"; "R"; "L"; "H";
   "D"; "P"].

(** A command named exactly [G0] or [G1]. *)
Definition is_linear_move (l : line) : bool :=
  match l with
  | LCommand c => bool_decide (Name c ∈ ["G0"; "G1"])
  | _ => false
  end.

(** The stream of [self'] is the stream of [self] followed by lines that all
    satisfy [P]; the job and the configuration are the same. *)
Definition grows_by (P : line → Prop) (self self' : Postprocessor) : Prop :=
  job self' = job self
  ∧ conf (gcode self') = conf (gcode self)
  ∧ ∃ new, lines (gcode self') = lines (gcode self) ++ new ∧ Forall P new.

(** A line whose Z parameter, if it has one, lies between two heights. *)
Definition z_within (lo hi : Q) (l : line) : Prop :=
  match l with
  | LCommand c =>
      match Parameters c !! "Z" with
      | Some d => (lo <= d)%Q ∧ (d <= hi)%Q
      | None => True
      end
  | _ => True
  end.

(** The moves of a drill cycle after the rapid move to R: the [if] on the
    name of the cycle in [translateDrill], for the state [self] it has
    reached. *)
Definition cycle_moves (fuel : nat) (self : Postprocessor) (obj : PathObject)
    (cmd : Command) (z r f : Q) : result Postprocessor :=
  if String.eqb (Name cmd) "G81"
  then addCommand self (mkCommand "G1" {[ "Z" := z; "F" := f ]}) None
  else if String.eqb (Name cmd) "G82"
  then
    self ←! addCommand self (mkCommand "G1" {[ "Z" := z; "F" := f ]}) None;
    dwell ←! getitem (Parameters cmd) "P";
    addCommand self (mkCommand "G4" {[ "S" := dwell ]}) None
  else if String.eqb (Name cmd) "G83"
  then
    drillStep ←! getitem (Parameters cmd) "Q";
    peck_loop fuel self (Some obj) z r f drillStep (drillStep * (1 # 2))%Q
              (r - drillStep)%Q
  else Ok self.

(** The state that the cycle [G83 X1 Y1 Z-5 R0 Q2 F100] leaves on the stream
    [;c] [G0 Z0], for a path object and a job without rapid speeds: the
    chip clearance depths are written as the subtraction leaves them. *)
Definition pecked_hole : Postprocessor := {|
  gcode :=
    stream [LComment "c";
            LCommand (command "G0" [("Z", 0%Q)]);
            LCommand (command "G0" [("X", 1%Q); ("Y", 1%Q)]);
            LCommand (command "G0" [("Z", 0%Q)]);
            LCommand (command "G1" [("Z", (-2)%Q); ("F", 100%Q)]);
            LCommand (command "G0" [("Z", 0%Q)]);
            LCommand (command "G0" [("Z", (-2 # 2)%Q)]);
            LCommand (command "G1" [("Z", (-4)%Q); ("F", 100%Q)]);
            LCommand (command "G0" [("Z", 0%Q)]);
            LCommand (command "G0" [("Z", (-6 # 2)%Q)]);
            LCommand (command "G1" [("Z", (-5)%Q); ("F", 100%Q)]);
            LCommand (command "G0" [("Z", 0%Q)])];
  job := None;
  console :=
    replicate 7
      (PrintWarning ("No Rapid speeds (vertical and horizontal) set for the "
                     +:+ "selected job" +:+ LF))
|}.

(** ** Groups of path objects *)

(** What [parseObject] is called on: an object with a [Group] attribute (its
    label and its items; whether it also has a [Path] is never looked at), an
    object with a [Path], or any other object.  Every object has a
    [Label]. *)
#[warnings="-register-all"]
Inductive PathTree : Type :=
| TGroup (label : string) (items : list PathTree)
| TPath (label : string) (obj : PathObject)
| TOther (label : string).

Definition Label (t : PathTree) : string :=
  match t with
  | TGroup label _ | TPath label _ | TOther label => label
  end.

(** The loop [for item in obj.Group] of [parseObject], over the function that
    parses one item. *)
Fixpoint parseItems (parse : Postprocessor → PathTree → result Postprocessor)
    (self : Postprocessor) (items : list PathTree) : result Postprocessor :=
  match items with
  | [] => Ok self
  | item :: rest =>
      self ←! emit self (LComment ("PATH: " +:+ Label item));
      self ←! parse self item;
      parseItems parse self rest
  end.

(** [Postprocessor.parseObject(obj)], groups included. *)
Fixpoint parseTree (splitlines : string → list string)
    (PathCommand_str : Command → string)
    (match_comment : string → option string) (fuel : nat)
    (self : Postprocessor) (t : PathTree) {struct t} : result Postprocessor :=
  match t with
  | TGroup label items =>
      self ←! emit self (LComment ("GROUP: " +:+ label));
      parseItems
        (λ self item,
           parseTree splitlines PathCommand_str match_comment fuel self item)
        self items
  | TPath _ obj =>
      parseObject splitlines PathCommand_str match_comment fuel self obj
  | TOther _ => Ok self
  end.

(** The commands of all the paths of a tree. *)
Fixpoint tree_commands (t : PathTree) : list Command :=
  match t with
  | TGroup _ items => flat_map tree_commands items
  | TPath _ obj => Commands obj
  | TOther _ => []
  end.

(** A group that holds one path and one object that is neither a path nor a
    group, and the state [parseObject] leaves when it parses the group from
    an empty stream. *)
Definition grouped_job : PathTree :=
  TGroup "Job"
    [TPath "Profile"
       (mkPathObject "Profile" None
          [command "G1" [("X", 1%Q); ("F", 2%Q)]; command "G38" []]);
     TOther "Stock"].

Definition grouped_job_parsed : Postprocessor := {|
  gcode :=
    stream [LComment "GROUP: Job";
            LComment "PATH: Profile";
            LCommand (command "G1" [("X", 1%Q); ("F", 2%Q)]);
            LComment "PATH: Stock"];
  job := None;
  console := [PrintLog ("Processing object Profile" +:+ LF);
              PrintWarning ("Command ignored: G38" +:+ LF)]
|}.

(** ** The export *)

Definition GCODE_MOTION_MODE : string := "G90".
Definition GCODE_WORK_PLANE : string := "G17".

(** [GCODE_UNITS] and [GCODE_COOLANT]: dicts from a name to a command. *)
Definition GCODE_UNITS : list (string * string) :=
  [("mm", "G21"); ("in", "G20")].
Definition GCODE_COOLANT : list (string * string) :=
  [("mist", "F7"); ("flood", "M8"); ("off", "M9")].

(** [d[k]] on such a dict: [KeyError] when the key is missing. *)
Definition dict_getitem (d : list (string * string)) (k : string)
    : result string :=
  match list_find (λ e, fst e = k) d with
  | Some (_, e) => Ok (snd e)
  | None => Raise KeyError
  end.

(** The options of the namespace that only [export] reads. *)
Record ExportOptions : Type := mkExportOptions {
  thumbnail : bool;
  preamble : string;
  pre_operation : string;
  post_operation : string;
  tool_number : bool
}.

(** An object of the list handed to [export], as far as [export] looks at
    it: the object itself (what [parseObject] is given), its [Name], its
    text [f'{obj}'], what [obj.Proxy.getJob(obj)] returns ([None] here when
    the call raises [AttributeError]), whether it has a [Path], whether
    [PathUtil.opProperty(obj, "Active")] is [False], the [FullName] of its
    tool controller with the text [f'T{ToolNumber:02n}'] when it has a tool
    controller, and its coolant mode when it, or else its [Base], has a
    [CoolantMode]. *)
Record JobObject : Type := mkJobObject {
  obj_tree : PathTree;
  obj_Name : string;
  obj_str : string;
  obj_parent_job : option (option RapidSpeeds);
  obj_has_Path : bool;
  obj_inactive : bool;
  obj_tool : option (string * string);
  obj_coolant : option string
}.

(** [getSelectedJob()], with what it prints.  [GuiUp] is [FreeCAD.GuiUp];
    [selected_jobs] are the objects of the selection whose proxy is a job,
    in the order of the selection. *)
Definition getSelectedJob (GuiUp : bool) (selected_jobs : list RapidSpeeds)
    : option RapidSpeeds * list logmsg :=
  if GuiUp
  then
    match selected_jobs with
    | [] => (None, [])
    | [j] => (Some j, [])
    | j :: _ =>
        (Some j,
         [PrintWarning ("Only one job should be selected, using the first "
                        +:+ "one" +:+ LF)])
    end
  else
    (None,
     [PrintError ("No job can be found by selection without GUI" +:+ LF)]).

(** [getJob(obj)], with what it prints. *)
Definition getJob (obj : JobObject) : option RapidSpeeds * list logmsg :=
  match obj_parent_job obj with
  | Some found => (found, [])
  | None =>
      (None,
       [PrintLog ("No parent job was found for " +:+ obj_str obj +:+ LF)])
  end.

Definition print_all (self : Postprocessor) (ms : list logmsg)
    : Postprocessor :=
  {| gcode := gcode self; job := job self; console := console self ++ ms |}.

Definition set_job (self : Postprocessor) (j : option RapidSpeeds)
    : Postprocessor :=
  {| gcode := gcode self; job := j; console := console self |}.

(** The loop [for obj in objects: if job := getJob(obj): ...; break]. *)
Fixpoint find_parent_job (self : Postprocessor) (objects : list JobObject)
    : Postprocessor :=
  match objects with
  | [] => self
  | obj :: rest =>
      let self := print_all self (snd (getJob obj)) in
      match fst (getJob obj) with
      | Some j => set_job self (Some j)
      | None => find_parent_job self rest
      end
  end.

(** The search for the job at the start of [export]: the parent job of an
    object, else the job the postprocessor has, else the selected job, and
    an error when there is none. *)
Definition export_job (GuiUp : bool) (selected_jobs : list RapidSpeeds)
    (self : Postprocessor) (objects : list JobObject) : Postprocessor :=
  let self := find_parent_job self objects in
  let self :=
    match job self with
    | Some _ => self
    | None =>
        let selected := getSelectedJob GuiUp selected_jobs in
        print_all (set_job self (fst selected)) (snd selected)
    end in
  match job self with
  | Some _ => self
  | None =>
      print self
        (PrintError ("no job was found, please select a job before "
                     +:+ "calling the postprocessor" +:+ LF))
  end.

(** [getThumbnail(job)].  Without the GUI the text is empty.  With the GUI
    the models of the job are shown first: [job.Model] raises
    [AttributeError] when [job] is [None].  [image] is the base64 text of
    the picture that the view saves; the calls into the GUI are taken to
    return. *)
Definition getThumbnail (GuiUp : bool) (image : string)
    (job : option RapidSpeeds) : result string :=
  if GuiUp
  then
    match job with
    | Some _ => Ok ("thumbnail: data:image/png;base64," +:+ image)
    | None => Raise AttributeError
    end
  else Ok "".

(** The first part of [Postprocessor.export], after the argument string has
    been read, up to the commands of the configuration.  Outside this module
    and given here: [__name__] and the text of [datetime.now()]. *)
Definition export_start (splitlines : string → list string)
    (opts : ExportOptions) (module_name now : string)
    (GuiUp : bool) (selected_jobs : list RapidSpeeds) (image : string)
    (self : Postprocessor) (objects : list JobObject)
    : result Postprocessor :=
  let self :=
    print self (PrintMessage ("Post Processor: " +:+ module_name +:+ LF
                              +:+ "Postprocessing..." +:+ LF)) in
  let self := export_job GuiUp selected_jobs self objects in
  self ←! emit self (LHeader "Header Start");
  self ←! emit self (LHeader "Exported by FreeCAD");
  self ←! emit self (LHeader ("Postprocessor: " +:+ module_name));
  self ←! emit self (LHeader ("Output Time: " +:+ now));
  self ←! (if thumbnail opts
           then
             thumbnail_text ←! getThumbnail GuiUp image (job self);
             if negb (String.eqb thumbnail_text "")
             then emit self (LHeader thumbnail_text)
             else Ok self
           else Ok self);
  self ←! emit self (LHeader "Header End");
  self ←! emit self (LComment "PREAMBLE");
  self ←! emit_all self (splitlines (preamble opts));
  self ←! emit self (LComment "CONFIGURATION");
  self ←! addCommand self (mkCommand GCODE_MOTION_MODE ∅) None;
  unit_command ←! dict_getitem GCODE_UNITS (units (conf (gcode self)));
  self ←! addCommand self (mkCommand unit_command ∅) None;
  addCommand self (mkCommand GCODE_WORK_PLANE ∅) None.

(** The block [if hasattr(obj, 'ToolController')] of the loop of [export]:
    a pause when the tool controller is not the one of the operation before,
    the new value of the loop's variable [tool], and the tool number when it
    is asked for. *)
Definition export_tool (opts : ExportOptions) (self : Postprocessor)
    (tool : option string) (obj : JobObject)
    : result (Postprocessor * option string) :=
  match obj_tool obj with
  | Some (full_name, tool_word) =>
      self ←! match tool with
              | Some previous =>
                  if negb (String.eqb full_name previous)
                  then
                    self ←! emit self
                              (LComment ("TOOL CHANGE: " +:+ previous));
                    addCommand self
                      (mkCommand (pause (conf (gcode self))) ∅) None
                  else Ok self
              | None => Ok self
              end;
      self ←! (if tool_number opts
               then emit self (LStr tool_word)
               else Ok self);
      Ok (self, Some full_name)
  | None => Ok (self, tool)
  end.

(** The rest of a turn of the loop: the operation between its two comments,
    with the coolant switched on before and off after.  [lower] is
    [str.lower]. *)
Definition export_operation (splitlines : string → list string)
    (PathCommand_str : Command → string)
    (match_comment : string → option string) (lower : string → string)
    (opts : ExportOptions) (fuel : nat) (self : Postprocessor)
    (obj : JobObject) : result Postprocessor :=
  self ←! emit self (LComment ("OPERATION: " +:+ Label (obj_tree obj)));
  self ←! emit_all self (splitlines (pre_operation opts));
  let coolantMode := default "None" (obj_coolant obj) in
  self ←! (if negb (String.eqb coolantMode "None")
           then
             self ←! emit self (LComment ("COOLANT ON: " +:+ coolantMode));
             coolant_command ←! dict_getitem GCODE_COOLANT (lower coolantMode);
             addCommand self (mkCommand coolant_command ∅) None
           else Ok self);
  self ←! parseTree splitlines PathCommand_str match_comment fuel self
            (obj_tree obj);
  self ←! emit self
            (LComment ("END OF OPERATION: " +:+ Label (obj_tree obj)));
  self ←! emit_all self (splitlines (post_operation opts));
  if negb (String.eqb coolantMode "None")
  then
    self ←! emit self (LComment ("COOLANT OFF: " +:+ coolantMode));
    coolant_off ←! dict_getitem GCODE_COOLANT "off";
    addCommand self (mkCommand coolant_off ∅) None
  else Ok self.

(** One turn of the loop [for obj in objects] of [export]; [tool] is the
    loop's variable of that name. *)
Definition export_object (splitlines : string → list string)
    (PathCommand_str : Command → string)
    (match_comment : string → option string) (lower : string → string)
    (opts : ExportOptions) (fuel : nat)
    (state : Postprocessor * option string) (obj : JobObject)
    : result (Postprocessor * option string) :=
  let '(self, tool) := state in
  if negb (obj_has_Path obj)
  then Ok (print self
             (PrintWarning ("Object " +:+ obj_Name obj
                            +:+ " is not a valid Path. Please select only "
                            +:+ "Paths and Compounds" +:+ LF)),
           tool)
  else if obj_inactive obj
  then Ok (print self
             (PrintWarning ("Object " +:+ obj_Name obj
                            +:+ " is inactive and will be skipped" +:+ LF)),
           tool)
  else
    st ←! export_tool opts self tool obj;
    self ←! export_operation splitlines PathCommand_str match_comment lower
              opts fuel (fst st) obj;
    Ok (self, snd st).

(** The loop [for obj in objects]. *)
Fixpoint export_objects (splitlines : string → list string)
    (PathCommand_str : Command → string)
    (match_comment : string → option string) (lower : string → string)
    (opts : ExportOptions) (fuel : nat)
    (state : Postprocessor * option string) (objects : list JobObject)
    : result (Postprocessor * option string) :=
  match objects with
  | [] => Ok state
  | obj :: rest =>
      state ←! export_object splitlines PathCommand_str match_comment lower
                 opts fuel state obj;
      export_objects splitlines PathCommand_str match_comment lower opts fuel
        state rest
  end.

(** A lower-casing of the two coolant modes of FreeCAD, for closed
    examples. *)
Definition lower_coolant (s : string) : string :=
  if String.eqb s "Flood" then "flood"
  else if String.eqb s "Mist" then "mist"
  else s.

Definition plain_options : ExportOptions := {|
  thumbnail := true;
  preamble := "";
  pre_operation := "";
  post_operation := "";
  tool_number := false
|}.

(** An operation of a job, with a tool controller and flood coolant, one
    with a coolant mode that [GCODE_COOLANT] does not know, and the states
    that the export of the first one leaves from an empty stream: on its
    own, and after an operation of another tool. *)
Definition flood_profile : JobObject := {|
  obj_tree :=
    TPath "Profile"
      (mkPathObject "Profile" None [command "G1" [("X", 1%Q); ("F", 2%Q)]]);
  obj_Name := "Profile";
  obj_str := "<Path::FeaturePython object>";
  obj_parent_job := Some (Some (mkRapidSpeeds 10 20));
  obj_has_Path := true;
  obj_inactive := false;
  obj_tool := Some ("TC__Endmill", "T01");
  obj_coolant := Some "Flood"
|}.

Definition air_profile : JobObject := {|
  obj_tree := obj_tree flood_profile;
  obj_Name := "Profile";
  obj_str := "<Path::FeaturePython object>";
  obj_parent_job := None;
  obj_has_Path := true;
  obj_inactive := false;
  obj_tool := None;
  obj_coolant := Some "Air"
|}.

Definition flood_profile_lines : list line :=
  [LComment "OPERATION: Profile";
   LComment "COOLANT ON: Flood";
   LCommand (mkCommand "M8" ∅);
   LCommand (command "G1" [("X", 1%Q); ("F", 2%Q)]);
   LComment "END OF OPERATION: Profile";
   LComment "COOLANT OFF: Flood";
   LCommand (mkCommand "M9" ∅)].

Definition flood_profile_exported : Postprocessor := {|
  gcode := stream flood_profile_lines;
  job := None;
  console := [PrintLog ("Processing object Profile" +:+ LF)]
|}.

Definition flood_profile_after_drill : Postprocessor := {|
  gcode :=
    stream ([LComment "TOOL CHANGE: TC__Drill"; LCommand (mkCommand "M76" ∅)]
            ++ flood_profile_lines);
  job := None;
  console := [PrintLog ("Processing object Profile" +:+ LF)]
|}.

(** [Postprocessor.export] after the argument string has been read, up to
    the text that goes to the editor and the file: the search for the job,
    the header and the configuration, the loop over the objects with
    [tool = None] at first, and the end. *)
Definition export (MIN_SPINDLE_SPEED MAX_SPINDLE_SPEED : Z)
    (BOUNDARIES : list (string * (Q * Q * Q)))
    (unit_length unit_velocity : Q → string → Q) (float_repr : Q → string)
    (splitlines : string → list string) (PathCommand_str : Command → string)
    (match_comment : string → option string) (lower : string → string)
    (opts : ExportOptions) (module_name now : string) (GuiUp : bool)
    (selected_jobs : list RapidSpeeds) (image : string) (fuel : nat)
    (self : Postprocessor) (objects : list JobObject)
    : result (Postprocessor * string) :=
  self ←! export_start splitlines opts module_name now GuiUp selected_jobs
            image self objects;
  state ←! export_objects splitlines PathCommand_str match_comment lower opts
             fuel (self, None) objects;
  export_finish MIN_SPINDLE_SPEED MAX_SPINDLE_SPEED BOUNDARIES unit_length
    unit_velocity float_repr splitlines (fst state).

(** [str.splitlines] on ASCII text, for closed examples: a line ends at a
    line feed, a carriage return (with the line feed that follows it, if
    any), a vertical tab, a form feed, or a file, group or record
    separator; an empty last line is dropped. *)
Definition is_line_boundary (c : Ascii.ascii) : bool :=
  bool_decide (Ascii.nat_of_ascii c ∈ [10; 11; 12; 13; 28; 29; 30]%nat).

Fixpoint splitlines_from (current : string) (s : string) : list string :=
  match s with
  | EmptyString => if String.eqb current "" then [] else [current]
  | String c rest =>
      if is_line_boundary c
      then
        current
        :: match rest with
           | String c' rest' =>
               if Nat.eqb (Ascii.nat_of_ascii c) 13 && Nat.eqb (Ascii.nat_of_ascii c') 10
               then splitlines_from "" rest'
               else splitlines_from "" rest
           | EmptyString => []
           end
      else splitlines_from (current +:+ String c EmptyString) rest
  end.

Definition splitlines_ascii (s : string) : list string :=
  splitlines_from "" s.

(** * Properties *)

(** ** Equality never raises *)

Lemma getattr_Name_cases (o : pyobj) :
  (∃ n, getattr_Name o = Ok n) ∨ getattr_Name o = Raise AttributeError.
Proof. destruct o as [[]| | |[] ?]; simpl; eauto. Qed.

Lemma getattr_Parameters_cases (o : pyobj) :
  (∃ p, getattr_Parameters o = Ok p)
  ∨ getattr_Parameters o = Raise AttributeError.
Proof. destruct o as [[]| | |? []]; simpl; eauto. Qed.

Lemma Command___eq___total (c : Command) (o : pyobj) :
  ∃ b, Command___eq__ c o = Ok b.
Proof.
  unfold Command___eq__, Command___eq___try.
  destruct (getattr_Name_cases o) as [[n ->] | ->]; simpl; eauto.
  destruct (String.eqb (Name c) n); eauto.
  destruct (getattr_Parameters_cases o) as [[p ->] | ->]; simpl; eauto.
Qed.

Lemma Command___eq___no_attribute (c : Command) (o : pyobj) :
  getattr_Name o = Raise AttributeError
  ∨ getattr_Parameters o = Raise AttributeError →
  Command___eq__ c o = Ok false.
Proof.
  unfold Command___eq__, Command___eq___try.
  intros [H | H].
  - rewrite H. reflexivity.
  - destruct (getattr_Name_cases o) as [[n ->] | ->]; simpl; eauto.
    destruct (String.eqb (Name c) n); [ | reflexivity ].
    rewrite H. reflexivity.
Qed.

Lemma line_eq_total (a b : line) : ∃ r, line_eq a b = Ok r.
Proof.
  destruct a, b; simpl; eauto using Command___eq___total.
Qed.

Lemma line_eq_not_command (c : Command) (l : line) :
  (∀ c', l ≠ LCommand c') →
  line_eq (LCommand c) l = Ok false ∧ line_eq l (LCommand c) = Ok false.
Proof.
  intros Hl. destruct l; try (split; reflexivity).
  exfalso. eapply Hl. reflexivity.
Qed.

Lemma dict_eq_refl (m : gmap string Q) : dict_eq m m = true.
Proof.
  unfold dict_eq. apply bool_decide_eq_true_2.
  intros i. destruct (m !! i); simpl; [ apply Qeq_refl | exact I ].
Qed.

Lemma Command___eq___refl (c : Command) :
  Command___eq__ c (PyLine (LCommand c)) = Ok true.
Proof.
  unfold Command___eq__, Command___eq___try. simpl.
  rewrite String.eqb_refl, dict_eq_refl. reflexivity.
Qed.

Lemma Gcode_append_total (g : Gcode) (l : line) :
  ∃ g', Gcode_append g l = Ok g'
        ∧ conf g' = conf g
        ∧ drillRetractMode g' = drillRetractMode g
        ∧ (lines g' = lines g ∨ lines g' = lines g ++ [l]).
Proof.
  unfold Gcode_append.
  destruct (remove_duplicates (conf g)); simpl.
  - destruct (last (lines g)) as [prev | ]; simpl.
    + destruct (line_eq_total prev l) as [[] ->]; simpl; eauto 10.
    + eauto 10.
  - eauto 10.
Qed.

(** C10.  Comparing a [Command] with any value returns a boolean and never
    raises; the answer is [False] when the value lacks a [Name] or a
    [Parameters] attribute, as a plain string, a [Comment] and a [Header]
    do.  Hence [==] on two lines and duplicate removal in [Gcode.append] are
    always defined. *)
Theorem Command_equality_never_raises (c : Command) (o : pyobj) (s : string)
    (a b : line) (g : Gcode) :
  (∃ r, Command___eq__ c o = Ok r)
  ∧ match getattr_Name o, getattr_Parameters o with
    | Ok _, Ok _ => True
    | _, _ => Command___eq__ c o = Ok false
    end
  ∧ Command___eq__ c (PyLine (LStr s)) = Ok false
  ∧ Command___eq__ c (PyLine (LComment s)) = Ok false
  ∧ Command___eq__ c (PyLine (LHeader s)) = Ok false
  ∧ Command___eq__ c PyNone = Ok false
  ∧ (∃ r, line_eq a b = Ok r)
  ∧ (∃ g', Gcode_append g a = Ok g').
Proof.
  split; [ apply Command___eq___total | ].
  split.
  { destruct (getattr_Name_cases o) as [[n Hn] | Hn]; rewrite Hn.
    - destruct (getattr_Parameters_cases o) as [[p Hp] | Hp]; rewrite Hp.
      + exact I.
      + apply Command___eq___no_attribute. right. exact Hp.
    - apply Command___eq___no_attribute. left. exact Hn. }
  repeat split; try reflexivity.
  - apply line_eq_total.
  - destruct (Gcode_append_total g a) as (g' & Hg' & _). eauto.
Qed.

(** ** Appending twice *)

Lemma last_snoc_line (ls : list line) (l : line) : last (ls ++ [l]) = Some l.
Proof. apply last_snoc. Qed.

(** C5.  Appending the same instruction twice in a row: with duplicate
    removal the second append changes nothing, and the two appends together
    add one copy of the instruction (none when the stream already ended with
    an equal line); without duplicate removal they add two copies. *)
Theorem append_twice (g : Gcode) (x : Command) :
  ∃ g1 g2,
    Gcode_append g (LCommand x) = Ok g1
    ∧ Gcode_append g1 (LCommand x) = Ok g2
    ∧ if remove_duplicates (conf g)
      then g2 = g1
           ∧ (lines g2 = lines g ++ [LCommand x]
              ∨ (lines g2 = lines g
                 ∧ ∃ prev, last (lines g) = Some prev
                           ∧ line_eq prev (LCommand x) = Ok true))
      else lines g2 = lines g ++ [LCommand x; LCommand x].
Proof.
  unfold Gcode_append.
  destruct (remove_duplicates (conf g)) eqn:Hdup; simpl.
  - assert (Hnew : ∀ h : Gcode,
               remove_duplicates (conf h) = true →
               last (lines h) = Some (LCommand x) →
               (dup ←! (if remove_duplicates (conf h)
                        then match last (lines h) with
                             | Some prev => line_eq prev (LCommand x)
                             | None => Ok false
                             end
                        else Ok false);
                Ok (if dup : bool then h
                    else set_lines h (lines h ++ [LCommand x]))) = Ok h).
    { intros h -> ->. simpl. rewrite Command___eq___refl. reflexivity. }
    destruct (last (lines g)) as [prev | ] eqn:Hlast; simpl.
    + destruct (line_eq_total prev (LCommand x)) as [[] Heq]; rewrite Heq;
        simpl.
      * exists g, g. rewrite Hdup, Hlast, Heq. simpl. eauto 10.
      * eexists _, _. split; [ reflexivity | ].
        rewrite Hnew; [ | exact Hdup | apply last_snoc_line ]. eauto.
    + eexists _, _. split; [ reflexivity | ].
      rewrite Hnew; [ | exact Hdup | apply last_snoc_line ]. eauto.
  - eexists _, _. split; [ reflexivity | ]. simpl. rewrite Hdup. simpl.
    split; [ reflexivity | ]. rewrite <- app_assoc. reflexivity.
Qed.

(** ** Backward lookups *)

(** On a stream of two lines or more, [lastParameter] with the default
    [start] looks at the last line and at no other. *)
Lemma lastParameter_last (g : Gcode) (param : string) (default : option Q)
    (ls : list line) (l : line) :
  lines g = ls ++ [l] →
  ls ≠ [] →
  Gcode_lastParameter g param [] (-1) default
  = match l with
    | LCommand c =>
        match Parameters c !! param with
        | Some v => Some v
        | None => default
        end
    | _ => default
    end.
Proof.
  intros Hg Hls. unfold Gcode_lastParameter, start_index. rewrite Hg.
  rewrite length_app. simpl.
  destruct (decide (length ls + 1 = 0)%nat) as [? | _]; [ lia | ].
  assert (Hlen : (0 < length ls)%nat) by (destruct ls; [ done | simpl; lia ]).
  replace (Z.to_nat ((-1) `mod` Z.of_nat (length ls + 1))) with (length ls).
  2: { rewrite <- (Z.mod_unique (-1) (Z.of_nat (length ls + 1)) (-1)
                     (Z.of_nat (length ls))); lia. }
  destruct (length ls) as [ | k] eqn:Hk; [ lia | ]. simpl range_down.
  rewrite <- Hk. rewrite lookup_app_r by lia.
  replace (length ls - length ls)%nat with 0%nat by lia. simpl.
  destruct l as [c | | | ]; try reflexivity.
  destruct (Parameters c !! param) eqn:Hp.
  - rewrite bool_decide_eq_true_2 by eauto. reflexivity.
  - rewrite bool_decide_eq_false_2; [ reflexivity | ].
    intros [? ?]; discriminate.
Qed.

(** On a stream of exactly one line the loop body never runs and the call
    returns [None], whatever the default. *)
Lemma lastParameter_single (g : Gcode) (param : string) (names : list string)
    (default : option Q) (l : line) :
  lines g = [l] → Gcode_lastParameter g param names (-1) default = None.
Proof.
  intros Hg. unfold Gcode_lastParameter, start_index. rewrite Hg. reflexivity.
Qed.

Lemma lastParameter_empty (g : Gcode) (param : string) (names : list string)
    (default : option Q) :
  lines g = [] → Gcode_lastParameter g param names (-1) default = default.
Proof.
  intros Hg. unfold Gcode_lastParameter. rewrite Hg. reflexivity.
Qed.

(** C4.  The stream [G0 X5; ;c] has a command with an X parameter, yet
    [lastParameter] answers the default and [lastCommand] answers the
    default, because the loop returns after its first line; the full
    backward scan of the specification finds the command.  On the one-line
    stream [G0 X5] the code returns [None] and not even the default. *)
Theorem lastParameter_stops_after_one_line :
  let g := stream [LCommand (command "G0" [("X", 5%Q)]); LComment "c"] in
  let g1 := stream [LCommand (command "G0" [("X", 5%Q)])] in
  Gcode_lastParameter g "X" [] (-1) (Some 0%Q) = Some 0%Q
  ∧ lastParameter_spec g "X" [] (Some 0%Q) = Some 5%Q
  ∧ Gcode_lastCommand g ["G0"] (-1) None = None
  ∧ lastCommand_spec g ["G0"] None = Some (command "G0" [("X", 5%Q)])
  ∧ Gcode_lastParameter g1 "X" [] (-1) (Some 0%Q) = None
  ∧ lastParameter_spec g1 "X" [] (Some 0%Q) = Some 5%Q.
Proof. vm_compute. repeat split; reflexivity. Qed.

(** ** Fixed-point formatting and the spindle percentage *)


Lemma inject_Z_pos (n : Z) : (0 < n)%Z → (0 < inject_Z n)%Q.
Proof. intros H. unfold Qlt. simpl. lia. Qed.







Lemma py_min_Qmin (a b : Q) : (py_min a b == Qmin a b)%Q.
Proof.
  unfold py_min. destruct (Qlt_le_dec b a) as [H | H].
  - symmetry. apply Q.min_r. lra.
  - symmetry. apply Q.min_l. exact H.
Qed.

Lemma py_max_Qmax (a b : Q) : (py_max a b == Qmax a b)%Q.
Proof.
  unfold py_max. destruct (Qlt_le_dec a b) as [H | H].
  - symmetry. apply Q.max_r. lra.
  - symmetry. apply Q.max_l. exact H.
Qed.

Lemma speedAsPercent_clamp (MIN MAX : Z) (s : Q) :
  speedAsPercent MIN MAX s
  = Qfloor (clamp s (inject_Z MIN) (inject_Z MAX) * 100 / inject_Z MAX).
Proof.
  unfold speedAsPercent, clamp. apply Qfloor_comp.
  rewrite py_max_Qmax, py_min_Qmin, Q.max_comm. reflexivity.
Qed.

Lemma clamp_bounds (x lo hi : Q) :
  (lo <= hi)%Q → (lo <= clamp x lo hi <= hi)%Q.
Proof.
  intros H. unfold clamp. split.
  - apply Q.le_max_l.
  - apply Q.max_lub; [ exact H | apply Q.le_min_r ].
Qed.

Lemma speedAsPercent_range (MIN MAX : Z) (s : Q) :
  (0 < MIN)%Z → (MIN ≤ MAX)%Z → (0 ≤ speedAsPercent MIN MAX s ≤ 100)%Z.
Proof.
  intros Hmin Hle. rewrite speedAsPercent_clamp.
  assert (H0 : (0 < inject_Z MIN)%Q) by (apply inject_Z_pos, Hmin).
  assert (H1 : (inject_Z MIN <= inject_Z MAX)%Q)
    by (rewrite <- Zle_Qle; exact Hle).
  destruct (clamp_bounds s _ _ H1) as [Hlo Hhi].
  set (c := clamp s (inject_Z MIN) (inject_Z MAX)) in *.
  split.
  - apply (Z.le_trans _ (Qfloor 0)); [ reflexivity | ].
    apply Qfloor_resp_le, Qle_shift_div_l; lra.
  - apply (Z.le_trans _ (Qfloor 100)); [ | reflexivity ].
    apply Qfloor_resp_le, Qle_shift_div_r; lra.
Qed.




(** ** Line numbers *)

Lemma count_numbered_snoc (pre : list line) (l : line) :
  count_numbered (pre ++ [l])
  = (count_numbered pre + if is_Command_or_str l then 1 else 0)%nat.
Proof.
  induction pre as [ | x pre IH]; simpl; [ lia | ]. rewrite IH. lia.
Qed.

Lemma Gcode___str___lines_numbered (MIN MAX : Z)
    (unit_length unit_velocity : Q → string → Q) (float_repr : Q → string)
    (cf : Configuration) (ls pre : list line) :
  line_numbers cf = true →
  Gcode___str___lines MIN MAX unit_length unit_velocity float_repr cf
    (Z.of_nat (count_numbered pre)) ls
  = mjoin (imap (λ j l,
                   numbered_output
                     (line_str MIN MAX unit_length unit_velocity float_repr cf)
                     cf (pre ++ ls) (length pre + j) l) ls).
Proof.
  intros Hn. revert pre.
  induction ls as [ | l ls IH]; intros pre; [ reflexivity | ].
  assert (Htail : imap ((λ j l0,
                     numbered_output
                       (line_str MIN MAX unit_length unit_velocity float_repr
                          cf) cf (pre ++ l :: ls) (length pre + j) l0) ∘ S) ls
                  = imap (λ j l0,
                     numbered_output
                       (line_str MIN MAX unit_length unit_velocity float_repr
                          cf) cf ((pre ++ [l]) ++ ls)
                       (length (pre ++ [l]) + j) l0) ls).
  { apply imap_ext. intros j x _. simpl. rewrite <- app_assoc. simpl.
    rewrite length_app. simpl. f_equal. lia. }
  simpl Gcode___str___lines. simpl imap. rewrite Htail. clear Htail.
  simpl mjoin. unfold numbered_output at 1.
  replace (length pre + 0)%nat with (length pre) by lia.
  rewrite take_app_length. rewrite Hn. simpl andb.
  destruct (in_types cf l) eqn:Hin.
  - destruct (is_Command_or_str l) eqn:Hcs.
    + simpl. f_equal. rewrite <- IH. f_equal.
      rewrite count_numbered_snoc, Hcs. lia.
    + simpl. f_equal. rewrite <- IH. f_equal.
      rewrite count_numbered_snoc, Hcs. lia.
  - simpl. rewrite <- IH. f_equal.
    rewrite count_numbered_snoc.
    destruct l; simpl in *; try discriminate; lia.
Qed.

(** C9, as amended.  With line numbers on, every rendered [Command] line and
    every rendered raw text line starts with [N<start + n * increment>],
    where [n] counts the lines of these two types that precede it; a rendered
    [Comment] or [Header] line carries no number and does not advance the
    count. *)
Theorem line_numbers_on_commands_and_raw_text (MIN MAX : Z)
    (unit_length unit_velocity : Q → string → Q) (float_repr : Q → string)
    (g : Gcode) :
  line_numbers (conf g) = true →
  Gcode___str__ MIN MAX unit_length unit_velocity float_repr g
  = String.concat LF
      (mjoin (imap (numbered_output
                      (line_str MIN MAX unit_length unit_velocity float_repr
                         (conf g)) (conf g) (lines g))
                   (lines g))).
Proof.
  intros Hn. unfold Gcode___str__. f_equal.
  apply (Gcode___str___lines_numbered MIN MAX unit_length unit_velocity
           float_repr (conf g) (lines g) [] Hn).
Qed.

Lemma line_numbers_on_commands_and_raw_text_witness :
  Gcode___str__ 6000 12000 metric_length metric_velocity repr_integral
    (mkGcode [LCommand (command "G90" []); LStr "M400"] numbered_conf
       (LStr "G98"))
  = String.concat LF
      (mjoin (imap (numbered_output
                      (line_str 6000 12000 metric_length metric_velocity
                         repr_integral numbered_conf) numbered_conf
                      [LCommand (command "G90" []); LStr "M400"])
                   [LCommand (command "G90" []); LStr "M400"])).
Proof.
  apply (line_numbers_on_commands_and_raw_text 6000 12000 metric_length
           metric_velocity repr_integral
           (mkGcode [LCommand (command "G90" []); LStr "M400"] numbered_conf
              (LStr "G98"))).
  reflexivity.
Defined.

(** C9, as stated, fails: with line numbers on (start 1, increment 1) and
    comments included, the stream [;c, G90] is rendered as the two lines
    [;c] and [N1 G90]; the first rendered line has no line number. *)
Lemma comment_line_is_not_numbered :
  Gcode___str___lines 6000 12000 metric_length metric_velocity repr_integral
    numbered_conf 0 [LComment "c"; LCommand (command "G90" [])]
  = [";c"; "N1 G90"]
  ∧ Gcode___str___lines 6000 12000 metric_length metric_velocity
      repr_integral numbered_conf 0
      [LComment "c"; LCommand (command "G90" [])]
    ≠ ["N1 ;c"; "N2 G90"].
Proof. split; [ vm_compute; reflexivity | vm_compute; discriminate ]. Qed.

(** ** Boundary check *)

Lemma foldl_Qmax_comp (l : list Q) (x y : Q) :
  (x == y)%Q → (foldl Qmax x l == foldl Qmax y l)%Q.
Proof.
  revert x y. induction l as [ | v l IH]; intros x y H; simpl; [ exact H | ].
  apply IH. rewrite H. reflexivity.
Qed.

Lemma foldl_Qmin_comp (l : list Q) (x y : Q) :
  (x == y)%Q → (foldl Qmin x l == foldl Qmin y l)%Q.
Proof.
  revert x y. induction l as [ | v l IH]; intros x y H; simpl; [ exact H | ].
  apply IH. rewrite H. reflexivity.
Qed.

Lemma foldl_Qmax_ge (l : list Q) (x : Q) : (x <= foldl Qmax x l)%Q.
Proof.
  revert x. induction l as [ | v l IH]; intros x; simpl; [ lra | ].
  eapply Qle_trans; [ apply (Q.le_max_l x v) | apply IH ].
Qed.

Lemma foldl_Qmin_le (l : list Q) (x : Q) : (foldl Qmin x l <= x)%Q.
Proof.
  revert x. induction l as [ | v l IH]; intros x; simpl; [ lra | ].
  eapply Qle_trans; [ apply IH | apply (Q.le_min_l x v) ].
Qed.

Lemma travel_extent_nonneg (axis : string) (ls : list line) :
  (0 <= travel_extent axis ls)%Q.
Proof.
  unfold travel_extent, travel_max, travel_min.
  pose proof (foldl_Qmax_ge (axis_moves axis ls) 0).
  pose proof (foldl_Qmin_le (axis_moves axis ls) 0). lra.
Qed.

(** What one replayed line does to the [max, min] pair of an axis. *)
Lemma replay_line_axis (r : replay) (l : line) (a : string) :
  relative r = false →
  a ∈ axes →
  relative (replay_line r l) = false
  ∧ boundaries (replay_line r l) !!! a
    = match replayed_move a l with
      | Some v => (py_max (fst (boundaries r !!! a)) v,
                   py_min (snd (boundaries r !!! a)) v)
      | None => boundaries r !!! a
      end.
Proof.
  intros Hrel Ha. destruct l as [c | s | s | s]; simpl; try (split; done).
  destruct (String.eqb (Name c) "G90") eqn:H90.
  { apply String.eqb_eq in H90. rewrite H90. simpl. split; done. }
  destruct (String.eqb (Name c) "G91") eqn:H91.
  { apply String.eqb_eq in H91. rewrite H91. simpl. split; done. }
  destruct (bool_decide (Name c ∈ ["G0"; "G1"])); [ | split; done ].
  unfold axes in *. simpl foldl. unfold replay_axis.
  destruct (Parameters c !! "X") as [x | ] eqn:HX;
    destruct (Parameters c !! "Y") as [y | ] eqn:HY;
    destruct (Parameters c !! "Z") as [z | ] eqn:HZ;
    simpl; rewrite ?Hrel; simpl; (split; [ reflexivity || exact Hrel | ]);
    apply list_elem_of_In in Ha; simpl in Ha;
    destruct Ha as [<- | [<- | [<- | []]]];
    rewrite ?HX, ?HY, ?HZ;
    repeat (rewrite lookup_total_insert_eq
            || rewrite lookup_total_insert_ne by done);
    reflexivity.
Qed.

Lemma replay_boundaries (ls : list line) (r : replay) (a : string) :
  relative r = false →
  a ∈ axes →
  (fst (boundaries (foldl replay_line r ls) !!! a)
   == foldl Qmax (fst (boundaries r !!! a)) (axis_moves a ls))%Q
  ∧ (snd (boundaries (foldl replay_line r ls) !!! a)
     == foldl Qmin (snd (boundaries r !!! a)) (axis_moves a ls))%Q.
Proof.
  intros Hrel Ha. revert r Hrel.
  induction ls as [ | l ls IH]; intros r Hrel; simpl; [ split; reflexivity | ].
  destruct (replay_line_axis r l a Hrel Ha) as [Hrel' Hb].
  destruct (IH _ Hrel') as [IHmax IHmin]. rewrite IHmax, IHmin, Hb.
  unfold axis_moves. simpl omap.
  destruct (replayed_move a l) as [v | ]; simpl; [ | split; reflexivity ].
  split.
  - apply foldl_Qmax_comp, py_max_Qmax.
  - apply foldl_Qmin_comp, py_min_Qmin.
Qed.

Lemma replay_extent (ls : list line) (a : string) :
  a ∈ axes →
  let b := boundaries (foldl replay_line replay_init ls) !!! a in
  (Qabs (fst b - snd b) == travel_extent a ls)%Q.
Proof.
  intros Ha b.
  destruct (replay_boundaries ls replay_init a eq_refl Ha) as [Hmax Hmin].
  fold b in Hmax, Hmin.
  assert (Hinit : boundaries replay_init !!! a = (0, 0)%Q).
  { apply list_elem_of_In in Ha. simpl in Ha.
    destruct Ha as [<- | [<- | [<- | []]]]; reflexivity. }
  rewrite Hinit in Hmax, Hmin. simpl in Hmax, Hmin.
  fold (travel_max a ls) in Hmax. fold (travel_min a ls) in Hmin.
  pose proof (travel_extent_nonneg a ls) as Hpos. unfold travel_extent in *.
  rewrite Hmax, Hmin. apply Qabs_pos. exact Hpos.
Qed.

Lemma bool_decide_Qlt_comp (x y z : Q) :
  (y == z)%Q → bool_decide (x < y)%Q = bool_decide (x < z)%Q.
Proof. intros H. apply bool_decide_ext. rewrite H. reflexivity. Qed.

(** The warnings of the check are those of the specification. *)
Lemma boundary_warnings_expected (ls : list line) (limits : Q * Q * Q) :
  boundary_warnings (foldl replay_line replay_init ls) limits
  = expected_warnings ls limits.
Proof.
  destruct limits as [[lx ly] lz]. unfold boundary_warnings, expected_warnings.
  unfold axes. cbn [flat_map zip_with fst snd].
  rewrite (bool_decide_Qlt_comp lx _ _ (replay_extent ls "X" ltac:(set_solver))).
  rewrite (bool_decide_Qlt_comp ly _ _ (replay_extent ls "Y" ltac:(set_solver))).
  rewrite (bool_decide_Qlt_comp lz _ _ (replay_extent ls "Z" ltac:(set_solver))).
  rewrite app_nil_r. reflexivity.
Qed.

(** ** The end of the export *)

Lemma emit_total (self : Postprocessor) (l : line) :
  ∃ self', emit self l = Ok self'
           ∧ conf (gcode self') = conf (gcode self)
           ∧ console self' = console self.
Proof.
  unfold emit. destruct (Gcode_append_total (gcode self) l)
    as (g' & -> & Hconf & _). simpl. eauto.
Qed.

Lemma emit_all_total (ls : list string) (self : Postprocessor) :
  ∃ self', emit_all self ls = Ok self'
           ∧ conf (gcode self') = conf (gcode self)
           ∧ console self' = console self.
Proof.
  revert self. induction ls as [ | l ls IH]; intros self; simpl; [ eauto | ].
  destruct (emit_total self (LStr l)) as (s1 & -> & Hc1 & Hk1). simpl.
  destruct (IH s1) as (s2 & -> & Hc2 & Hk2).
  exists s2. rewrite Hc2, Hc1, Hk2, Hk1. eauto.
Qed.

(** The end of the export always produces the text of the stream, with or
    without a boundary check, whatever the check prints. *)
Lemma export_finish_total (MIN MAX : Z) (BOUNDARIES : list (string * (Q * Q * Q)))
    (unit_length unit_velocity : Q → string → Q) (float_repr : Q → string)
    (splitlines : string → list string) (self : Postprocessor) :
  ∃ self' text,
    export_finish MIN MAX BOUNDARIES unit_length unit_velocity float_repr
      splitlines self = Ok (self', text)
    ∧ text = Gcode___str__ MIN MAX unit_length unit_velocity float_repr
               (gcode self').
Proof.
  unfold export_finish.
  assert (H1 : ∃ s1, match final_position (conf (gcode self)) with
                     | Some c => emit self (LCommand c)
                     | None => Ok self
                     end = Ok s1).
  { destruct (final_position (conf (gcode self))) as [c | ]; [ | eauto ].
    destruct (emit_total self (LCommand c)) as (s1 & -> & _). eauto. }
  destruct H1 as [s1 ->]. simpl.
  destruct (emit_total s1 (LComment "POSTAMBLE")) as (s2 & -> & _). simpl.
  destruct (emit_all_total (splitlines (postamble (conf (gcode self)))) s2)
    as (s3 & -> & _). simpl.
  destruct (boundaries_check (conf (gcode self))); eauto.
Qed.

Lemma boundary_warning_distinct :
  boundary_warning "X" ≠ boundary_warning "Y"
  ∧ boundary_warning "X" ≠ boundary_warning "Z"
  ∧ boundary_warning "Y" ≠ boundary_warning "Z"
  ∧ (∀ a, boundary_warning a ≠ PrintLog "Boundaries check/n").
Proof. repeat split; try (vm_compute; discriminate); discriminate. Qed.

Ltac warning_member :=
  repeat match goal with
         | |- context [bool_decide ?P] => destruct (bool_decide_reflect P)
         end;
  simpl; rewrite ?elem_of_cons, ?elem_of_nil; intuition congruence.

(** What the check does, in terms of its own replay.  With a machine of the
    table selected, it prints, after its log line, a warning for exactly the
    axes whose extent in the replay of the commands named [G0] and [G1],
    which starts at 0, is above the limit of the axis.  With the limits
    (100, 100, 50), such an extent of 120 on X and extents within the limits
    on Y and Z, the only warning is the one for X.  The end of the export
    returns the text of the stream in every case. *)
Theorem boundary_check_reports_exceeded_axes (MIN MAX : Z)
    (BOUNDARIES : list (string * (Q * Q * Q)))
    (unit_length unit_velocity : Q → string → Q) (float_repr : Q → string)
    (splitlines : string → list string) (self : Postprocessor)
    (name : string) (lx ly lz : Q) :
  machine (conf (gcode self)) = Some name →
  machine_limits BOUNDARIES name = Some (lx, ly, lz) →
  let ls := lines (gcode self) in
  let printed := snd (checkBoundaries BOUNDARIES self) in
  printed = PrintLog "Boundaries check/n" :: expected_warnings ls (lx, ly, lz)
  ∧ (boundary_warning "X" ∈ printed ↔ (lx < travel_extent "X" ls)%Q)
  ∧ (boundary_warning "Y" ∈ printed ↔ (ly < travel_extent "Y" ls)%Q)
  ∧ (boundary_warning "Z" ∈ printed ↔ (lz < travel_extent "Z" ls)%Q)
  ∧ ((lx == 100)%Q → (ly == 100)%Q → (lz == 50)%Q →
     (travel_extent "X" ls == 120)%Q →
     (travel_extent "Y" ls <= 100)%Q →
     (travel_extent "Z" ls <= 50)%Q →
     printed = [PrintLog "Boundaries check/n"; boundary_warning "X"])
  ∧ ∃ self' text,
      export_finish MIN MAX BOUNDARIES unit_length unit_velocity float_repr
        splitlines self = Ok (self', text)
      ∧ text = Gcode___str__ MIN MAX unit_length unit_velocity float_repr
                 (gcode self').
Proof.
  intros Hm Hl ls printed.
  assert (Hp : printed
               = PrintLog "Boundaries check/n"
                 :: expected_warnings ls (lx, ly, lz)).
  { unfold printed, checkBoundaries. rewrite Hm.
    change (Some name ≫= machine_limits BOUNDARIES)
      with (machine_limits BOUNDARIES name).
    rewrite Hl. cbn [snd]. rewrite boundary_warnings_expected. reflexivity. }
  destruct boundary_warning_distinct as (HXY & HXZ & HYZ & HL).
  split; [ exact Hp | ].
  rewrite Hp. unfold expected_warnings.
  split; [ | split; [ | split; [ | split ] ] ].
  - pose proof (HL "X"). warning_member.
  - pose proof (HL "Y"). warning_member.
  - pose proof (HL "Z"). warning_member.
  - intros Ex Ey Ez HX HY HZ.
    rewrite bool_decide_eq_true_2 by lra.
    rewrite bool_decide_eq_false_2 by lra.
    rewrite bool_decide_eq_false_2 by lra. reflexivity.
  - apply export_finish_total.
Qed.

Lemma boundary_check_reports_exceeded_axes_witness :
  snd (checkBoundaries bench_BOUNDARIES bench_job)
  = [PrintLog "Boundaries check/n"; boundary_warning "X"].
Proof.
  apply (boundary_check_reports_exceeded_axes 6000 12000 bench_BOUNDARIES
           metric_length metric_velocity repr_integral splitlines_single
           bench_job "bench" 100 100 50 eq_refl eq_refl);
    vm_compute; reflexivity || discriminate.
Defined.


(** ** Appending commands *)

Lemma Gcode_append_eq (g : Gcode) (l : line) :
  Gcode_append g l
  = Ok (if is_duplicate g l then g else set_lines g (lines g ++ [l])).
Proof.
  unfold Gcode_append, is_duplicate.
  destruct (remove_duplicates (conf g)); simpl; [ | reflexivity ].
  destruct (last (lines g)) as [prev | ]; simpl; [ | reflexivity ].
  destruct (line_eq_total prev l) as [b ->]. reflexivity.
Qed.

Lemma addCommand_eq (self : Postprocessor) (c : Command)
    (obj : option PathObject) :
  addCommand self c obj
  = Ok {| gcode := if is_duplicate (gcode self) (LCommand c)
                   then gcode self
                   else set_lines (gcode self)
                          (lines (gcode self)
                           ++ [LCommand (fst (rapid_feed self c obj))]);
          job := job self;
          console := console self ++ snd (rapid_feed self c obj) |}.
Proof.
  unfold addCommand. rewrite Gcode_append_eq. simpl.
  destruct (rapid_feed self c obj) as [c' msgs]. simpl.
  destruct (is_duplicate (gcode self) (LCommand c)).
  - rewrite bool_decide_eq_true_2 by reflexivity. reflexivity.
  - rewrite bool_decide_eq_false_2; [ reflexivity | ].
    simpl. rewrite length_app. simpl. lia.
Qed.

Lemma rapid_feed_job (self self' : Postprocessor) (c : Command)
    (obj : option PathObject) :
  job self' = job self → rapid_feed self' c obj = rapid_feed self c obj.
Proof. intros H. unfold rapid_feed. rewrite H. reflexivity. Qed.

Lemma rapid_feed_Name (self : Postprocessor) (c : Command)
    (obj : option PathObject) :
  Name (fst (rapid_feed self c obj)) = Name c.
Proof.
  unfold rapid_feed.
  destruct (bool_decide (Name c ∈ ["G0"; "G00"])
            && negb (bool_decide (is_Some (Parameters c !! "F"))));
    [ | reflexivity ].
  destruct (getRapidSpeeds obj (job self)) as [[[v | ] [h | ]] msgs];
    try reflexivity.
  destruct (bool_decide (is_Some (Parameters c !! "X"))
            || bool_decide (is_Some (Parameters c !! "Y")));
    destruct (bool_decide (is_Some (Parameters c !! "Z"))); reflexivity.
Qed.

Lemma rapid_feed_Parameters (self : Postprocessor) (c : Command)
    (obj : option PathObject) (k : string) :
  k ≠ "F" →
  Parameters (fst (rapid_feed self c obj)) !! k = Parameters c !! k.
Proof.
  intros Hk. unfold rapid_feed.
  destruct (bool_decide (Name c ∈ ["G0"; "G00"])
            && negb (bool_decide (is_Some (Parameters c !! "F"))));
    [ | reflexivity ].
  destruct (getRapidSpeeds obj (job self)) as [[[v | ] [h | ]] msgs];
    try reflexivity.
  destruct (bool_decide (is_Some (Parameters c !! "X"))
            || bool_decide (is_Some (Parameters c !! "Y")));
    destruct (bool_decide (is_Some (Parameters c !! "Z"))); simpl;
    try reflexivity; apply lookup_insert_ne; congruence.
Qed.

Lemma rapid_feed_feed (self : Postprocessor) (c : Command)
    (obj : option PathObject) :
  Name c = "G1" → rapid_feed self c obj = (c, []).
Proof. intros H. unfold rapid_feed. rewrite H. reflexivity. Qed.

(** A line is dropped as a duplicate only after a command of the same name
    with equal parameters. *)
Lemma is_duplicate_Command (g : Gcode) (c : Command) :
  is_duplicate g (LCommand c) = true →
  ∃ p, last (lines g) = Some (LCommand p)
       ∧ Name p = Name c
       ∧ dict_eq (Parameters p) (Parameters c) = true.
Proof.
  unfold is_duplicate. intros H. apply andb_true_iff in H as [_ H].
  destruct (last (lines g)) as [[p | s | s | s] | ]; simpl in H;
    try discriminate.
  exists p. split; [ reflexivity | ].
  unfold Command___eq__, Command___eq___try in H. simpl in H.
  destruct (String.eqb (Name p) (Name c)) eqn:Hn; simpl in H;
    [ | discriminate ].
  apply String.eqb_eq in Hn. split; [ exact Hn | exact H ].
Qed.

Lemma dict_eq_lookup (m1 m2 : gmap string Q) (k : string) :
  dict_eq m1 m2 = true →
  match m1 !! k, m2 !! k with
  | Some v1, Some v2 => (v1 == v2)%Q
  | None, None => True
  | _, _ => False
  end.
Proof.
  unfold dict_eq. intros H. apply bool_decide_eq_true in H.
  specialize (H k). destruct (m1 !! k), (m2 !! k); simpl in H; exact H.
Qed.

(** ** Drill cycles: rejection *)

(** C6.  A drill cycle (G81, G82, G83, with its X, Y, Z, R and F parameters)
    whose R is below its Z makes [translateDrill] print an error and return
    with the stream as it was; the command loop of [parseObject] then goes on
    with the next command. *)
Theorem drill_cycle_below_target_is_skipped
    (splitlines : string → list string) (PathCommand_str : Command → string)
    (match_comment : string → option string) (fuel : nat)
    (self : Postprocessor) (obj : PathObject) (cmd : Command)
    (rest : list Command) (x y z r f : Q) :
  bool_decide (Name cmd ∈ ["G81"; "G82"; "G83"]) = true →
  Parameters cmd !! "X" = Some x →
  Parameters cmd !! "Y" = Some y →
  Parameters cmd !! "Z" = Some z →
  Parameters cmd !! "R" = Some r →
  Parameters cmd !! "F" = Some f →
  (r < z)%Q →
  translateDrill fuel self cmd obj = Ok (print self drill_error)
  ∧ gcode (print self drill_error) = gcode self
  ∧ (bool_decide (Name cmd ∈ commands (conf (gcode self))) = false →
     translate_drill_cycles (conf (gcode self)) = true →
     parseCommands splitlines PathCommand_str match_comment fuel self obj
       (cmd :: rest)
     = parseCommands splitlines PathCommand_str match_comment fuel
         (print self drill_error) obj rest).
Proof.
  intros Hname HX HY HZ HR HF Hlt.
  assert (Ht : translateDrill fuel self cmd obj = Ok (print self drill_error)).
  { unfold translateDrill, getitem. rewrite HX, HY, HZ, HR, HF. simpl.
    rewrite bool_decide_eq_true_2 by exact Hlt. reflexivity. }
  split; [ exact Ht | ]. split; [ reflexivity | ].
  intros Hcmds Htr. simpl parseCommands. unfold parseCommand.
  rewrite Hcmds, Htr, Hname.
  assert (H98 : bool_decide (Name cmd ∈ ["G98"; "G99"]) = false).
  { apply bool_decide_eq_true in Hname.
    apply list_elem_of_In in Hname. simpl in Hname.
    destruct Hname as [<- | [<- | [<- | []]]]; reflexivity. }
  rewrite H98. simpl. rewrite Ht. reflexivity.
Qed.

Lemma drill_cycle_below_target_is_skipped_witness :
  translateDrill 0
    (postprocessor (stream [LComment "c"; LCommand (command "G0" [("Z", 5%Q)])]))
    (command "G81" [("X", 1%Q); ("Y", 1%Q); ("Z", (-5)%Q); ("R", (-10)%Q);
                    ("F", 100%Q)])
    drill_op
  = Ok (print
          (postprocessor
             (stream [LComment "c"; LCommand (command "G0" [("Z", 5%Q)])]))
          drill_error).
Proof.
  apply (drill_cycle_below_target_is_skipped splitlines_single Name
           match_parentheses 0
           (postprocessor
              (stream [LComment "c"; LCommand (command "G0" [("Z", 5%Q)])]))
           drill_op
           (command "G81" [("X", 1%Q); ("Y", 1%Q); ("Z", (-5)%Q);
                           ("R", (-10)%Q); ("F", 100%Q)])
           [] 1 1 (-5) (-10) 100);
    reflexivity.
Defined.

(** ** Drill cycles: retract height *)

(** While the mode is the [Command] object of [Gcode.__init__], the test
    [drillRetractMode == "G98"] is false and the retract height is R. *)
Lemma retract_height_Command_mode (self : Postprocessor) (c : Command)
    (positionZ : option Q) (drillR : Q) :
  drillRetractMode (gcode self) = LCommand c →
  retract_height self positionZ drillR = Ok drillR.
Proof. intros H. unfold retract_height. rewrite H. reflexivity. Qed.

(** Once a G98 or G99 command of the path has stored its name (a string) as
    the mode, the retract height follows the rule of the specification. *)
Lemma retract_height_str_mode (self : Postprocessor) (mode : string)
    (z drillR : Q) :
  drillRetractMode (gcode self) = LStr mode →
  retract_height self (Some z) drillR
  = Ok (if String.eqb mode "G98" && bool_decide (drillR < z)%Q
        then z else drillR).
Proof.
  intros H. unfold retract_height. rewrite H. simpl.
  destruct (String.eqb mode "G98"); simpl; [ | reflexivity ].
  destruct (bool_decide (drillR < z)%Q); reflexivity.
Qed.

(** C3, at the failing input.  Default configuration and default mode
    ("G98", return to initial height), current Z = 10, cycle
    [G81 X1 Y1 Z-5 R2 F100]: the claim asks for the retract height 10, the
    code uses R = 2 and ends the cycle with [G0 Z2].  The same cycle after a
    G98 command of the path retracts to Z = 10. *)
Theorem default_retract_mode_uses_R :
  let before :=
    postprocessor
      (stream [LComment "c"; LCommand (command "G0" [("Z", 10%Q)])]) in
  let cycle :=
    command "G81" [("X", 1%Q); ("Y", 1%Q); ("Z", (-5)%Q); ("R", 2%Q);
                   ("F", 100%Q)] in
  drillRetractMode (gcode before) = LCommand (command "G98" [])
  ∧ current_position (gcode before) "Z" = Some 10%Q
  ∧ retract_height before (Some 10%Q) 2 = Ok 2%Q
  ∧ stream_of (translateDrill 0 before cycle bare_op)
    = Some [LComment "c";
            LCommand (command "G0" [("Z", 10%Q)]);
            LCommand (command "G0" [("X", 1%Q); ("Y", 1%Q)]);
            LCommand (command "G0" [("Z", 2%Q)]);
            LCommand (command "G1" [("Z", (-5)%Q); ("F", 100%Q)]);
            LCommand (command "G0" [("Z", 2%Q)])]
  ∧ stream_of (parseCommands splitlines_single Name match_parentheses 0
                 before bare_op [command "G98" []; cycle])
    = Some [LComment "c";
            LCommand (command "G0" [("Z", 10%Q)]);
            LCommand (command "G0" [("X", 1%Q); ("Y", 1%Q)]);
            LCommand (command "G0" [("Z", 2%Q)]);
            LCommand (command "G1" [("Z", (-5)%Q); ("F", 100%Q)]);
            LCommand (command "G0" [("Z", 10%Q)])].
Proof. vm_compute. repeat split; reflexivity. Qed.

(** ** Drill cycles: the moves of a translated cycle *)

Lemma same_context_refl (self : Postprocessor) : same_context self self.
Proof. repeat split. Qed.

Lemma same_context_trans (a b c : Postprocessor) :
  same_context a b → same_context b c → same_context a c.
Proof.
  intros (H1 & H2 & H3) (H4 & H5 & H6). repeat split; congruence.
Qed.

Lemma not_duplicate_other_name (g : Gcode) (c : Command) :
  (∀ p, last (lines g) = Some (LCommand p) → Name p ≠ Name c) →
  is_duplicate g (LCommand c) = false.
Proof.
  intros H. destruct (is_duplicate g (LCommand c)) eqn:Hd; [ | reflexivity ].
  destruct (is_duplicate_Command g c Hd) as (p & Hp & Hn & _).
  exfalso. exact (H p Hp Hn).
Qed.

(** A rapid move in Z alone: the stream grows by that move (with its feed
    rate) or, for a duplicate, not at all; either way it ends with a rapid
    move. *)
Lemma addCommand_rapid (self : Postprocessor) (v : Q)
    (obj : option PathObject) :
  ∃ self' new,
    addCommand self (mkCommand "G0" {[ "Z" := v ]}) obj = Ok self'
    ∧ same_context self self'
    ∧ lines (gcode self') = lines (gcode self) ++ new
    ∧ plain_rapids new
    ∧ ends_with_rapid self'.
Proof.
  rewrite addCommand_eq.
  set (c := mkCommand "G0" {[ "Z" := v ]}).
  destruct (is_duplicate (gcode self) (LCommand c)) eqn:Hd.
  - eexists _, []. split; [ reflexivity | ]. simpl.
    split; [ unfold same_context; simpl; auto | ].
    split; [ rewrite app_nil_r; reflexivity | ].
    split; [ constructor | ].
    destruct (is_duplicate_Command _ _ Hd) as (p & Hp & Hn & _).
    exists p. split; [ exact Hp | exact Hn ].
  - eexists _, [LCommand (fst (rapid_feed self c obj))].
    split; [ reflexivity | ]. simpl.
    split; [ unfold same_context; simpl; auto | ]. split; [ reflexivity | ].
    pose proof (rapid_feed_Name self c obj) as Hn.
    pose proof (rapid_feed_Parameters self c obj "X" ltac:(discriminate)) as HX.
    pose proof (rapid_feed_Parameters self c obj "Y" ltac:(discriminate)) as HY.
    split.
    + constructor; [ | constructor ]. unfold is_xy_move, feed_depth.
      rewrite Hn, HX, HY. simpl. split; reflexivity.
    + eexists. split; [ apply last_snoc | exact Hn ].
Qed.

(** A feed move after a rapid move is never a duplicate: the stream grows by
    exactly that move. *)
Lemma addCommand_feed (self : Postprocessor) (d f : Q) :
  ends_with_rapid self →
  ∃ self',
    addCommand self (mkCommand "G1" {[ "Z" := d; "F" := f ]}) None = Ok self'
    ∧ same_context self self'
    ∧ lines (gcode self')
      = lines (gcode self) ++ [LCommand (mkCommand "G1" {[ "Z" := d; "F" := f ]})].
Proof.
  intros (p & Hp & Hn). rewrite addCommand_eq.
  rewrite not_duplicate_other_name.
  2: { intros p' Hp'. rewrite Hp in Hp'. injection Hp' as <-. rewrite Hn.
       discriminate. }
  rewrite rapid_feed_feed by reflexivity.
  eexists. split; [ reflexivity | ]. unfold same_context. simpl. auto.
Qed.

Lemma feed_line_facts (d f : Q) :
  is_xy_move (LCommand (mkCommand "G1" {[ "Z" := d; "F" := f ]})) = false
  ∧ feed_depth (LCommand (mkCommand "G1" {[ "Z" := d; "F" := f ]})) = Some d.
Proof. split; reflexivity. Qed.

Lemma plain_rapids_no_xy (ls : list line) : plain_rapids ls → no_xy_move ls.
Proof.
  unfold plain_rapids, no_xy_move. intros H.
  eapply Forall_impl; [ exact H | ]. intros l [Hl _]. exact Hl.
Qed.

Lemma plain_rapids_no_feed (ls : list line) :
  plain_rapids ls → omap feed_depth ls = [].
Proof.
  induction 1 as [ | l ls [_ Hl] _ IH]; [ reflexivity | ].
  simpl. rewrite Hl. exact IH.
Qed.

Lemma last_feed_depth_app (a b : list line) (d : Q) :
  last_feed_depth b = Some d → last_feed_depth (a ++ b) = Some d.
Proof.
  unfold last_feed_depth. rewrite omap_app. intros H.
  destruct (omap feed_depth b) as [ | x xs] eqn:Hb; [ discriminate | ].
  rewrite last_app, H. reflexivity.
Qed.

Lemma last_feed_depth_rapids (a b : list line) :
  plain_rapids b → last_feed_depth (a ++ b) = last_feed_depth a.
Proof.
  intros H. unfold last_feed_depth.
  rewrite omap_app, (plain_rapids_no_feed b H), app_nil_r. reflexivity.
Qed.

Lemma no_xy_move_app (a b : list line) :
  no_xy_move a → no_xy_move b → no_xy_move (a ++ b).
Proof. unfold no_xy_move. intros. apply Forall_app. split; assumption. Qed.

Lemma no_xy_move_feed (d f : Q) :
  no_xy_move [LCommand (mkCommand "G1" {[ "Z" := d; "F" := f ]})].
Proof. constructor; [ reflexivity | constructor ]. Qed.

Lemma last_feed_depth_feed (a : list line) (d f : Q) :
  last_feed_depth (a ++ [LCommand (mkCommand "G1" {[ "Z" := d; "F" := f ]})])
  = Some d.
Proof. apply last_feed_depth_app. reflexivity. Qed.

Lemma ends_with_rapid_lines (self self' : Postprocessor) :
  lines (gcode self') = lines (gcode self) →
  ends_with_rapid self → ends_with_rapid self'.
Proof. unfold ends_with_rapid. intros ->. auto. Qed.

Lemma peck_loop_emits (m : nat) :
  ∀ (fuel : nat) (self : Postprocessor) (obj : option PathObject)
    (drillZ drillR drillF drillStep chipSpace next : Q),
    (m ≤ fuel)%nat →
    (0 < drillStep)%Q →
    (next - drillZ < inject_Z (Z.of_nat m) * drillStep)%Q →
    ends_with_rapid self →
    ∃ self' new,
      peck_loop fuel self obj drillZ drillR drillF drillStep chipSpace next
      = Ok self'
      ∧ same_context self self'
      ∧ lines (gcode self') = lines (gcode self) ++ new
      ∧ no_xy_move new
      ∧ ((drillZ <= next)%Q →
         ∃ d, last_feed_depth new = Some d ∧ (d == drillZ)%Q)
      ∧ ((next < drillZ)%Q → new = []).
Proof.
  induction m as [ | m IH];
    intros fuel self obj drillZ drillR drillF drillStep chipSpace next
           Hfuel Hstep Hm Hrapid.
  - assert (Hlt : (next < drillZ)%Q).
    { change (inject_Z (Z.of_nat 0)) with 0%Q in Hm. lra. }
    exists self, []. 
    assert (Hb : bool_decide (drillZ <= next)%Q = false).
    { apply bool_decide_eq_false_2. lra. }
    destruct fuel; simpl; rewrite Hb.
    all: split; [ reflexivity | ].
    all: split; [ apply same_context_refl | ].
    all: split; [ rewrite app_nil_r; reflexivity | ].
    all: split; [ constructor | ].
    all: split; [ intros H; lra | reflexivity ].
  - destruct (decide (drillZ <= next)%Q) as [Hle | Hnle].
    2: { exists self, [].
         assert (Hb : bool_decide (drillZ <= next)%Q = false)
           by (apply bool_decide_eq_false_2; exact Hnle).
         destruct fuel; simpl; rewrite Hb.
         all: split; [ reflexivity | ].
         all: split; [ apply same_context_refl | ].
         all: split; [ rewrite app_nil_r; reflexivity | ].
         all: split; [ constructor | ].
         all: split; [ intros H; contradiction | reflexivity ]. }
    destruct fuel as [ | fuel]; [ lia | ].
    simpl. rewrite bool_decide_eq_true_2 by exact Hle.
    destruct (addCommand_feed self next drillF Hrapid) as (s1 & E1 & C1 & L1).
    rewrite E1. simpl.
    destruct (addCommand_rapid s1 drillR obj) as (s2 & n2 & E2 & C2 & L2 & P2 & R2).
    destruct (addCommand_rapid s2 (next + chipSpace) obj)
      as (s3 & n3 & E3 & C3 & L3 & P3 & R3).
    destruct (decide (drillZ <= next - drillStep)%Q) as [Hdeep | Hshallow].
    + rewrite bool_decide_eq_true_2 by exact Hdeep.
      rewrite E2. simpl. rewrite E3. simpl.
      destruct (IH fuel s3 obj drillZ drillR drillF drillStep chipSpace
                  (next - drillStep)%Q) as (s4 & n4 & E4 & C4 & L4 & X4 & D4 & _).
      { lia. }
      { exact Hstep. }
      { rewrite Nat2Z.inj_succ in Hm. unfold Z.succ in Hm.
        rewrite inject_Z_plus in Hm. change (inject_Z 1) with 1%Q in Hm. lra. }
      { exact R3. }
      exists s4, ([LCommand (mkCommand "G1" {[ "Z" := next; "F" := drillF ]})]
                  ++ n2 ++ n3 ++ n4).
      split; [ exact E4 | ].
      split; [ eauto using same_context_trans | ].
      split; [ rewrite L4, L3, L2, L1, <- !app_assoc; reflexivity | ].
      split.
      { repeat apply no_xy_move_app; auto using plain_rapids_no_xy, no_xy_move_feed. }
      split; [ | intros H; lra ].
      intros _. destruct (D4 Hdeep) as (d & Hd & Hdz). exists d.
      split; [ | exact Hdz ].
      rewrite !app_assoc. apply last_feed_depth_app. exact Hd.
    + rewrite bool_decide_eq_false_2 by exact Hshallow.
      destruct (decide (next == drillZ)%Q) as [Heq | Hne].
      * rewrite bool_decide_eq_true_2 by exact Heq.
        exists s1, [LCommand (mkCommand "G1" {[ "Z" := next; "F" := drillF ]})].
        split; [ reflexivity | ]. split; [ exact C1 | ]. split; [ exact L1 | ].
        split; [ apply no_xy_move_feed | ].
        split; [ | intros H; lra ].
        intros _. exists next. split; [ reflexivity | exact Heq ].
      * rewrite bool_decide_eq_false_2 by exact Hne.
        rewrite E2. simpl. rewrite E3. simpl.
        destruct (addCommand_feed s3 drillZ drillF R3) as (s4 & E4 & C4 & L4).
        rewrite E4. simpl.
        exists s4, ([LCommand (mkCommand "G1" {[ "Z" := next; "F" := drillF ]})]
                    ++ n2 ++ n3
                    ++ [LCommand (mkCommand "G1" {[ "Z" := drillZ; "F" := drillF ]})]).
        split; [ reflexivity | ].
        split; [ eauto using same_context_trans | ].
        split; [ rewrite L4, L3, L2, L1, <- !app_assoc; reflexivity | ].
        split.
        { repeat apply no_xy_move_app; auto using plain_rapids_no_xy, no_xy_move_feed. }
        split; [ | intros H; lra ].
        intros _. exists drillZ. split; [ | reflexivity ].
        rewrite !app_assoc. apply last_feed_depth_feed.
Qed.

(** The loop of a peck cycle ends within [peck_turns] turns: after that
    many steps of Q the depth is below Z. *)
Lemma peck_turns_bound (z r q : Q) :
  (0 < q)%Q → (z <= r)%Q →
  (r - q - z < inject_Z (Z.of_nat (peck_turns z r q)) * q)%Q.
Proof.
  intros Hq Hzr. unfold peck_turns.
  set (t := ((r - z) / q)%Q).
  assert (Ht : (0 <= t)%Q).
  { unfold t. apply Qle_shift_div_l; [ exact Hq | lra ]. }
  assert (Hf : (0 <= Qfloor t)%Z).
  { change 0%Z with (Qfloor 0). apply Qfloor_resp_le. exact Ht. }
  rewrite Z2Nat.id by exact Hf.
  pose proof (Qlt_floor t) as Hlt.
  rewrite inject_Z_plus in Hlt. change (inject_Z 1) with 1%Q in Hlt.
  assert (Hmul : (t * q == r - z)%Q).
  { unfold t. field. lra. }
  assert (Hprod : (t * q < (inject_Z (Qfloor t) + 1) * q)%Q).
  { apply Qmult_lt_compat_r; assumption. }
  lra.
Qed.

Lemma retract_height_total (self : Postprocessor) (pz r : Q) :
  ∃ rz, retract_height self (Some pz) r = Ok rz.
Proof.
  unfold retract_height.
  destruct (line_eq_total (drillRetractMode (gcode self)) (LStr "G98"))
    as [b ->].
  simpl. destruct b; [ | eauto ].
  destruct (bool_decide (r < pz)%Q); eauto.
Qed.

Lemma rapid_feed_is_xy_move (self : Postprocessor) (c : Command)
    (obj : option PathObject) :
  is_xy_move (LCommand (fst (rapid_feed self c obj))) = is_xy_move (LCommand c).
Proof.
  unfold is_xy_move.
  rewrite rapid_feed_Name.
  rewrite (rapid_feed_Parameters self c obj "X") by discriminate.
  rewrite (rapid_feed_Parameters self c obj "Y") by discriminate.
  reflexivity.
Qed.

Lemma rapid_feed_feed_depth (self : Postprocessor) (c : Command)
    (obj : option PathObject) :
  feed_depth (LCommand (fst (rapid_feed self c obj))) = feed_depth (LCommand c).
Proof.
  unfold feed_depth.
  rewrite rapid_feed_Name.
  rewrite (rapid_feed_Parameters self c obj "Z") by discriminate.
  reflexivity.
Qed.

(** The clearance move before the cycle, when it is made. *)
Lemma clearance_emits (self : Postprocessor) (below : bool) (v : Q)
    (obj : option PathObject) :
  ∃ self' new,
    (if below then addCommand self (mkCommand "G0" {[ "Z" := v ]}) obj
     else Ok self) = Ok self'
    ∧ same_context self self'
    ∧ lines (gcode self') = lines (gcode self) ++ new
    ∧ plain_rapids new
    ∧ (new = [] ∨ ∃ c, new = [LCommand c] ∧ Parameters c !! "X" = None).
Proof.
  destruct below.
  - rewrite addCommand_eq.
    set (c := mkCommand "G0" {[ "Z" := v ]}).
    destruct (is_duplicate (gcode self) (LCommand c)).
    + eexists _, []. split; [ reflexivity | ]. simpl.
      split; [ unfold same_context; simpl; auto | ].
      split; [ rewrite app_nil_r; reflexivity | ].
      split; [ constructor | left; reflexivity ].
    + eexists _, [LCommand (fst (rapid_feed self c obj))].
      split; [ reflexivity | ]. simpl.
      split; [ unfold same_context; simpl; auto | ].
      split; [ reflexivity | ].
      split.
      * constructor; [ | constructor ].
        rewrite rapid_feed_is_xy_move, rapid_feed_feed_depth.
        split; reflexivity.
      * right. eexists. split; [ reflexivity | ].
        rewrite rapid_feed_Parameters by discriminate. reflexivity.
  - exists self, []. split; [ reflexivity | ].
    split; [ apply same_context_refl | ].
    split; [ rewrite app_nil_r; reflexivity | ].
    split; [ constructor | left; reflexivity ].
Qed.

(** The move to the hole is never dropped as a duplicate: were the last line
    a rapid move to the same X and Y, the current X would be the target X. *)
Lemma xy_move_not_duplicate (g g' : Gcode) (new : list line) (x y px : Q) :
  current_position g "X" = Some px →
  py_ne (Some px) x = true →
  lines g' = lines g ++ new →
  (new = [] ∨ ∃ c, new = [LCommand c] ∧ Parameters c !! "X" = None) →
  is_duplicate g' (LCommand (mkCommand "G0" {[ "X" := x; "Y" := y ]})) = false.
Proof.
  intros Hpos Hne Hlines Hnew.
  destruct (is_duplicate g' _) eqn:Hd; [ exfalso | reflexivity ].
  destruct (is_duplicate_Command _ _ Hd) as (p & Hp & _ & Heq).
  pose proof (dict_eq_lookup _ _ "X" Heq) as HX. simpl in HX.
  change (({[ "X" := x; "Y" := y ]} : gmap string Q) !! "X") with (Some x) in HX.
  destruct (Parameters p !! "X") as [v | ] eqn:Hv; [ | exact HX ].
  rewrite Hlines in Hp.
  destruct Hnew as [-> | (c & -> & Hc)].
  - rewrite app_nil_r in Hp. apply last_Some in Hp as [ls Hls].
    destruct ls as [ | l0 ls].
    + unfold current_position in Hpos.
      rewrite (lastParameter_single g "X" [] (Some 0%Q) (LCommand p) Hls) in Hpos.
      discriminate.
    + unfold current_position in Hpos.
      rewrite (lastParameter_last g "X" (Some 0%Q) (l0 :: ls) (LCommand p) Hls)
        in Hpos by discriminate.
      rewrite Hv in Hpos. injection Hpos as <-.
      simpl in Hne. rewrite bool_decide_eq_true_2 in Hne by exact HX.
      discriminate.
  - rewrite last_snoc in Hp. injection Hp as <-. congruence.
Qed.

Lemma getitem_Some (d : gmap string Q) (k : string) (v : Q) :
  d !! k = Some v → getitem d k = Ok v.
Proof. intros H. unfold getitem. rewrite H. reflexivity. Qed.

Lemma cycle_name_cases (cmd : Command) :
  bool_decide (Name cmd ∈ ["G81"; "G82"; "G83"]) = true →
  Name cmd = "G81" ∨ Name cmd = "G82" ∨ Name cmd = "G83".
Proof.
  intros H. apply bool_decide_eq_true in H. apply list_elem_of_In in H.
  simpl in H. intuition auto.
Qed.

(** The moves of the cycle proper, after the rapid move to R. *)
Lemma cycle_body_emits (fuel : nat) (self : Postprocessor) (obj : PathObject)
    (cmd : Command) (z r f : Q) :
  bool_decide (Name cmd ∈ ["G81"; "G82"; "G83"]) = true →
  (z <= r)%Q →
  cycle_ready fuel cmd z r = true →
  ends_with_rapid self →
  ∃ self' new,
    (if String.eqb (Name cmd) "G81"
     then addCommand self (mkCommand "G1" {[ "Z" := z; "F" := f ]}) None
     else if String.eqb (Name cmd) "G82"
     then
       self ←! addCommand self (mkCommand "G1" {[ "Z" := z; "F" := f ]}) None;
       dwell ←! getitem (Parameters cmd) "P";
       addCommand self (mkCommand "G4" {[ "S" := dwell ]}) None
     else if String.eqb (Name cmd) "G83"
     then
       drillStep ←! getitem (Parameters cmd) "Q";
       peck_loop fuel self (Some obj) z r f drillStep (drillStep * (1 # 2))%Q
                 (r - drillStep)%Q
     else Ok self) = Ok self'
    ∧ same_context self self'
    ∧ lines (gcode self') = lines (gcode self) ++ new
    ∧ no_xy_move new
    ∧ (if peck_exceeds_depth cmd z r then new = []
       else ∃ d, last_feed_depth new = Some d ∧ (d == z)%Q).
Proof.
  intros Hname Hzr Hready Hrapid.
  unfold cycle_ready in Hready. unfold peck_exceeds_depth.
  destruct (addCommand_feed self z f Hrapid) as (s1 & E1 & C1 & L1).
  destruct (cycle_name_cases cmd Hname) as [Hn | [Hn | Hn]];
    rewrite Hn in *; simpl String.eqb in *; cbv iota in *.
  - exists s1, [LCommand (mkCommand "G1" {[ "Z" := z; "F" := f ]})].
    split; [ exact E1 | ]. split; [ exact C1 | ]. split; [ exact L1 | ].
    split; [ apply no_xy_move_feed | ].
    simpl. exists z. split; reflexivity.
  - apply bool_decide_eq_true in Hready as [dwell HP].
    rewrite E1. cbn [bind]. rewrite (getitem_Some _ _ _ HP). cbn [bind].
    rewrite addCommand_eq.
    set (c := mkCommand "G4" {[ "S" := dwell ]}).
    destruct (is_duplicate (gcode s1) (LCommand c)).
    + eexists _, [LCommand (mkCommand "G1" {[ "Z" := z; "F" := f ]})].
      split; [ reflexivity | ]. simpl.
      split; [ destruct C1 as (? & ? & ?); unfold same_context; simpl; auto | ].
      split; [ exact L1 | ].
      split; [ apply no_xy_move_feed | ].
      exists z. split; reflexivity.
    + eexists _, ([LCommand (mkCommand "G1" {[ "Z" := z; "F" := f ]})]
                  ++ [LCommand (fst (rapid_feed s1 c None))]).
      split; [ reflexivity | ]. simpl gcode. simpl lines.
      split; [ destruct C1 as (? & ? & ?); unfold same_context; simpl; auto | ].
      split; [ rewrite L1, <- app_assoc; reflexivity | ].
      assert (Hplain : plain_rapids [LCommand (fst (rapid_feed s1 c None))]).
      { constructor; [ | constructor ].
        rewrite rapid_feed_is_xy_move, rapid_feed_feed_depth.
        split; reflexivity. }
      split.
      { apply no_xy_move_app;
          [ apply no_xy_move_feed | apply plain_rapids_no_xy; exact Hplain ]. }
      simpl andb. cbv iota. exists z. split; [ | reflexivity ].
      rewrite (last_feed_depth_rapids _ _ Hplain). reflexivity.
  - destruct (Parameters cmd !! "Q") as [q | ] eqn:HQ; [ | discriminate ].
    apply andb_true_iff in Hready as [Hq Hfuel].
    apply bool_decide_eq_true in Hq. apply bool_decide_eq_true in Hfuel.
    rewrite (getitem_Some _ _ _ HQ). cbn [bind].
    destruct (peck_loop_emits (peck_turns z r q) fuel self (Some obj) z r f q
                (q * (1 # 2))%Q (r - q)%Q Hfuel Hq
                (peck_turns_bound z r q Hq Hzr) Hrapid)
      as (s2 & new & E2 & C2 & L2 & X2 & D2 & N2).
    exists s2, new.
    split; [ exact E2 | ]. split; [ exact C2 | ]. split; [ exact L2 | ].
    split; [ exact X2 | ].
    simpl andb. destruct (decide (r - q < z)%Q) as [Hlt | Hge].
    + rewrite bool_decide_eq_true_2 by exact Hlt. apply N2. exact Hlt.
    + rewrite bool_decide_eq_false_2 by exact Hge. apply D2. lra.
Qed.

(** The move to the hole, when it is made. *)
Lemma xy_move_emits (self0 self : Postprocessor) (new : list line)
    (obj : option PathObject) (cond : bool) (x y px : Q) :
  same_context self0 self →
  lines (gcode self) = lines (gcode self0) ++ new →
  (new = [] ∨ ∃ c, new = [LCommand c] ∧ Parameters c !! "X" = None) →
  current_position (gcode self0) "X" = Some px →
  (cond = true → py_ne (Some px) x = true) →
  ∃ self',
    (if cond
     then addCommand self (mkCommand "G0" {[ "X" := x; "Y" := y ]}) obj
     else Ok self) = Ok self'
    ∧ same_context self self'
    ∧ lines (gcode self')
      = lines (gcode self)
        ++ (if cond
            then [LCommand (fst (rapid_feed self0
                                   (mkCommand "G0" {[ "X" := x; "Y" := y ]})
                                   obj))]
            else []).
Proof.
  intros Hctx Hlines Hnew Hpos Hcond. destruct cond.
  - rewrite addCommand_eq.
    rewrite (xy_move_not_duplicate (gcode self0) (gcode self) new x y px
               Hpos (Hcond eq_refl) Hlines Hnew).
    rewrite (rapid_feed_job self0 self) by (destruct Hctx as [-> _]; reflexivity).
    eexists. split; [ reflexivity | ].
    split; [ unfold same_context; simpl; auto | reflexivity ].
  - exists self. split; [ reflexivity | ].
    split; [ apply same_context_refl | rewrite app_nil_r; reflexivity ].
Qed.

Lemma emitted_app (self self' : Postprocessor) (new : list line) :
  lines (gcode self') = lines (gcode self) ++ new → emitted self self' = new.
Proof. intros H. unfold emitted. rewrite H. apply drop_app_length. Qed.

(** The lines a drill cycle adds to the stream. *)
Lemma translateDrill_emits (fuel : nat) (self : Postprocessor)
    (obj : PathObject) (cmd : Command) (x y z r f px py pz : Q) :
  bool_decide (Name cmd ∈ ["G81"; "G82"; "G83"]) = true →
  Parameters cmd !! "X" = Some x →
  Parameters cmd !! "Y" = Some y →
  Parameters cmd !! "Z" = Some z →
  Parameters cmd !! "R" = Some r →
  Parameters cmd !! "F" = Some f →
  (z <= r)%Q →
  cycle_ready fuel cmd z r = true →
  current_position (gcode self) "X" = Some px →
  current_position (gcode self) "Y" = Some py →
  current_position (gcode self) "Z" = Some pz →
  ∃ self' pre body post,
    translateDrill fuel self cmd obj = Ok self'
    ∧ emitted self self'
      = pre
        ++ (if py_ne (Some px) x && py_ne (Some py) y
            then [LCommand (fst (rapid_feed self
                                   (mkCommand "G0" {[ "X" := x; "Y" := y ]})
                                   (Some obj)))]
            else [])
        ++ body ++ post
    ∧ plain_rapids pre
    ∧ no_xy_move body
    ∧ plain_rapids post
    ∧ (if peck_exceeds_depth cmd z r then omap feed_depth body = []
       else ∃ d, last_feed_depth body = Some d ∧ (d == z)%Q).
Proof.
  intros Hname HX HY HZ HR HF Hzr Hready HpX HpY HpZ.
  unfold current_position in HpX, HpY, HpZ.
  unfold translateDrill.
  rewrite (getitem_Some _ _ _ HX), (getitem_Some _ _ _ HY),
    (getitem_Some _ _ _ HZ), (getitem_Some _ _ _ HR), (getitem_Some _ _ _ HF).
  cbn [bind]. rewrite HpX, HpY, HpZ.
  rewrite bool_decide_eq_false_2 by lra.
  destruct (retract_height_total self pz r) as [rz ->]. cbn [bind py_lt].
  destruct (clearance_emits self (bool_decide (pz < rz)%Q) rz (Some obj))
    as (s1 & pre & E1 & C1 & L1 & P1 & F1).
  rewrite E1. cbn [bind].
  destruct (xy_move_emits self s1 pre (Some obj)
              (py_ne (Some px) x && py_ne (Some py) y) x y px C1 L1 F1)
    as (s2 & E2 & C2 & L2).
  { unfold current_position. exact HpX. }
  { intros H. apply andb_true_iff in H as [H _]. exact H. }
  rewrite E2. cbn [bind].
  destruct (addCommand_rapid s2 r (Some obj))
    as (s3 & mid & E3 & C3 & L3 & P3 & R3).
  rewrite E3. cbn [bind].
  destruct (cycle_body_emits fuel s3 obj cmd z r f Hname Hzr Hready R3)
    as (s4 & cyc & E4 & C4 & L4 & X4 & D4).
  rewrite E4. cbn [bind].
  destruct (addCommand_rapid s4 rz (Some obj))
    as (s5 & post & E5 & C5 & L5 & P5 & R5).
  exists s5, pre, (mid ++ cyc), post.
  split; [ exact E5 | ].
  split.
  { apply emitted_app. rewrite L5, L4, L3, L2, L1, <- !app_assoc. reflexivity. }
  split; [ exact P1 | ].
  split; [ apply no_xy_move_app; [ apply plain_rapids_no_xy; exact P3 | exact X4 ] | ].
  split; [ exact P5 | ].
  destruct (peck_exceeds_depth cmd z r).
  - rewrite D4, app_nil_r. apply plain_rapids_no_feed. exact P3.
  - destruct D4 as (d & Hd & Hdz). exists d. split; [ | exact Hdz ].
    apply last_feed_depth_app. exact Hd.
Qed.

(** ** Drill cycles: the move to the hole *)

Lemma moves_to_is_xy_move (x y : Q) (l : line) :
  moves_to x y l → is_xy_move l = true.
Proof.
  destruct l as [c | | | ]; simpl; try contradiction.
  intros (-> & -> & _). reflexivity.
Qed.

Lemma no_xy_move_moves_to (x y : Q) (ls : list line) :
  no_xy_move ls → ¬ Exists (moves_to x y) ls.
Proof.
  unfold no_xy_move. rewrite Forall_forall, Exists_exists.
  intros Hall (l & Hl & Hm). apply moves_to_is_xy_move in Hm.
  rewrite (Hall l Hl) in Hm. discriminate.
Qed.

Lemma rapid_feed_moves_to (self : Postprocessor) (obj : option PathObject)
    (x y : Q) :
  moves_to x y
    (LCommand (fst (rapid_feed self (mkCommand "G0" {[ "X" := x; "Y" := y ]})
                      obj))).
Proof.
  unfold moves_to. rewrite rapid_feed_Name.
  rewrite !rapid_feed_Parameters by discriminate.
  repeat split.
Qed.

Lemma both_differ (px py x y : Q) :
  py_ne (Some px) x && py_ne (Some py) y = true
  ↔ ¬ (px == x)%Q ∧ ¬ (py == y)%Q.
Proof.
  unfold py_ne. rewrite andb_true_iff, !negb_true_iff, !bool_decide_eq_false.
  reflexivity.
Qed.

(** The move to the hole in terms of the position that [translateDrill]
    reads.  A drill cycle (G81, G82, G83, with the parameters it needs, R
    not below Z) on a stream from which [lastParameter] reads (px, py, pz)
    is translated, and among the lines it adds there is a rapid move to the
    X and Y of the hole if and only if X differs from px and Y differs from
    py; when one of the two agrees, the cycle adds no move in X or Y at
    all. *)
Theorem xy_move_iff_both_axes_differ (fuel : nat) (self : Postprocessor)
    (obj : PathObject) (cmd : Command) (x y z r f px py pz : Q) :
  bool_decide (Name cmd ∈ ["G81"; "G82"; "G83"]) = true →
  Parameters cmd !! "X" = Some x →
  Parameters cmd !! "Y" = Some y →
  Parameters cmd !! "Z" = Some z →
  Parameters cmd !! "R" = Some r →
  Parameters cmd !! "F" = Some f →
  (z <= r)%Q →
  cycle_ready fuel cmd z r = true →
  current_position (gcode self) "X" = Some px →
  current_position (gcode self) "Y" = Some py →
  current_position (gcode self) "Z" = Some pz →
  ∃ self',
    translateDrill fuel self cmd obj = Ok self'
    ∧ (Exists (moves_to x y) (emitted self self')
       ↔ ¬ (px == x)%Q ∧ ¬ (py == y)%Q)
    ∧ ((px == x)%Q ∨ (py == y)%Q → no_xy_move (emitted self self')).
Proof.
  intros Hname HX HY HZ HR HF Hzr Hready HpX HpY HpZ.
  destruct (translateDrill_emits fuel self obj cmd x y z r f px py pz
              Hname HX HY HZ HR HF Hzr Hready HpX HpY HpZ)
    as (self' & pre & body & post & E & Hem & Hpre & Hbody & Hpost & _).
  exists self'. split; [ exact E | ]. rewrite Hem.
  apply plain_rapids_no_xy in Hpre. apply plain_rapids_no_xy in Hpost.
  pose proof (both_differ px py x y) as Hboth.
  destruct (py_ne (Some px) x && py_ne (Some py) y).
  - assert (Hd : ¬ (px == x)%Q ∧ ¬ (py == y)%Q) by (apply Hboth; reflexivity).
    split.
    + split; [ intros _; exact Hd | ]. intros _.
      apply Exists_app. right. apply Exists_app. left.
      constructor. apply rapid_feed_moves_to.
    + intros [H | H]; exfalso; [ apply (proj1 Hd H) | apply (proj2 Hd H) ].
  - assert (Hall : no_xy_move (pre ++ [] ++ body ++ post)).
    { repeat apply no_xy_move_app; try assumption. constructor. }
    split; [ | intros _; exact Hall ].
    split.
    + intros H. exfalso. exact (no_xy_move_moves_to x y _ Hall H).
    + intros H. apply Hboth in H. discriminate.
Qed.

Lemma xy_move_iff_both_axes_differ_witness :
  ∃ self',
    translateDrill 0
      (postprocessor
         (stream [LComment "c";
                  LCommand (command "G0" [("X", 0%Q); ("Y", 0%Q); ("Z", 5%Q)])]))
      (command "G81" [("X", 10%Q); ("Y", 10%Q); ("Z", (-5)%Q); ("R", 2%Q);
                      ("F", 100%Q)])
      drill_op
    = Ok self'
    ∧ (Exists (moves_to 10 10)
         (emitted
            (postprocessor
               (stream [LComment "c";
                        LCommand (command "G0" [("X", 0%Q); ("Y", 0%Q);
                                                ("Z", 5%Q)])]))
            self')
       ↔ ¬ (0 == 10)%Q ∧ ¬ (0 == 10)%Q)
    ∧ ((0 == 10)%Q ∨ (0 == 10)%Q →
       no_xy_move
         (emitted
            (postprocessor
               (stream [LComment "c";
                        LCommand (command "G0" [("X", 0%Q); ("Y", 0%Q);
                                                ("Z", 5%Q)])]))
            self')).
Proof.
  apply (xy_move_iff_both_axes_differ 0
           (postprocessor
              (stream [LComment "c";
                       LCommand (command "G0" [("X", 0%Q); ("Y", 0%Q);
                                               ("Z", 5%Q)])]))
           drill_op
           (command "G81" [("X", 10%Q); ("Y", 10%Q); ("Z", (-5)%Q);
                           ("R", 2%Q); ("F", 100%Q)])
           10 10 (-5) 2 100 0 0 5);
    try reflexivity.
  vm_compute. discriminate.
Defined.

(** C7, at the failing input.  On the stream [;c] [G0 X5 Y5] [G1 Z-1 F100]
    the tool is at X5 Y5, as the backward scan of the specification finds,
    but [lastParameter] looks at the last line only and answers its default
    0 for both axes.  The cycle [G81 X0 Y0 Z-5 R2 F100], whose hole differs
    from the position in both axes, gets no move in X or Y: it is drilled at
    X5 Y5.  The cycle [G81 X5 Y5 Z-5 R2 F100], whose hole is where the tool
    is, gets a move to X5 Y5. *)
Theorem xy_move_follows_the_last_line_not_the_position :
  let before :=
    postprocessor
      (stream [LComment "c";
               LCommand (command "G0" [("X", 5%Q); ("Y", 5%Q)]);
               LCommand (command "G1" [("Z", (-1)%Q); ("F", 100%Q)])]) in
  let cycle (x y : Q) :=
    command "G81" [("X", x); ("Y", y); ("Z", (-5)%Q); ("R", 2%Q);
                   ("F", 100%Q)] in
  lastParameter_spec (gcode before) "X" [] (Some 0%Q) = Some 5%Q
  ∧ lastParameter_spec (gcode before) "Y" [] (Some 0%Q) = Some 5%Q
  ∧ current_position (gcode before) "X" = Some 0%Q
  ∧ current_position (gcode before) "Y" = Some 0%Q
  ∧ stream_of (translateDrill 0 before (cycle 0%Q 0%Q) bare_op)
    = Some [LComment "c";
            LCommand (command "G0" [("X", 5%Q); ("Y", 5%Q)]);
            LCommand (command "G1" [("Z", (-1)%Q); ("F", 100%Q)]);
            LCommand (command "G0" [("Z", 2%Q)]);
            LCommand (command "G1" [("Z", (-5)%Q); ("F", 100%Q)]);
            LCommand (command "G0" [("Z", 2%Q)])]
  ∧ (∃ after,
       translateDrill 0 before (cycle 0%Q 0%Q) bare_op = Ok after
       ∧ no_xy_move (emitted before after))
  ∧ stream_of (translateDrill 0 before (cycle 5%Q 5%Q) bare_op)
    = Some [LComment "c";
            LCommand (command "G0" [("X", 5%Q); ("Y", 5%Q)]);
            LCommand (command "G1" [("Z", (-1)%Q); ("F", 100%Q)]);
            LCommand (command "G0" [("Z", 2%Q)]);
            LCommand (command "G0" [("X", 5%Q); ("Y", 5%Q)]);
            LCommand (command "G0" [("Z", 2%Q)]);
            LCommand (command "G1" [("Z", (-5)%Q); ("F", 100%Q)]);
            LCommand (command "G0" [("Z", 2%Q)])]
  ∧ ∃ after,
      translateDrill 0 before (cycle 5%Q 5%Q) bare_op = Ok after
      ∧ Exists (moves_to 5 5) (emitted before after).
Proof.
  cbv zeta.
  split; [ vm_compute; reflexivity | ].
  split; [ vm_compute; reflexivity | ].
  split; [ vm_compute; reflexivity | ].
  split; [ vm_compute; reflexivity | ].
  split; [ vm_compute; reflexivity | ].
  split.
  { eexists. split; [ vm_compute; reflexivity | ].
    unfold no_xy_move, emitted. cbn [length lines gcode postprocessor stream
                                      set_lines drop].
    repeat constructor. }
  split; [ vm_compute; reflexivity | ].
  eexists. split; [ vm_compute; reflexivity | ].
  unfold emitted. cbn [length lines gcode postprocessor stream set_lines drop].
  apply Exists_cons_tl, Exists_cons_hd. repeat split.
Qed.

(** ** Drill cycles: the depth of a peck cycle *)

Lemma omap_no_feed (l : line) : feed_depth l = None → omap feed_depth [l] = [].
Proof. intros H. cbn -[feed_depth]. rewrite H. reflexivity. Qed.

(** For a peck cycle (G83) with a positive Q and R not below Z, the loop
    ends within [peck_turns] turns.  When the first peck depth R - Q is not
    below Z, the last feed move of the cycle is to the depth Z; when it is
    below Z (the peck is larger than the hole is deep), the loop body does
    not run and the cycle has no feed move. *)
Lemma peck_cycle_last_feed_depth (fuel : nat) (self : Postprocessor)
    (obj : PathObject) (cmd : Command) (x y z r f q px py pz : Q) :
  Name cmd = "G83" →
  Parameters cmd !! "X" = Some x →
  Parameters cmd !! "Y" = Some y →
  Parameters cmd !! "Z" = Some z →
  Parameters cmd !! "R" = Some r →
  Parameters cmd !! "F" = Some f →
  Parameters cmd !! "Q" = Some q →
  (0 < q)%Q →
  (z <= r)%Q →
  (peck_turns z r q ≤ fuel)%nat →
  current_position (gcode self) "X" = Some px →
  current_position (gcode self) "Y" = Some py →
  current_position (gcode self) "Z" = Some pz →
  ∃ self',
    translateDrill fuel self cmd obj = Ok self'
    ∧ (if bool_decide (r - q < z)%Q
       then omap feed_depth (emitted self self') = []
       else ∃ d, last_feed_depth (emitted self self') = Some d ∧ (d == z)%Q).
Proof.
  intros Hname HX HY HZ HR HF HQ Hq Hzr Hfuel HpX HpY HpZ.
  assert (Hn : bool_decide (Name cmd ∈ ["G81"; "G82"; "G83"]) = true)
    by (rewrite Hname; reflexivity).
  assert (Hready : cycle_ready fuel cmd z r = true).
  { unfold cycle_ready. rewrite Hname, HQ. simpl.
    rewrite !bool_decide_eq_true_2 by assumption. reflexivity. }
  assert (Hex : peck_exceeds_depth cmd z r = bool_decide (r - q < z)%Q).
  { unfold peck_exceeds_depth. rewrite Hname, HQ. reflexivity. }
  destruct (translateDrill_emits fuel self obj cmd x y z r f px py pz
              Hn HX HY HZ HR HF Hzr Hready HpX HpY HpZ)
    as (self' & pre & body & post & E & Hem & Hpre & Hbody & Hpost & Hfeed).
  exists self'. split; [ exact E | ]. rewrite Hem. rewrite Hex in Hfeed.
  destruct (bool_decide (r - q < z)%Q).
  - rewrite !omap_app, Hfeed, (plain_rapids_no_feed pre Hpre),
      (plain_rapids_no_feed post Hpost).
    destruct (py_ne (Some px) x && py_ne (Some py) y); [ | reflexivity ].
    rewrite omap_no_feed; [ reflexivity | ].
    rewrite rapid_feed_feed_depth. reflexivity.
  - destruct Hfeed as (d & Hd & Hdz). exists d. split; [ | exact Hdz ].
    rewrite !app_assoc. rewrite (last_feed_depth_rapids _ post Hpost).
    apply last_feed_depth_app. exact Hd.
Qed.

(** C2, at the failing input.  On the stream [;c] [G0 Z0], the cycle
    [G83 X1 Y1 Z-5 R0 Q2 F100] of the specification's example ends its loop
    within two turns and its last feed move is [G1 Z-5].  The cycle
    [G83 X1 Y1 Z-5 R0 Q10 F100] satisfies the same conditions (Q > 0,
    R >= Z), but R - Q = -10 is below Z: the loop body never runs, and the
    cycle adds a move to the hole and a move to R and no feed move, so the
    hole is not drilled. *)
Theorem peck_larger_than_depth_has_no_feed_move :
  let before :=
    postprocessor
      (stream [LComment "c"; LCommand (command "G0" [("Z", 0%Q)])]) in
  let cycle (q : Q) :=
    command "G83" [("X", 1%Q); ("Y", 1%Q); ("Z", (-5)%Q); ("R", 0%Q);
                   ("Q", q); ("F", 100%Q)] in
  peck_turns (-5) 0 2 = 2%nat
  ∧ stream_in_lowest_terms (translateDrill 2 before (cycle 2%Q) bare_op)
    = Some [LComment "c";
            LCommand (command "G0" [("Z", 0%Q)]);
            LCommand (command "G0" [("X", 1%Q); ("Y", 1%Q)]);
            LCommand (command "G0" [("Z", 0%Q)]);
            LCommand (command "G1" [("Z", (-2)%Q); ("F", 100%Q)]);
            LCommand (command "G0" [("Z", 0%Q)]);
            LCommand (command "G0" [("Z", (-1)%Q)]);
            LCommand (command "G1" [("Z", (-4)%Q); ("F", 100%Q)]);
            LCommand (command "G0" [("Z", 0%Q)]);
            LCommand (command "G0" [("Z", (-3)%Q)]);
            LCommand (command "G1" [("Z", (-5)%Q); ("F", 100%Q)]);
            LCommand (command "G0" [("Z", 0%Q)])]
  ∧ stream_of (translateDrill 0 before (cycle 10%Q) bare_op)
    = Some [LComment "c";
            LCommand (command "G0" [("Z", 0%Q)]);
            LCommand (command "G0" [("X", 1%Q); ("Y", 1%Q)]);
            LCommand (command "G0" [("Z", 0%Q)])]
  ∧ ∃ after, translateDrill 0 before (cycle 10%Q) bare_op = Ok after
             ∧ last_feed_depth (emitted before after) = None.
Proof.
  cbv zeta.
  split; [ vm_compute; reflexivity | ].
  split; [ vm_compute; reflexivity | ].
  split; [ vm_compute; reflexivity | ].
  eexists. split; [ vm_compute; reflexivity | ]. vm_compute. reflexivity.
Qed.

(** * Further properties of the code *)

(** ** Equality of lines *)

Lemma dict_eq_sym (m1 m2 : gmap string Q) : dict_eq m1 m2 = dict_eq m2 m1.
Proof.
  unfold dict_eq. apply bool_decide_ext. split; intros H i; specialize (H i);
    destruct (m1 !! i), (m2 !! i); simpl in *; try exact H;
    apply Qeq_sym; exact H.
Qed.

Lemma dict_eq_trans (m1 m2 m3 : gmap string Q) :
  dict_eq m1 m2 = true → dict_eq m2 m3 = true → dict_eq m1 m3 = true.
Proof.
  unfold dict_eq. rewrite !bool_decide_eq_true. intros H1 H2 i.
  specialize (H1 i). specialize (H2 i).
  destruct (m1 !! i), (m2 !! i), (m3 !! i); simpl in *; try contradiction;
    try exact I.
  eapply Qeq_trans; eassumption.
Qed.

Lemma Command___eq___Command (a b : Command) :
  Command___eq__ a (PyLine (LCommand b))
  = Ok (String.eqb (Name a) (Name b) && dict_eq (Parameters a) (Parameters b)).
Proof.
  unfold Command___eq__, Command___eq___try. simpl.
  destruct (String.eqb (Name a) (Name b)); reflexivity.
Qed.

Lemma line_eq_sym (a b : line) : line_eq a b = line_eq b a.
Proof.
  destruct a as [a | a | a | a], b as [b | b | b | b]; simpl;
    try reflexivity; try (rewrite String.eqb_sym; reflexivity).
  rewrite !Command___eq___Command, String.eqb_sym, dict_eq_sym. reflexivity.
Qed.

Lemma line_eq_refl (a : line) : line_eq a a = Ok true.
Proof.
  destruct a as [a | a | a | a]; simpl; try (rewrite String.eqb_refl; reflexivity).
  rewrite Command___eq___Command, String.eqb_refl, dict_eq_refl. reflexivity.
Qed.

Lemma line_eq_trans (a b c : line) :
  line_eq a b = Ok true → line_eq b c = Ok true → line_eq a c = Ok true.
Proof.
  destruct a as [a | a | a | a], b as [b | b | b | b], c as [c | c | c | c];
    simpl; try discriminate;
    rewrite ?Command___eq___Command;
    intros H1 H2; injection H1 as H1; injection H2 as H2;
    try (apply String.eqb_eq in H1; apply String.eqb_eq in H2;
         f_equal; apply String.eqb_eq; congruence).
  apply andb_true_iff in H1 as [N1 D1]. apply andb_true_iff in H2 as [N2 D2].
  apply String.eqb_eq in N1. apply String.eqb_eq in N2.
  f_equal. apply andb_true_iff. split.
  - apply String.eqb_eq. congruence.
  - eapply dict_eq_trans; eassumption.
Qed.

(** X1.  [==] on the lines of a stream is an equivalence: every line equals
    itself, the answer does not depend on which of the two lines is on the
    left (a [Command] never equals a [str], a [Comment] or a [Header],
    whichever side it is on), and two lines equal to a third are equal. *)
Theorem line_equality_is_an_equivalence (a b c : line) :
  line_eq a a = Ok true
  ∧ line_eq a b = line_eq b a
  ∧ (line_eq a b = Ok true → line_eq b c = Ok true → line_eq a c = Ok true).
Proof.
  split; [ apply line_eq_refl | ]. split; [ apply line_eq_sym | ].
  apply line_eq_trans.
Qed.

(** ** Appending keeps the stream free of repeats *)

Lemma is_duplicate_false (g : Gcode) (l prev : line) :
  remove_duplicates (conf g) = true →
  is_duplicate g l = false →
  last (lines g) = Some prev →
  line_eq prev l ≠ Ok true.
Proof.
  unfold is_duplicate. intros -> H Hl. rewrite Hl in H. simpl in H.
  intros E. rewrite E in H. discriminate.
Qed.

(** X2.  With duplicate removal on, [Gcode.append] keeps the stream free of
    neighbouring equal lines: if no two neighbours compare equal before the
    call, none do after it. *)
Theorem append_keeps_neighbours_distinct (g : Gcode) (l : line) :
  remove_duplicates (conf g) = true →
  no_adjacent_duplicates (lines g) →
  ∃ g', Gcode_append g l = Ok g' ∧ no_adjacent_duplicates (lines g').
Proof.
  intros Hrd Hinv. rewrite Gcode_append_eq. eexists. split; [ reflexivity | ].
  destruct (is_duplicate g l) eqn:Hd; [ exact Hinv | ].
  simpl. intros i a b Ha Hb.
  destruct (decide (S i < length (lines g))%nat) as [Hlt | Hge].
  - rewrite lookup_app_l in Ha by lia. rewrite lookup_app_l in Hb by lia.
    eapply Hinv; eassumption.
  - assert (Hi : S i = length (lines g)).
    { apply lookup_lt_Some in Hb. rewrite length_app in Hb. simpl in Hb. lia. }
    rewrite lookup_app_l in Ha by lia.
    rewrite lookup_app_r in Hb by lia. rewrite Hi, Nat.sub_diag in Hb.
    injection Hb as <-.
    apply (is_duplicate_false g l a Hrd Hd).
    rewrite last_lookup. rewrite <- Hi. simpl. exact Ha.
Qed.

Lemma append_keeps_neighbours_distinct_witness :
  ∃ g',
    Gcode_append
      (stream [LComment "PREAMBLE"; LCommand (command "G0" [("Z", 5%Q)])])
      (LCommand (command "G0" [("Z", 5%Q)]))
    = Ok g'
    ∧ no_adjacent_duplicates (lines g').
Proof.
  apply (append_keeps_neighbours_distinct
           (stream [LComment "PREAMBLE"; LCommand (command "G0" [("Z", 5%Q)])])
           (LCommand (command "G0" [("Z", 5%Q)]))).
  - reflexivity.
  - intros i a b Ha Hb.
    destruct i as [ | [ | i]]; simpl in Ha, Hb; try discriminate.
    injection Ha as <-. injection Hb as <-. vm_compute. discriminate.
Defined.

(** ** Feed rates of rapid moves *)

Lemma py_min_cases (a b : Q) :
  (py_min a b = a ∨ py_min a b = b) ∧ (py_min a b <= a)%Q ∧ (py_min a b <= b)%Q.
Proof.
  unfold py_min. destruct (Qlt_le_dec b a) as [H | H].
  - split; [ right; reflexivity | ]. split; [ apply Qlt_le_weak, H | apply Qle_refl ].
  - split; [ left; reflexivity | ]. split; [ apply Qle_refl | exact H ].
Qed.

(** The feed rate [addCommand] gives to a rapid move that has none. *)
Lemma rapid_feed_rate (self : Postprocessor) (c : Command)
    (obj : option PathObject) (v h : Q) (msgs : list logmsg) :
  bool_decide (Name c ∈ ["G0"; "G00"]) = true →
  Parameters c !! "F" = None →
  getRapidSpeeds obj (job self) = (Some v, Some h, msgs) →
  is_Some (Parameters c !! "X") ∨ is_Some (Parameters c !! "Y")
  ∨ is_Some (Parameters c !! "Z") →
  ∃ f, Parameters (fst (rapid_feed self c obj)) !! "F" = Some f
       ∧ (f = v ∨ f = h)
       ∧ (is_Some (Parameters c !! "Z") → (f <= v)%Q)
       ∧ (is_Some (Parameters c !! "X") ∨ is_Some (Parameters c !! "Y") →
          (f <= h)%Q).
Proof.
  intros Hn HF Hs Hax. unfold rapid_feed. rewrite Hn, HF, Hs.
  rewrite (bool_decide_eq_false_2 (is_Some None)) by (intros [? ?]; discriminate).
  cbn [negb andb].
  destruct (py_min_cases v h) as (Hc & Hv & Hh).
  destruct (decide (is_Some (Parameters c !! "X"))) as [HX | HX];
    destruct (decide (is_Some (Parameters c !! "Y"))) as [HY | HY];
    destruct (decide (is_Some (Parameters c !! "Z"))) as [HZ | HZ];
    rewrite ?(bool_decide_eq_true_2 _ HX), ?(bool_decide_eq_false_2 _ HX),
      ?(bool_decide_eq_true_2 _ HY), ?(bool_decide_eq_false_2 _ HY),
      ?(bool_decide_eq_true_2 _ HZ), ?(bool_decide_eq_false_2 _ HZ);
    cbn [orb fst addParameter Parameters];
    try (exfalso; tauto);
    rewrite lookup_insert_eq; eexists; (split; [ reflexivity | ]);
    repeat split; try tauto; intros _; try apply Qle_refl; assumption.
Qed.

(** X3.  A rapid move (G0, G00) that comes without a feed rate and has an X,
    Y or Z parameter is stored with one when rapid speeds are known: the
    vertical or the horizontal rapid speed, never above the vertical one when
    the move has a Z, never above the horizontal one when it has an X or a
    Y.  Its name and its other parameters are stored as given. *)
Theorem rapid_move_gets_a_feed_rate (self : Postprocessor) (c : Command)
    (obj : option PathObject) (v h : Q) (msgs : list logmsg) :
  bool_decide (Name c ∈ ["G0"; "G00"]) = true →
  Parameters c !! "F" = None →
  getRapidSpeeds obj (job self) = (Some v, Some h, msgs) →
  is_Some (Parameters c !! "X") ∨ is_Some (Parameters c !! "Y")
  ∨ is_Some (Parameters c !! "Z") →
  is_duplicate (gcode self) (LCommand c) = false →
  ∃ self' c' f,
    addCommand self c obj = Ok self'
    ∧ lines (gcode self') = lines (gcode self) ++ [LCommand c']
    ∧ Name c' = Name c
    ∧ (∀ k, k ≠ "F" → Parameters c' !! k = Parameters c !! k)
    ∧ Parameters c' !! "F" = Some f
    ∧ (f = v ∨ f = h)
    ∧ (is_Some (Parameters c !! "Z") → (f <= v)%Q)
    ∧ (is_Some (Parameters c !! "X") ∨ is_Some (Parameters c !! "Y") →
       (f <= h)%Q).
Proof.
  intros Hn HF Hs Hax Hd.
  destruct (rapid_feed_rate self c obj v h msgs Hn HF Hs Hax)
    as (f & Hf & Hc & Hv & Hh).
  rewrite addCommand_eq, Hd.
  eexists _, (fst (rapid_feed self c obj)), f.
  split; [ reflexivity | ]. split; [ reflexivity | ].
  split; [ apply rapid_feed_Name | ].
  split; [ intros k Hk; apply rapid_feed_Parameters; exact Hk | ].
  auto.
Qed.

Lemma rapid_move_gets_a_feed_rate_witness :
  ∃ self' c' f,
    addCommand (postprocessor (stream []))
      (command "G0" [("X", 1%Q); ("Z", 5%Q)]) (Some drill_op)
    = Ok self'
    ∧ lines (gcode self') = lines (gcode (postprocessor (stream []))) ++ [LCommand c']
    ∧ Name c' = Name (command "G0" [("X", 1%Q); ("Z", 5%Q)])
    ∧ (∀ k, k ≠ "F" →
         Parameters c' !! k
         = Parameters (command "G0" [("X", 1%Q); ("Z", 5%Q)]) !! k)
    ∧ Parameters c' !! "F" = Some f
    ∧ (f = 10%Q ∨ f = 20%Q)
    ∧ (is_Some (Parameters (command "G0" [("X", 1%Q); ("Z", 5%Q)]) !! "Z") →
       (f <= 10)%Q)
    ∧ (is_Some (Parameters (command "G0" [("X", 1%Q); ("Z", 5%Q)]) !! "X")
       ∨ is_Some (Parameters (command "G0" [("X", 1%Q); ("Z", 5%Q)]) !! "Y") →
       (f <= 20)%Q).
Proof.
  apply (rapid_move_gets_a_feed_rate (postprocessor (stream []))
           (command "G0" [("X", 1%Q); ("Z", 5%Q)]) (Some drill_op) 10 20 []);
    try reflexivity.
  left. eexists. reflexivity.
Defined.

(** X4.  The duplicate test of [append] sees the command before [addCommand]
    gives it a feed rate, and compares it with a stored line that has one:
    the same rapid move added twice in a row is stored twice, whether
    duplicate removal is on or off, and the two stored lines are equal. *)
Theorem rapid_move_added_twice_is_stored_twice (self : Postprocessor)
    (c : Command) (obj : option PathObject) (v h : Q) (msgs : list logmsg) :
  bool_decide (Name c ∈ ["G0"; "G00"]) = true →
  Parameters c !! "F" = None →
  getRapidSpeeds obj (job self) = (Some v, Some h, msgs) →
  is_Some (Parameters c !! "X") ∨ is_Some (Parameters c !! "Y")
  ∨ is_Some (Parameters c !! "Z") →
  is_duplicate (gcode self) (LCommand c) = false →
  ∃ self1 self2 c',
    addCommand self c obj = Ok self1
    ∧ addCommand self1 c obj = Ok self2
    ∧ lines (gcode self2)
      = lines (gcode self) ++ [LCommand c'; LCommand c']
    ∧ line_eq (LCommand c') (LCommand c') = Ok true.
Proof.
  intros Hn HF Hs Hax Hd.
  destruct (rapid_feed_rate self c obj v h msgs Hn HF Hs Hax)
    as (f & Hf & _).
  set (c' := fst (rapid_feed self c obj)) in *.
  pose proof (addCommand_eq self c obj) as E1. rewrite Hd in E1.
  fold c' in E1.
  eexists _, _, c'. split; [ exact E1 | ].
  rewrite addCommand_eq. cbn [gcode job console].
  assert (Hd2 : is_duplicate
                  (set_lines (gcode self) (lines (gcode self) ++ [LCommand c']))
                  (LCommand c) = false).
  { apply not_true_is_false. intros Hd2.
    destruct (is_duplicate_Command _ _ Hd2) as (p & Hp & _ & Heq).
    simpl in Hp. rewrite last_snoc in Hp. injection Hp as <-.
    pose proof (dict_eq_lookup _ _ "F" Heq) as H. rewrite Hf, HF in H.
    exact H. }
  rewrite Hd2. split; [ reflexivity | ].
  split; [ | apply line_eq_refl ].
  cbn [gcode set_lines lines]. rewrite <- app_assoc.
  rewrite (rapid_feed_job self _ c obj) by reflexivity. reflexivity.
Qed.

Lemma rapid_move_added_twice_is_stored_twice_witness :
  ∃ self1 self2 c',
    addCommand (postprocessor (stream [])) (command "G0" [("Z", 5%Q)])
      (Some drill_op) = Ok self1
    ∧ addCommand self1 (command "G0" [("Z", 5%Q)]) (Some drill_op) = Ok self2
    ∧ lines (gcode self2)
      = lines (gcode (postprocessor (stream [])))
        ++ [LCommand c'; LCommand c']
    ∧ line_eq (LCommand c') (LCommand c') = Ok true.
Proof.
  apply (rapid_move_added_twice_is_stored_twice (postprocessor (stream []))
           (command "G0" [("Z", 5%Q)]) (Some drill_op) 10 20 []);
    try reflexivity.
  right. right. eexists. reflexivity.
Defined.

(** ** Parameters that are not rendered *)

Lemma flat_map_Forall_ext {A B : Type} (f g : A → list B) (l : list A) :
  Forall (λ a, f a = g a) l → flat_map f l = flat_map g l.
Proof.
  induction 1 as [ | a l Ha _ IH]; [ reflexivity | ].
  simpl. rewrite Ha, IH. reflexivity.
Qed.

(** X5.  [Command.__str__] prints the parameters X Y Z A B C I J F S T Q R L H
    D P and no other: a parameter under any other letter (K, U, V and W,
    which the position branch names, among them) does not change the
    rendered line. *)
Theorem unrendered_parameter_is_dropped (MIN MAX : Z)
    (unit_length unit_velocity : Q → string → Q) (float_repr : Q → string)
    (cf : Configuration) (c : Command) (k : string) (v : Q) :
  bool_decide (k ∈ rendered_letters) = false →
  Command___str__ MIN MAX unit_length unit_velocity float_repr cf
    (mkCommand (Name c) (<[k := v]> (Parameters c)))
  = Command___str__ MIN MAX unit_length unit_velocity float_repr cf c.
Proof.
  intros Hk. apply bool_decide_eq_false in Hk.
  unfold Command___str__. cbn [Name]. f_equal. f_equal.
  apply flat_map_Forall_ext.
  unfold GCODE_PARAMETERS.
  repeat match goal with |- Forall _ _ => constructor end;
    try solve
      [ unfold render_parameter; cbn [Name Parameters];
        rewrite lookup_insert_ne;
        [ reflexivity
        | intros ->; apply Hk; unfold rendered_letters;
          repeat (first [ apply list_elem_of_here
                        | apply list_elem_of_further ]) ] ].
  unfold render_parameter. cbn [Name Parameters].
  destruct (decide (k = "O")) as [-> | Hne].
  - rewrite lookup_insert_eq. destruct (Parameters c !! "O"); reflexivity.
  - rewrite lookup_insert_ne by congruence. reflexivity.
Qed.

Lemma unrendered_parameter_is_dropped_witness :
  Command___str__ default_MIN_SPINDLE_SPEED default_MAX_SPINDLE_SPEED
    metric_length metric_velocity repr_integral default_conf
    (mkCommand
       (Name (command "G2" [("X", 1%Q); ("I", 2%Q)]))
       (<["K" := 3%Q]> (Parameters (command "G2" [("X", 1%Q); ("I", 2%Q)]))))
  = Command___str__ default_MIN_SPINDLE_SPEED default_MAX_SPINDLE_SPEED
      metric_length metric_velocity repr_integral default_conf
      (command "G2" [("X", 1%Q); ("I", 2%Q)]).
Proof.
  apply (unrendered_parameter_is_dropped default_MIN_SPINDLE_SPEED
           default_MAX_SPINDLE_SPEED metric_length metric_velocity
           repr_integral default_conf (command "G2" [("X", 1%Q); ("I", 2%Q)])
           "K" 3).
  reflexivity.
Defined.

(** ** The spindle percentage is monotone and saturates *)

Lemma clamp_monotone (x y lo hi : Q) :
  (x <= y)%Q → (clamp x lo hi <= clamp y lo hi)%Q.
Proof.
  intros H. unfold clamp.
  apply Q.max_le_compat_l. apply Q.min_le_compat_r. exact H.
Qed.

Lemma clamp_low (x lo hi : Q) :
  (lo <= hi)%Q → (x <= lo)%Q → (clamp x lo hi == lo)%Q.
Proof.
  intros H1 H2. unfold clamp. apply Q.max_l.
  apply Q.min_le_iff. left. exact H2.
Qed.

Lemma clamp_high (x lo hi : Q) :
  (lo <= hi)%Q → (hi <= x)%Q → (clamp x lo hi == hi)%Q.
Proof.
  intros H1 H2. unfold clamp. rewrite (Q.min_r x hi) by exact H2.
  apply Q.max_r. exact H1.
Qed.

Lemma Qfloor_ratio (a b : Z) :
  (0 < b)%Z → Qfloor (inject_Z a * 100 / inject_Z b) = ((a * 100) `div` b)%Z.
Proof.
  intros Hb.
  assert (E : (inject_Z a * 100 / inject_Z b == (a * 100) # Z.to_pos b)%Q).
  { unfold Qeq, Qdiv, Qmult, Qinv, inject_Z. simpl.
    destruct b as [ | p | p]; try lia. simpl. lia. }
  rewrite (Qfloor_comp _ _ E). simpl. rewrite Z2Pos.id by exact Hb.
  reflexivity.
Qed.

(** X6.  For a spindle range with 0 < MIN <= MAX, [speedAsPercent] never
    decreases when the speed grows, and stays between
    [MIN * 100 // MAX] and 100: every speed up to MIN (zero and negative
    speeds too) gives [MIN * 100 // MAX], every speed from MAX on gives
    100. *)
Theorem speedAsPercent_is_monotone_and_saturates (MIN MAX : Z) (s1 s2 : Q) :
  (0 < MIN)%Z →
  (MIN ≤ MAX)%Z →
  (s1 <= s2)%Q →
  ((MIN * 100) `div` MAX ≤ speedAsPercent MIN MAX s1)%Z
  ∧ (speedAsPercent MIN MAX s1 ≤ speedAsPercent MIN MAX s2)%Z
  ∧ (speedAsPercent MIN MAX s2 ≤ 100)%Z
  ∧ ((s2 <= inject_Z MIN)%Q →
     speedAsPercent MIN MAX s2 = ((MIN * 100) `div` MAX)%Z)
  ∧ ((inject_Z MAX <= s1)%Q → speedAsPercent MIN MAX s1 = 100%Z).
Proof.
  intros Hmin Hle H12.
  assert (HMAX : (0 < MAX)%Z) by lia.
  assert (H0 : (0 < inject_Z MAX)%Q) by (apply inject_Z_pos, HMAX).
  assert (H1 : (inject_Z MIN <= inject_Z MAX)%Q)
    by (rewrite <- Zle_Qle; exact Hle).
  assert (Hmono : ∀ x y, (x <= y)%Q →
            (Qfloor (x * 100 / inject_Z MAX) ≤ Qfloor (y * 100 / inject_Z MAX))%Z).
  { intros x y Hxy. apply Qfloor_resp_le.
    apply Qmult_le_compat_r; [ | apply Qlt_le_weak, Qinv_lt_0_compat, H0 ].
    apply Qmult_le_compat_r; [ exact Hxy | discriminate ]. }
  rewrite !speedAsPercent_clamp.
  rewrite <- (Qfloor_ratio MIN MAX HMAX).
  destruct (clamp_bounds s1 _ _ H1) as [Hlo1 _].
  split; [ apply Hmono, Hlo1 | ].
  split; [ apply Hmono, clamp_monotone, H12 | ].
  split.
  { pose proof (speedAsPercent_range MIN MAX s2 Hmin Hle) as Hr.
    rewrite speedAsPercent_clamp in Hr. apply Hr. }
  split.
  - intros Hs. apply Qfloor_comp.
    rewrite (clamp_low s2 _ _ H1 Hs). reflexivity.
  - intros Hs.
    assert (E : (clamp s1 (inject_Z MIN) (inject_Z MAX) * 100 / inject_Z MAX
                 == 100)%Q).
    { rewrite (clamp_high s1 _ _ H1 Hs). field. lra. }
    rewrite (Qfloor_comp _ _ E). reflexivity.
Qed.

Lemma speedAsPercent_is_monotone_and_saturates_witness :
  ((default_MIN_SPINDLE_SPEED * 100) `div` default_MAX_SPINDLE_SPEED
   ≤ speedAsPercent default_MIN_SPINDLE_SPEED default_MAX_SPINDLE_SPEED 0)%Z
  ∧ (speedAsPercent default_MIN_SPINDLE_SPEED default_MAX_SPINDLE_SPEED 0
     ≤ speedAsPercent default_MIN_SPINDLE_SPEED default_MAX_SPINDLE_SPEED 9000)%Z
  ∧ (speedAsPercent default_MIN_SPINDLE_SPEED default_MAX_SPINDLE_SPEED 9000
     ≤ 100)%Z
  ∧ ((9000 <= inject_Z default_MIN_SPINDLE_SPEED)%Q →
     speedAsPercent default_MIN_SPINDLE_SPEED default_MAX_SPINDLE_SPEED 9000
     = ((default_MIN_SPINDLE_SPEED * 100) `div` default_MAX_SPINDLE_SPEED)%Z)
  ∧ ((inject_Z default_MAX_SPINDLE_SPEED <= 0)%Q →
     speedAsPercent default_MIN_SPINDLE_SPEED default_MAX_SPINDLE_SPEED 0
     = 100%Z).
Proof.
  apply (speedAsPercent_is_monotone_and_saturates default_MIN_SPINDLE_SPEED
           default_MAX_SPINDLE_SPEED 0 9000).
  - reflexivity.
  - vm_compute. discriminate.
  - vm_compute. discriminate.
Defined.

(** ** Lines of a type that is switched off *)

Lemma Gcode___str___lines_filter (MIN MAX : Z)
    (unit_length unit_velocity : Q → string → Q) (float_repr : Q → string)
    (cf : Configuration) (ls : list line) (nbr : Z) :
  Gcode___str___lines MIN MAX unit_length unit_velocity float_repr cf nbr ls
  = Gcode___str___lines MIN MAX unit_length unit_velocity float_repr cf nbr
      (List.filter (in_types cf) ls)
  ∧ length (Gcode___str___lines MIN MAX unit_length unit_velocity float_repr
              cf nbr ls)
    = length (List.filter (in_types cf) ls).
Proof.
  revert nbr. induction ls as [ | l ls IH]; intros nbr; [ split; reflexivity | ].
  cbn [Gcode___str___lines List.filter].
  destruct (in_types cf l) eqn:Hin; [ | apply IH ].
  cbn [Gcode___str___lines]. rewrite Hin.
  destruct (line_numbers cf && is_Command_or_str l).
  - destruct (IH (nbr + 1)%Z) as [E1 E2]. split.
    + f_equal. exact E1.
    + cbn [length]. rewrite E2. reflexivity.
  - destruct (IH nbr) as [E1 E2]. split.
    + f_equal. exact E1.
    + cbn [length]. rewrite E2. reflexivity.
Qed.

(** X7.  A line whose type the configuration leaves out (a [Comment] under
    [--no-comments], a [Header] under [--no-header]) leaves no trace in the
    exported text, line numbers included: the text is that of the stream
    without these lines, and it has one line of text per line that is
    left. *)
Theorem excluded_lines_leave_no_trace (MIN MAX : Z)
    (unit_length unit_velocity : Q → string → Q) (float_repr : Q → string)
    (g : Gcode) :
  Gcode___str__ MIN MAX unit_length unit_velocity float_repr g
  = Gcode___str__ MIN MAX unit_length unit_velocity float_repr
      (set_lines g (List.filter (in_types (conf g)) (lines g)))
  ∧ length (Gcode___str___lines MIN MAX unit_length unit_velocity float_repr
              (conf g) 0 (lines g))
    = length (List.filter (in_types (conf g)) (lines g)).
Proof.
  destruct (Gcode___str___lines_filter MIN MAX unit_length unit_velocity
              float_repr (conf g) (lines g) 0) as [E1 E2].
  split; [ | exact E2 ].
  unfold Gcode___str__. cbn [set_lines conf lines]. rewrite <- E1. reflexivity.
Qed.

(** ** What the boundary check reads *)

Lemma omap_cons_line {B : Type} (f : line → option B) (l : line)
    (ls : list line) :
  omap f (l :: ls)
  = match f l with
    | Some y => y :: omap f ls
    | None => omap f ls
    end.
Proof. reflexivity. Qed.

Lemma axis_moves_filter (a : string) (ls : list line) :
  axis_moves a (List.filter is_linear_move ls) = axis_moves a ls.
Proof.
  unfold axis_moves. induction ls as [ | l ls IH]; [ reflexivity | ].
  cbn [List.filter]. rewrite (omap_cons_line _ l ls).
  destruct (is_linear_move l) eqn:Hl.
  - rewrite omap_cons_line, IH. reflexivity.
  - assert (Hn : replayed_move a l = None).
    { destruct l as [c | | | ]; try reflexivity.
      simpl in Hl. simpl. rewrite Hl. reflexivity. }
    rewrite Hn. exact IH.
Qed.

Lemma expected_warnings_filter (ls : list line) (limits : Q * Q * Q) :
  expected_warnings (List.filter is_linear_move ls) limits
  = expected_warnings ls limits.
Proof.
  destruct limits as [[lx ly] lz].
  unfold expected_warnings, travel_extent, travel_max, travel_min.
  rewrite !axis_moves_filter. reflexivity.
Qed.

(** X8.  The boundary check reads the commands named exactly [G0] and [G1]
    and nothing else: two streams with the same such commands, under the
    same machine, get the same answer and the same messages.  Arcs (G2,
    G3), moves spelled G00 or G01 and the modal commands G90 and G91 have no
    effect on it. *)
Theorem boundary_check_reads_G0_and_G1_only
    (BOUNDARIES : list (string * (Q * Q * Q))) (self self' : Postprocessor) :
  machine (conf (gcode self)) = machine (conf (gcode self')) →
  List.filter is_linear_move (lines (gcode self))
  = List.filter is_linear_move (lines (gcode self')) →
  checkBoundaries BOUNDARIES self = checkBoundaries BOUNDARIES self'.
Proof.
  intros Hm Hl. unfold checkBoundaries. rewrite <- Hm.
  destruct (machine (conf (gcode self)) ≫= machine_limits BOUNDARIES)
    as [limits | ]; [ | reflexivity ].
  rewrite !boundary_warnings_expected.
  rewrite <- (expected_warnings_filter (lines (gcode self))),
    <- (expected_warnings_filter (lines (gcode self'))), Hl.
  reflexivity.
Qed.

Lemma boundary_check_reads_G0_and_G1_only_witness :
  checkBoundaries bench_BOUNDARIES
    (mkPostprocessor
       (mkGcode [LCommand (command "G0" [("X", 10%Q)]);
                 LCommand (command "G91" []);
                 LCommand (command "G2" [("X", 500%Q); ("I", 1%Q)]);
                 LCommand (command "G00" [("X", 900%Q)])]
          bench_conf (LStr "G98"))
       None [])
  = checkBoundaries bench_BOUNDARIES
      (mkPostprocessor
         (mkGcode [LCommand (command "G0" [("X", 10%Q)])]
            bench_conf (LStr "G98"))
         None []).
Proof.
  apply (boundary_check_reads_G0_and_G1_only bench_BOUNDARIES
           (mkPostprocessor
              (mkGcode [LCommand (command "G0" [("X", 10%Q)]);
                        LCommand (command "G91" []);
                        LCommand (command "G2" [("X", 500%Q); ("I", 1%Q)]);
                        LCommand (command "G00" [("X", 900%Q)])]
                 bench_conf (LStr "G98"))
              None [])
           (mkPostprocessor
              (mkGcode [LCommand (command "G0" [("X", 10%Q)])]
                 bench_conf (LStr "G98"))
              None []));
    reflexivity.
Defined.

(** ** The boundary check without a machine *)

Lemma machine_limits_None (BOUNDARIES : list (string * (Q * Q * Q)))
    (name : string) :
  name ∉ (fst <$> BOUNDARIES) → machine_limits BOUNDARIES name = None.
Proof.
  intros H. unfold machine_limits.
  destruct (list_find (λ e, fst e = name) BOUNDARIES) as [[i e] | ] eqn:Hf;
    [ | reflexivity ].
  exfalso. apply list_find_Some in Hf as (Hi & He & _).
  apply H. rewrite <- He. apply list_elem_of_fmap. exists e.
  split; [ reflexivity | ]. eapply list_elem_of_lookup_2. exact Hi.
Qed.

(** X9.  Without a machine name (the default), or with a name that is not in
    the table of build volumes, the boundary check replays nothing: it
    returns [False] and prints one error, whatever the stream holds, and no
    axis is ever reported. *)
Theorem boundary_check_without_machine
    (BOUNDARIES : list (string * (Q * Q * Q))) (self : Postprocessor) :
  (∀ name, machine (conf (gcode self)) = Some name →
           name ∉ (fst <$> BOUNDARIES)) →
  checkBoundaries BOUNDARIES self
  = (Some false,
     [PrintLog "Boundaries check/n";
      PrintError "Boundary check failed, no valid machine name supplied"]).
Proof.
  intros H. unfold checkBoundaries.
  destruct (machine (conf (gcode self))) as [name | ]; [ | reflexivity ].
  simpl. rewrite (machine_limits_None BOUNDARIES name (H name eq_refl)).
  reflexivity.
Qed.

Lemma boundary_check_without_machine_witness :
  checkBoundaries default_BOUNDARIES
    (postprocessor (stream [LCommand (command "G0" [("X", 5000%Q)])]))
  = (Some false,
     [PrintLog "Boundaries check/n";
      PrintError "Boundary check failed, no valid machine name supplied"]).
Proof.
  apply (boundary_check_without_machine default_BOUNDARIES
           (postprocessor (stream [LCommand (command "G0" [("X", 5000%Q)])]))).
  intros name H. discriminate H.
Defined.

(** ** The stream only grows *)

Lemma bind_Ok {A B : Type} (r : result A) (k : A → result B) (b : B) :
  bind r k = Ok b → ∃ a, r = Ok a ∧ k a = Ok b.
Proof. destruct r; simpl; [ eauto | discriminate | discriminate ]. Qed.

Lemma getitem_Ok (d : gmap string Q) (k : string) (v : Q) :
  getitem d k = Ok v → d !! k = Some v.
Proof. unfold getitem. destruct (d !! k); [ congruence | discriminate ]. Qed.

Lemma grows_by_refl (P : line → Prop) (self : Postprocessor) :
  grows_by P self self.
Proof.
  split; [ reflexivity | ]. split; [ reflexivity | ].
  exists []. split; [ rewrite app_nil_r; reflexivity | constructor ].
Qed.

Lemma grows_by_trans (P : line → Prop) (a b c : Postprocessor) :
  grows_by P a b → grows_by P b c → grows_by P a c.
Proof.
  intros (J1 & C1 & n1 & L1 & F1) (J2 & C2 & n2 & L2 & F2).
  split; [ congruence | ]. split; [ congruence | ].
  exists (n1 ++ n2). split; [ rewrite L2, L1, app_assoc; reflexivity | ].
  apply Forall_app. split; assumption.
Qed.

Lemma grows_by_print (P : line → Prop) (self : Postprocessor) (m : logmsg) :
  grows_by P self (print self m).
Proof. apply (grows_by_refl P self). Qed.

Lemma addCommand_grows (P : line → Prop) (self self' : Postprocessor)
    (c : Command) (obj : option PathObject) :
  P (LCommand (fst (rapid_feed self c obj))) →
  addCommand self c obj = Ok self' →
  grows_by P self self'.
Proof.
  intros HP. rewrite addCommand_eq. intros H. injection H as <-.
  split; [ reflexivity | ].
  destruct (is_duplicate (gcode self) (LCommand c)).
  - split; [ reflexivity | ]. exists [].
    split; [ rewrite app_nil_r; reflexivity | constructor ].
  - split; [ reflexivity | ]. eexists. split; [ reflexivity | ].
    constructor; [ exact HP | constructor ].
Qed.

Lemma emit_grows (P : line → Prop) (self self' : Postprocessor) (l : line) :
  P l → emit self l = Ok self' → grows_by P self self'.
Proof.
  intros HP. unfold emit. rewrite Gcode_append_eq. simpl.
  intros H. injection H as <-.
  split; [ reflexivity | ].
  destruct (is_duplicate (gcode self) l).
  - split; [ reflexivity | ]. exists [].
    split; [ rewrite app_nil_r; reflexivity | constructor ].
  - split; [ reflexivity | ]. eexists. split; [ reflexivity | ].
    constructor; [ exact HP | constructor ].
Qed.

Lemma emit_all_grows (P : line → Prop) (ls : list string) :
  ∀ self self',
    Forall (λ s, P (LStr s)) ls →
    emit_all self ls = Ok self' → grows_by P self self'.
Proof.
  induction ls as [ | l ls IH]; intros self self' HP H.
  - injection H as <-. apply grows_by_refl.
  - simpl in H. apply bind_Ok in H as (s1 & E1 & H).
    apply Forall_cons in HP as [Hl Hls].
    eapply grows_by_trans; [ eapply emit_grows; eassumption | ].
    eapply IH; eassumption.
Qed.

(** With a peck that is not positive, the loop of the peck cycle does not
    end once it is entered. *)
Lemma peck_loop_nonpositive (fuel : nat) :
  ∀ (self : Postprocessor) (obj : option PathObject)
    (z r f q chip next : Q),
    (q <= 0)%Q →
    peck_loop fuel self obj z r f q chip next
    = if bool_decide (z <= next)%Q then OutOfFuel else Ok self.
Proof.
  induction fuel as [ | fuel IH]; intros self obj z r f q chip next Hq.
  - simpl. destruct (bool_decide (z <= next)%Q); reflexivity.
  - simpl. destruct (decide (z <= next)%Q) as [Hle | Hnle].
    + rewrite (bool_decide_eq_true_2 _ Hle).
      rewrite addCommand_eq. cbn [bind].
      rewrite bool_decide_eq_true_2 by lra.
      rewrite addCommand_eq. cbn [bind]. rewrite addCommand_eq. cbn [bind].
      rewrite IH by exact Hq.
      rewrite bool_decide_eq_true_2 by lra. reflexivity.
    + rewrite (bool_decide_eq_false_2 _ Hnle). reflexivity.
Qed.

Lemma peck_loop_grows (P : line → Prop) (D : Q → Prop) (fuel : nat) :
  ∀ (self self' : Postprocessor) (obj : option PathObject)
    (z r f q next : Q),
    (∀ s c o, P (LCommand c) → P (LCommand (fst (rapid_feed s c o)))) →
    (∀ d, D d → P (LCommand (mkCommand "G0" {[ "Z" := d ]}))) →
    (∀ d, D d → P (LCommand (mkCommand "G1" {[ "Z" := d; "F" := f ]}))) →
    D r → D z →
    (∀ n, (z <= n)%Q → (n <= r - q)%Q → D n ∧ D (n + q * (1 # 2))%Q) →
    (0 < q)%Q →
    (next <= r - q)%Q →
    peck_loop fuel self obj z r f q (q * (1 # 2))%Q next = Ok self' →
    grows_by P self self'.
Proof.
  induction fuel as [ | fuel IH];
    intros self self' obj z r f q next HF H0 H1 Dr Dz Dn Hq Hnext H.
  - simpl in H. destruct (bool_decide (z <= next)%Q); [ discriminate | ].
    injection H as <-. apply grows_by_refl.
  - simpl in H. destruct (decide (z <= next)%Q) as [Hle | Hnle].
    2: { rewrite (bool_decide_eq_false_2 _ Hnle) in H. injection H as <-.
         apply grows_by_refl. }
    rewrite (bool_decide_eq_true_2 _ Hle) in H.
    destruct (Dn next Hle Hnext) as [Dnext Dchip].
    apply bind_Ok in H as (s1 & E1 & H).
    apply addCommand_grows with (P := P) in E1; [ | apply HF, H1, Dnext ].
    destruct (bool_decide (z <= next - q)%Q).
    + apply bind_Ok in H as (s2 & E2 & H).
      apply addCommand_grows with (P := P) in E2; [ | apply HF, H0, Dr ].
      apply bind_Ok in H as (s3 & E3 & H).
      apply addCommand_grows with (P := P) in E3; [ | apply HF, H0, Dchip ].
      apply IH in H; try assumption; [ | lra ].
      eauto using grows_by_trans.
    + destruct (bool_decide (next == z)%Q).
      * injection H as <-. exact E1.
      * apply bind_Ok in H as (s2 & E2 & H).
        apply addCommand_grows with (P := P) in E2; [ | apply HF, H0, Dr ].
        apply bind_Ok in H as (s3 & E3 & H).
        apply addCommand_grows with (P := P) in E3; [ | apply HF, H0, Dchip ].
        apply bind_Ok in H as (s4 & E4 & H).
        apply addCommand_grows with (P := P) in E4; [ | apply HF, H1, Dz ].
        injection H as <-.
        eauto using grows_by_trans.
Qed.

Lemma translateDrill_grows (P : line → Prop) (D : Q → Prop) (fuel : nat)
    (self self' : Postprocessor) (cmd : Command) (obj : PathObject) :
  (∀ s c o, P (LCommand c) → P (LCommand (fst (rapid_feed s c o)))) →
  (∀ x y, P (LCommand (mkCommand "G0" {[ "X" := x; "Y" := y ]}))) →
  (∀ dwell, P (LCommand (mkCommand "G4" {[ "S" := dwell ]}))) →
  (∀ d, D d → P (LCommand (mkCommand "G0" {[ "Z" := d ]}))) →
  (∀ d f, D d → P (LCommand (mkCommand "G1" {[ "Z" := d; "F" := f ]}))) →
  (∀ z r rz,
     Parameters cmd !! "Z" = Some z →
     Parameters cmd !! "R" = Some r →
     (z <= r)%Q →
     retract_height self (current_position (gcode self) "Z") r = Ok rz →
     D rz ∧ D r ∧ D z
     ∧ (Name cmd = "G83" →
        ∀ q n, Parameters cmd !! "Q" = Some q → (0 < q)%Q →
               (z <= n)%Q → (n <= r - q)%Q →
               D n ∧ D (n + q * (1 # 2))%Q)) →
  translateDrill fuel self cmd obj = Ok self' →
  grows_by P self self'.
Proof.
  intros HF Hxy Hdw H0 H1 HD H. unfold translateDrill in H.
  apply bind_Ok in H as (x & HX & H). apply bind_Ok in H as (y & HY & H).
  apply bind_Ok in H as (z & HZ & H). apply bind_Ok in H as (r & HR & H).
  apply bind_Ok in H as (f & HFd & H).
  apply getitem_Ok in HZ. apply getitem_Ok in HR.
  cbv zeta in H.
  destruct (decide (r < z)%Q) as [Hlt | Hge].
  { rewrite (bool_decide_eq_true_2 _ Hlt) in H. injection H as <-.
    apply grows_by_print. }
  rewrite (bool_decide_eq_false_2 _ Hge) in H.
  apply bind_Ok in H as (rz & Hrz & H).
  assert (Hzr : (z <= r)%Q) by (apply Qnot_lt_le; exact Hge).
  destruct (HD z r rz HZ HR Hzr Hrz) as (Drz & Dr & Dz & Dpeck).
  apply bind_Ok in H as (below & _ & H).
  apply bind_Ok in H as (s1 & E1 & H).
  assert (G1 : grows_by P self s1).
  { destruct below; [ | injection E1 as <-; apply grows_by_refl ].
    eapply addCommand_grows; [ | exact E1 ]. apply HF, H0, Drz. }
  apply bind_Ok in H as (s2 & E2 & H).
  assert (G2 : grows_by P s1 s2).
  { destruct (py_ne _ x && py_ne _ y);
      [ | injection E2 as <-; apply grows_by_refl ].
    eapply addCommand_grows; [ | exact E2 ]. apply HF, Hxy. }
  apply bind_Ok in H as (s3 & E3 & H).
  apply addCommand_grows with (P := P) in E3; [ | apply HF, H0, Dr ].
  apply bind_Ok in H as (s4 & E4 & H).
  apply addCommand_grows with (P := P) in H; [ | apply HF, H0, Drz ].
  assert (G4 : grows_by P s3 s4).
  { destruct (String.eqb (Name cmd) "G81") eqn:N81.
    { eapply addCommand_grows; [ | exact E4 ]. apply HF, H1, Dz. }
    destruct (String.eqb (Name cmd) "G82") eqn:N82.
    { apply bind_Ok in E4 as (t1 & T1 & E4).
      apply bind_Ok in E4 as (dwell & _ & E4).
      apply addCommand_grows with (P := P) in T1; [ | apply HF, H1, Dz ].
      apply addCommand_grows with (P := P) in E4; [ | apply HF, Hdw ].
      eauto using grows_by_trans. }
    destruct (String.eqb (Name cmd) "G83") eqn:N83;
      [ | injection E4 as <-; apply grows_by_refl ].
    apply String.eqb_eq in N83.
    apply bind_Ok in E4 as (q & HQ & E4). apply getitem_Ok in HQ.
    cbv zeta in E4.
    destruct (decide (0 < q)%Q) as [Hq | Hq].
    - apply (peck_loop_grows P D fuel s3 s4 (Some obj) z r f q (r - q)%Q HF H0
               (λ d, H1 d f) Dr Dz
               (λ n Hn1 Hn2, Dpeck N83 q n HQ Hq Hn1 Hn2) Hq
               (Qle_refl _) E4).
    - rewrite peck_loop_nonpositive in E4 by lra.
      destruct (bool_decide (z <= r - q)%Q); [ discriminate | ].
      injection E4 as <-. apply grows_by_refl. }
  eauto using grows_by_trans.
Qed.

(** ** Drill cycles: errors *)

(** X10.  A drill cycle that lacks one of its X, Y, Z, R and F parameters
    raises [KeyError], from any state and whatever its name and its other
    parameters are, also when R is below Z. *)
Theorem drill_cycle_without_parameter_raises (fuel : nat)
    (self : Postprocessor) (cmd : Command) (obj : PathObject) (k : string) :
  k ∈ ["X"; "Y"; "Z"; "R"; "F"] →
  Parameters cmd !! k = None →
  translateDrill fuel self cmd obj = Raise KeyError.
Proof.
  intros Hk Hnone. unfold translateDrill, getitem.
  destruct (Parameters cmd !! "X") as [x | ] eqn:HX; [ | reflexivity ].
  destruct (Parameters cmd !! "Y") as [y | ] eqn:HY; [ | reflexivity ].
  destruct (Parameters cmd !! "Z") as [z | ] eqn:HZ; [ | reflexivity ].
  destruct (Parameters cmd !! "R") as [r | ] eqn:HR; [ | reflexivity ].
  destruct (Parameters cmd !! "F") as [f | ] eqn:HF; [ | reflexivity ].
  exfalso. apply list_elem_of_In in Hk. simpl in Hk.
  destruct Hk as [<- | [<- | [<- | [<- | [<- | []]]]]]; congruence.
Qed.

Lemma drill_cycle_without_parameter_raises_witness :
  translateDrill 0
    (postprocessor (stream [LComment "c"; LCommand (command "G0" [("Z", 5%Q)])]))
    (command "G81" [("X", 1%Q); ("Y", 1%Q); ("Z", (-5)%Q); ("F", 100%Q)])
    drill_op
  = Raise KeyError.
Proof.
  apply (drill_cycle_without_parameter_raises 0
           (postprocessor
              (stream [LComment "c"; LCommand (command "G0" [("Z", 5%Q)])]))
           (command "G81" [("X", 1%Q); ("Y", 1%Q); ("Z", (-5)%Q);
                           ("F", 100%Q)])
           drill_op "R").
  - do 3 apply list_elem_of_further. apply list_elem_of_here.
  - reflexivity.
Defined.

(** X11.  On a stream of exactly one line the current position is [None]
    (the backward lookup visits no line), and every drill cycle with R not
    below Z raises [TypeError] when it compares the position with the
    retract height. *)
Theorem drill_cycle_on_one_line_stream_raises (fuel : nat)
    (self : Postprocessor) (cmd : Command) (obj : PathObject) (l : line)
    (x y z r f : Q) :
  lines (gcode self) = [l] →
  Parameters cmd !! "X" = Some x →
  Parameters cmd !! "Y" = Some y →
  Parameters cmd !! "Z" = Some z →
  Parameters cmd !! "R" = Some r →
  Parameters cmd !! "F" = Some f →
  (z <= r)%Q →
  current_position (gcode self) "Z" = None
  ∧ translateDrill fuel self cmd obj = Raise TypeError.
Proof.
  intros Hl HX HY HZ HR HF Hzr.
  assert (Hpos : Gcode_lastParameter (gcode self) "Z" [] (-1) (Some 0%Q) = None)
    by (apply (lastParameter_single _ _ _ _ l Hl)).
  split; [ exact Hpos | ].
  unfold translateDrill.
  rewrite (getitem_Some _ _ _ HX), (getitem_Some _ _ _ HY),
    (getitem_Some _ _ _ HZ), (getitem_Some _ _ _ HR), (getitem_Some _ _ _ HF).
  cbn [bind]. rewrite Hpos.
  rewrite bool_decide_eq_false_2 by lra.
  unfold retract_height.
  destruct (line_eq_total (drillRetractMode (gcode self)) (LStr "G98"))
    as [b ->].
  cbn [bind]. destruct b; reflexivity.
Qed.

Lemma drill_cycle_on_one_line_stream_raises_witness :
  current_position (gcode (postprocessor (stream [LComment "c"]))) "Z" = None
  ∧ translateDrill 0 (postprocessor (stream [LComment "c"]))
      (command "G81" [("X", 1%Q); ("Y", 1%Q); ("Z", (-5)%Q); ("R", 2%Q);
                      ("F", 100%Q)])
      drill_op
    = Raise TypeError.
Proof.
  apply (drill_cycle_on_one_line_stream_raises 0
           (postprocessor (stream [LComment "c"]))
           (command "G81" [("X", 1%Q); ("Y", 1%Q); ("Z", (-5)%Q); ("R", 2%Q);
                           ("F", 100%Q)])
           drill_op (LComment "c") 1 1 (-5) 2 100);
    try reflexivity.
  vm_compute. discriminate.
Defined.

(** ** Drill cycles: from the rapid move to R on *)

Lemma retract_height_cases (self : Postprocessor) (pz r rz : Q) :
  retract_height self (Some pz) r = Ok rz →
  rz = r ∨ (rz = pz ∧ (r < pz)%Q).
Proof.
  unfold retract_height.
  destruct (line_eq_total (drillRetractMode (gcode self)) (LStr "G98"))
    as [b ->].
  cbn [bind]. destruct b; [ | intros H; injection H as <-; left; reflexivity ].
  cbn [py_gt bind]. destruct (decide (r < pz)%Q) as [Hlt | Hge].
  - rewrite (bool_decide_eq_true_2 _ Hlt). simpl.
    intros H. injection H as <-. right. split; [ reflexivity | exact Hlt ].
  - rewrite (bool_decide_eq_false_2 _ Hge).
    intros H. injection H as <-. left. reflexivity.
Qed.

(** A cycle with its parameters, R not below Z and a defined position gets
    to the moves of the cycle proper, in a state whose stream ends with a
    rapid move. *)
Lemma translateDrill_reaches_cycle (fuel : nat) (self : Postprocessor)
    (obj : PathObject) (cmd : Command) (x y z r f px py pz : Q) :
  Parameters cmd !! "X" = Some x →
  Parameters cmd !! "Y" = Some y →
  Parameters cmd !! "Z" = Some z →
  Parameters cmd !! "R" = Some r →
  Parameters cmd !! "F" = Some f →
  (z <= r)%Q →
  current_position (gcode self) "X" = Some px →
  current_position (gcode self) "Y" = Some py →
  current_position (gcode self) "Z" = Some pz →
  ∃ rz s3,
    retract_height self (Some pz) r = Ok rz
    ∧ same_context self s3
    ∧ ends_with_rapid s3
    ∧ translateDrill fuel self cmd obj
      = (s4 ←! cycle_moves fuel s3 obj cmd z r f;
         addCommand s4 (mkCommand "G0" {[ "Z" := rz ]}) (Some obj)).
Proof.
  intros HX HY HZ HR HF Hzr HpX HpY HpZ.
  unfold current_position in HpX, HpY, HpZ.
  unfold translateDrill.
  rewrite (getitem_Some _ _ _ HX), (getitem_Some _ _ _ HY),
    (getitem_Some _ _ _ HZ), (getitem_Some _ _ _ HR), (getitem_Some _ _ _ HF).
  cbn [bind]. rewrite HpX, HpY, HpZ.
  rewrite bool_decide_eq_false_2 by lra.
  destruct (retract_height_total self pz r) as [rz Hrz]. rewrite Hrz.
  cbn [bind py_lt].
  destruct (clearance_emits self (bool_decide (pz < rz)%Q) rz (Some obj))
    as (s1 & pre & E1 & C1 & L1 & P1 & F1).
  rewrite E1. cbn [bind].
  destruct (xy_move_emits self s1 pre (Some obj)
              (py_ne (Some px) x && py_ne (Some py) y) x y px C1 L1 F1)
    as (s2 & E2 & C2 & L2).
  { unfold current_position. exact HpX. }
  { intros H. apply andb_true_iff in H as [H _]. exact H. }
  rewrite E2. cbn [bind].
  destruct (addCommand_rapid s2 r (Some obj))
    as (s3 & mid & E3 & C3 & L3 & P3 & R3).
  rewrite E3. cbn [bind].
  exists rz, s3. split; [ reflexivity | ].
  split; [ eauto using same_context_trans | ].
  split; [ exact R3 | ]. reflexivity.
Qed.

(** X12.  A dwell cycle (G82) without its P parameter and a peck cycle (G83)
    without its Q parameter raise [KeyError], on any stream with a defined
    position. *)
Theorem drill_cycle_without_dwell_or_peck_raises (fuel : nat)
    (self : Postprocessor) (obj : PathObject) (cmd : Command)
    (x y z r f px py pz : Q) :
  Parameters cmd !! "X" = Some x →
  Parameters cmd !! "Y" = Some y →
  Parameters cmd !! "Z" = Some z →
  Parameters cmd !! "R" = Some r →
  Parameters cmd !! "F" = Some f →
  (z <= r)%Q →
  current_position (gcode self) "X" = Some px →
  current_position (gcode self) "Y" = Some py →
  current_position (gcode self) "Z" = Some pz →
  (Name cmd = "G82" ∧ Parameters cmd !! "P" = None)
  ∨ (Name cmd = "G83" ∧ Parameters cmd !! "Q" = None) →
  translateDrill fuel self cmd obj = Raise KeyError.
Proof.
  intros HX HY HZ HR HF Hzr HpX HpY HpZ Hmiss.
  destruct (translateDrill_reaches_cycle fuel self obj cmd x y z r f px py pz
              HX HY HZ HR HF Hzr HpX HpY HpZ)
    as (rz & s3 & _ & _ & R3 & ->).
  unfold cycle_moves, getitem.
  destruct Hmiss as [[-> HP] | [-> HQ]]; simpl String.eqb; cbv iota.
  - destruct (addCommand_feed s3 z f R3) as (s4 & -> & _). cbn [bind].
    rewrite HP. reflexivity.
  - rewrite HQ. reflexivity.
Qed.

Lemma drill_cycle_without_dwell_or_peck_raises_witness :
  translateDrill 5
    (postprocessor (stream [LComment "c"; LCommand (command "G0" [("Z", 5%Q)])]))
    (command "G83" [("X", 1%Q); ("Y", 1%Q); ("Z", (-5)%Q); ("R", 2%Q);
                    ("F", 100%Q)])
    drill_op
  = Raise KeyError.
Proof.
  apply (drill_cycle_without_dwell_or_peck_raises 5
           (postprocessor
              (stream [LComment "c"; LCommand (command "G0" [("Z", 5%Q)])]))
           drill_op
           (command "G83" [("X", 1%Q); ("Y", 1%Q); ("Z", (-5)%Q); ("R", 2%Q);
                           ("F", 100%Q)])
           1 1 (-5) 2 100 0 0 5);
    try reflexivity.
  - vm_compute. discriminate.
  - right. split; reflexivity.
Defined.

(** X13.  A peck cycle (G83) whose Q is zero or negative, with R not below Z,
    never leaves its loop: whatever the fuel, the translation runs out of
    it. *)
Theorem peck_cycle_with_nonpositive_peck_never_ends (fuel : nat)
    (self : Postprocessor) (obj : PathObject) (cmd : Command)
    (x y z r f q px py pz : Q) :
  Name cmd = "G83" →
  Parameters cmd !! "X" = Some x →
  Parameters cmd !! "Y" = Some y →
  Parameters cmd !! "Z" = Some z →
  Parameters cmd !! "R" = Some r →
  Parameters cmd !! "F" = Some f →
  Parameters cmd !! "Q" = Some q →
  (q <= 0)%Q →
  (z <= r)%Q →
  current_position (gcode self) "X" = Some px →
  current_position (gcode self) "Y" = Some py →
  current_position (gcode self) "Z" = Some pz →
  translateDrill fuel self cmd obj = OutOfFuel.
Proof.
  intros Hn HX HY HZ HR HF HQ Hq Hzr HpX HpY HpZ.
  assert (Hz : (z <= r - q)%Q) by lra.
  destruct (translateDrill_reaches_cycle fuel self obj cmd x y z r f px py pz
              HX HY HZ HR HF Hzr HpX HpY HpZ)
    as (rz & s3 & _ & _ & _ & ->).
  unfold cycle_moves. rewrite Hn. simpl String.eqb. cbv iota.
  rewrite (getitem_Some _ _ _ HQ). cbn [bind].
  rewrite peck_loop_nonpositive by exact Hq.
  rewrite bool_decide_eq_true_2 by exact Hz. reflexivity.
Qed.

Lemma peck_cycle_with_nonpositive_peck_never_ends_witness :
  translateDrill 1000
    (postprocessor (stream [LComment "c"; LCommand (command "G0" [("Z", 5%Q)])]))
    (command "G83" [("X", 1%Q); ("Y", 1%Q); ("Z", (-5)%Q); ("R", 2%Q);
                    ("Q", 0%Q); ("F", 100%Q)])
    drill_op
  = OutOfFuel.
Proof.
  apply (peck_cycle_with_nonpositive_peck_never_ends 1000
           (postprocessor
              (stream [LComment "c"; LCommand (command "G0" [("Z", 5%Q)])]))
           drill_op
           (command "G83" [("X", 1%Q); ("Y", 1%Q); ("Z", (-5)%Q); ("R", 2%Q);
                           ("Q", 0%Q); ("F", 100%Q)])
           1 1 (-5) 2 100 0 0 0 5);
    try reflexivity; vm_compute; discriminate.
Defined.

(** ** Drill cycles: heights *)

Lemma cycle_moves_emits (fuel : nat) (self : Postprocessor) (obj : PathObject)
    (cmd : Command) (z r f : Q) :
  bool_decide (Name cmd ∈ ["G81"; "G82"; "G83"]) = true →
  (z <= r)%Q →
  cycle_ready fuel cmd z r = true →
  ends_with_rapid self →
  ∃ self', cycle_moves fuel self obj cmd z r f = Ok self'.
Proof.
  intros Hn Hzr Hready Hrapid.
  destruct (cycle_body_emits fuel self obj cmd z r f Hn Hzr Hready Hrapid)
    as (self' & new & E & _).
  exists self'. exact E.
Qed.

(** A rapid move in Z alone leaves the stream ending with a rapid move to
    that height, whether it is stored or dropped as a duplicate. *)
Lemma addCommand_rapid_last (self : Postprocessor) (v : Q)
    (obj : option PathObject) :
  ∃ self' p d,
    addCommand self (mkCommand "G0" {[ "Z" := v ]}) obj = Ok self'
    ∧ last (lines (gcode self')) = Some (LCommand p)
    ∧ Name p = "G0"
    ∧ Parameters p !! "Z" = Some d
    ∧ (d == v)%Q.
Proof.
  rewrite addCommand_eq. set (c := mkCommand "G0" {[ "Z" := v ]}).
  destruct (is_duplicate (gcode self) (LCommand c)) eqn:Hd.
  - destruct (is_duplicate_Command _ _ Hd) as (p & Hp & Hn & Heq).
    pose proof (dict_eq_lookup _ _ "Z" Heq) as HZ.
    change (Parameters c !! "Z") with (Some v) in HZ.
    destruct (Parameters p !! "Z") as [d | ] eqn:Hpz; [ | contradiction ].
    eexists _, p, d. split; [ reflexivity | ]. simpl. auto.
  - eexists _, (fst (rapid_feed self c obj)), v.
    split; [ reflexivity | ]. simpl.
    split; [ apply last_snoc | ].
    split; [ apply rapid_feed_Name | ].
    split; [ rewrite rapid_feed_Parameters by discriminate; reflexivity | ].
    reflexivity.
Qed.

(** X14.  A translated drill cycle leaves the tool at the retract height: when
    it returns, the last line of the stream is a rapid move whose Z is the
    retract height, which is R or, in a stored G98 mode with the current Z
    above R, the current Z. *)
Theorem drill_cycle_ends_at_retract_height (fuel : nat)
    (self : Postprocessor) (obj : PathObject) (cmd : Command)
    (x y z r f px py pz : Q) :
  bool_decide (Name cmd ∈ ["G81"; "G82"; "G83"]) = true →
  Parameters cmd !! "X" = Some x →
  Parameters cmd !! "Y" = Some y →
  Parameters cmd !! "Z" = Some z →
  Parameters cmd !! "R" = Some r →
  Parameters cmd !! "F" = Some f →
  (z <= r)%Q →
  cycle_ready fuel cmd z r = true →
  current_position (gcode self) "X" = Some px →
  current_position (gcode self) "Y" = Some py →
  current_position (gcode self) "Z" = Some pz →
  ∃ self' rz p d,
    translateDrill fuel self cmd obj = Ok self'
    ∧ retract_height self (Some pz) r = Ok rz
    ∧ (rz = r ∨ (rz = pz ∧ (r < pz)%Q))
    ∧ last (lines (gcode self')) = Some (LCommand p)
    ∧ Name p = "G0"
    ∧ Parameters p !! "Z" = Some d
    ∧ (d == rz)%Q.
Proof.
  intros Hn HX HY HZ HR HF Hzr Hready HpX HpY HpZ.
  destruct (translateDrill_reaches_cycle fuel self obj cmd x y z r f px py pz
              HX HY HZ HR HF Hzr HpX HpY HpZ)
    as (rz & s3 & Hrz & _ & R3 & ->).
  destruct (cycle_moves_emits fuel s3 obj cmd z r f Hn Hzr Hready R3)
    as (s4 & ->).
  cbn [bind].
  destruct (addCommand_rapid_last s4 rz (Some obj))
    as (self' & p & d & E & Hl & Hname & Hd & Hdz).
  exists self', rz, p, d. split; [ exact E | ]. split; [ exact Hrz | ].
  split; [ exact (retract_height_cases self pz r rz Hrz) | ]. auto.
Qed.

Lemma drill_cycle_ends_at_retract_height_witness :
  ∃ self' rz p d,
    translateDrill 3
      (postprocessor
         (stream [LComment "c"; LCommand (command "G0" [("Z", 10%Q)])]))
      (command "G83" [("X", 1%Q); ("Y", 1%Q); ("Z", (-5)%Q); ("R", 2%Q);
                      ("Q", 3%Q); ("F", 100%Q)])
      drill_op
    = Ok self'
    ∧ retract_height
        (postprocessor
           (stream [LComment "c"; LCommand (command "G0" [("Z", 10%Q)])]))
        (Some 10%Q) 2 = Ok rz
    ∧ (rz = 2%Q ∨ (rz = 10%Q ∧ (2 < 10)%Q))
    ∧ last (lines (gcode self')) = Some (LCommand p)
    ∧ Name p = "G0"
    ∧ Parameters p !! "Z" = Some d
    ∧ (d == rz)%Q.
Proof.
  apply (drill_cycle_ends_at_retract_height 3
           (postprocessor
              (stream [LComment "c"; LCommand (command "G0" [("Z", 10%Q)])]))
           drill_op
           (command "G83" [("X", 1%Q); ("Y", 1%Q); ("Z", (-5)%Q); ("R", 2%Q);
                           ("Q", 3%Q); ("F", 100%Q)])
           1 1 (-5) 2 100 0 0 10);
    try reflexivity.
  vm_compute. discriminate.
Defined.

Lemma z_within_rapid_feed (lo hi : Q) (s : Postprocessor) (c : Command)
    (o : option PathObject) :
  z_within lo hi (LCommand c) →
  z_within lo hi (LCommand (fst (rapid_feed s c o))).
Proof.
  unfold z_within. rewrite rapid_feed_Parameters by discriminate. auto.
Qed.

(** X15.  Every Z that a translated drill cycle commands, in a rapid or in a
    feed move, lies between the target depth Z and the retract height: the
    cycle never feeds or plunges below Z and never lifts above the retract
    height. *)
Theorem drill_cycle_stays_between_depth_and_retract (fuel : nat)
    (self : Postprocessor) (obj : PathObject) (cmd : Command)
    (x y z r f px py pz : Q) :
  bool_decide (Name cmd ∈ ["G81"; "G82"; "G83"]) = true →
  Parameters cmd !! "X" = Some x →
  Parameters cmd !! "Y" = Some y →
  Parameters cmd !! "Z" = Some z →
  Parameters cmd !! "R" = Some r →
  Parameters cmd !! "F" = Some f →
  (z <= r)%Q →
  cycle_ready fuel cmd z r = true →
  current_position (gcode self) "X" = Some px →
  current_position (gcode self) "Y" = Some py →
  current_position (gcode self) "Z" = Some pz →
  ∃ self' rz,
    translateDrill fuel self cmd obj = Ok self'
    ∧ retract_height self (Some pz) r = Ok rz
    ∧ (r <= rz)%Q
    ∧ Forall (z_within z rz) (emitted self self').
Proof.
  intros Hn HX HY HZ HR HF Hzr Hready HpX HpY HpZ.
  destruct (translateDrill_emits fuel self obj cmd x y z r f px py pz
              Hn HX HY HZ HR HF Hzr Hready HpX HpY HpZ)
    as (self' & _ & _ & _ & E & _).
  destruct (retract_height_total self pz r) as [rz Hrz].
  assert (Hrrz : (r <= rz)%Q).
  { destruct (retract_height_cases self pz r rz Hrz) as [-> | [-> Hlt]]; lra. }
  exists self', rz. split; [ exact E | ]. split; [ exact Hrz | ].
  split; [ exact Hrrz | ].
  assert (G : grows_by (z_within z rz) self self').
  { apply (translateDrill_grows (z_within z rz)
             (λ d, (z <= d)%Q ∧ (d <= rz)%Q) fuel self self' cmd obj);
      [ intros s c o; apply z_within_rapid_feed
      | intros x0 y0; exact I
      | intros dwell; exact I
      | intros d Hd; exact Hd
      | intros d f0 Hd; exact Hd
      |
      | exact E ].
    intros z' r' rz' HZ' HR' Hzr' Hrz'.
    rewrite HZ in HZ'. injection HZ' as <-.
    rewrite HR in HR'. injection HR' as <-.
    rewrite HpZ, Hrz in Hrz'. injection Hrz' as <-.
    split; [ lra | ]. split; [ lra | ]. split; [ lra | ].
    intros _ q n _ Hq Hn1 Hn2. lra. }
  destruct G as (_ & _ & new & Hnew & Hall).
  rewrite (emitted_app self self' new Hnew). exact Hall.
Qed.

Lemma drill_cycle_stays_between_depth_and_retract_witness :
  ∃ self' rz,
    translateDrill 3
      (postprocessor
         (stream [LComment "c"; LCommand (command "G0" [("Z", 10%Q)])]))
      (command "G83" [("X", 1%Q); ("Y", 1%Q); ("Z", (-5)%Q); ("R", 2%Q);
                      ("Q", 3%Q); ("F", 100%Q)])
      drill_op
    = Ok self'
    ∧ retract_height
        (postprocessor
           (stream [LComment "c"; LCommand (command "G0" [("Z", 10%Q)])]))
        (Some 10%Q) 2 = Ok rz
    ∧ (2 <= rz)%Q
    ∧ Forall (z_within (-5) rz)
        (emitted
           (postprocessor
              (stream [LComment "c"; LCommand (command "G0" [("Z", 10%Q)])]))
           self').
Proof.
  apply (drill_cycle_stays_between_depth_and_retract 3
           (postprocessor
              (stream [LComment "c"; LCommand (command "G0" [("Z", 10%Q)])]))
           drill_op
           (command "G83" [("X", 1%Q); ("Y", 1%Q); ("Z", (-5)%Q); ("R", 2%Q);
                           ("Q", 3%Q); ("F", 100%Q)])
           1 1 (-5) 2 100 0 0 10);
    try reflexivity.
  vm_compute. discriminate.
Defined.



(** ** Drill cycles: the peck cycle reaches its depth *)

Lemma peck_loop_more_fuel (fuel : nat) :
  ∀ (k : nat) (self self' : Postprocessor) (obj : option PathObject)
    (z r f q chip next : Q),
    peck_loop fuel self obj z r f q chip next = Ok self' →
    peck_loop (fuel + k) self obj z r f q chip next = Ok self'.
Proof.
  induction fuel as [ | fuel IH];
    intros k self self' obj z r f q chip next H.
  - cbn [peck_loop] in H. cbn [Nat.add].
    destruct (bool_decide (z <= next)%Q) eqn:Hb; [ discriminate | ].
    destruct k; cbn [peck_loop]; rewrite Hb; exact H.
  - cbn [peck_loop] in H. cbn [Nat.add peck_loop].
    destruct (bool_decide (z <= next)%Q); [ | exact H ].
    apply bind_Ok in H as (s1 & E1 & H). rewrite E1. cbn [bind].
    destruct (bool_decide (z <= next - q)%Q); [ | exact H ].
    apply bind_Ok in H as (s2 & E2 & H). rewrite E2. cbn [bind].
    apply bind_Ok in H as (s3 & E3 & H). rewrite E3. cbn [bind].
    apply IH. exact H.
Qed.

Lemma translateDrill_more_fuel (fuel k : nat) (self self' : Postprocessor)
    (cmd : Command) (obj : PathObject) :
  translateDrill fuel self cmd obj = Ok self' →
  translateDrill (fuel + k) self cmd obj = Ok self'.
Proof.
  unfold translateDrill. cbv zeta. intros H.
  apply bind_Ok in H as (x & EX & H). rewrite EX. cbn [bind].
  apply bind_Ok in H as (y & EY & H). rewrite EY. cbn [bind].
  apply bind_Ok in H as (z & EZ & H). rewrite EZ. cbn [bind].
  apply bind_Ok in H as (r & ER & H). rewrite ER. cbn [bind].
  apply bind_Ok in H as (f & EF & H). rewrite EF. cbn [bind].
  destruct (bool_decide (r < z)%Q); [ exact H | ].
  apply bind_Ok in H as (rz & E1 & H). rewrite E1. cbn [bind].
  apply bind_Ok in H as (below & E2 & H). rewrite E2. cbn [bind].
  apply bind_Ok in H as (s1 & E3 & H). rewrite E3. cbn [bind].
  apply bind_Ok in H as (s2 & E4 & H). rewrite E4. cbn [bind].
  apply bind_Ok in H as (s3 & E5 & H). rewrite E5. cbn [bind].
  apply bind_Ok in H as (s4 & E6 & H).
  assert (E6' : (if String.eqb (Name cmd) "G81"
                 then addCommand s3
                        (mkCommand "G1" {[ "Z" := z; "F" := f ]}) None
                 else if String.eqb (Name cmd) "G82"
                 then
                   self ←! addCommand s3
                             (mkCommand "G1" {[ "Z" := z; "F" := f ]}) None;
                   dwell ←! getitem (Parameters cmd) "P";
                   addCommand self (mkCommand "G4" {[ "S" := dwell ]}) None
                 else if String.eqb (Name cmd) "G83"
                 then
                   drillStep ←! getitem (Parameters cmd) "Q";
                   peck_loop (fuel + k) s3 (Some obj) z r f drillStep
                     (drillStep * (1 # 2))%Q (r - drillStep)%Q
                 else Ok s3) = Ok s4).
  { destruct (String.eqb (Name cmd) "G81"); [ exact E6 | ].
    destruct (String.eqb (Name cmd) "G82"); [ exact E6 | ].
    destruct (String.eqb (Name cmd) "G83"); [ | exact E6 ].
    apply bind_Ok in E6 as (q & EQ & E6). rewrite EQ. cbn [bind].
    apply peck_loop_more_fuel. exact E6. }
  rewrite E6'. cbn [bind]. exact H.
Qed.

(** [lastParameter] answers [None] for every parameter or for none. *)
Lemma current_position_defined (g : Gcode) (p p' : string) (v : Q) :
  current_position g p = Some v → ∃ v', current_position g p' = Some v'.
Proof.
  unfold current_position, Gcode_lastParameter.
  destruct (decide (length (lines g) = 0%nat)); [ eauto | ].
  destruct (range_down (start_index g (-1))) as [ | i rest];
    [ discriminate | ].
  intros _.
  destruct (lines g !! i) as [[c | s | s | s] | ]; eauto.
  destruct ((bool_decide ([] = []) || bool_decide (Name c ∈ []))
            && bool_decide (is_Some (Parameters c !! p'))); [ | eauto ].
  destruct (Parameters c !! p'); eauto.
Qed.

(** A cycle that returns had its five parameters, and a position to compare
    with the retract height. *)
Lemma translateDrill_Ok_inputs (fuel : nat) (self self' : Postprocessor)
    (cmd : Command) (obj : PathObject) (z r : Q) :
  Parameters cmd !! "Z" = Some z →
  Parameters cmd !! "R" = Some r →
  (z <= r)%Q →
  translateDrill fuel self cmd obj = Ok self' →
  ∃ x y f pz,
    Parameters cmd !! "X" = Some x
    ∧ Parameters cmd !! "Y" = Some y
    ∧ Parameters cmd !! "F" = Some f
    ∧ current_position (gcode self) "Z" = Some pz.
Proof.
  intros HZ HR Hzr. unfold translateDrill, getitem. cbv zeta.
  rewrite HZ, HR.
  destruct (Parameters cmd !! "X") as [x | ]; [ | discriminate ].
  destruct (Parameters cmd !! "Y") as [y | ]; [ | discriminate ].
  destruct (Parameters cmd !! "F") as [f | ]; [ | discriminate ].
  cbn [bind]. rewrite bool_decide_eq_false_2 by lra.
  unfold current_position.
  destruct (Gcode_lastParameter (gcode self) "Z" [] (-1) (Some 0%Q))
    as [pz | ]; [ eauto 10 | ].
  intros H. exfalso.
  destruct (retract_height self None r); cbn [bind py_lt] in H; discriminate.
Qed.

(** X16.  A peck cycle never stops short of the depth of its hole: whenever a
    cycle G83 with Q > 0 and a first peck depth R - Q that is not below Z
    is translated, the last feed move among the lines it has added goes to
    the depth Z. *)
Theorem peck_cycle_reaches_target_depth (fuel : nat)
    (self self' : Postprocessor) (obj : PathObject) (cmd : Command)
    (z r q : Q) :
  Name cmd = "G83" →
  Parameters cmd !! "Z" = Some z →
  Parameters cmd !! "R" = Some r →
  Parameters cmd !! "Q" = Some q →
  (0 < q)%Q →
  (z <= r - q)%Q →
  translateDrill fuel self cmd obj = Ok self' →
  ∃ d, last_feed_depth (emitted self self') = Some d ∧ (d == z)%Q.
Proof.
  intros Hn HZ HR HQ Hq Hz H.
  assert (Hzr : (z <= r)%Q) by lra.
  destruct (translateDrill_Ok_inputs fuel self self' cmd obj z r HZ HR Hzr H)
    as (x & y & f & pz & HX & HY & HF & HpZ).
  destruct (current_position_defined (gcode self) "Z" "X" pz HpZ)
    as [px HpX].
  destruct (current_position_defined (gcode self) "Z" "Y" pz HpZ)
    as [py HpY].
  destruct (peck_cycle_last_feed_depth (fuel + peck_turns z r q) self obj cmd
              x y z r f q px py pz Hn HX HY HZ HR HF HQ Hq Hzr
              ltac:(lia) HpX HpY HpZ)
    as (s & E & Hfeed).
  rewrite (translateDrill_more_fuel fuel (peck_turns z r q) self self' cmd
             obj H) in E.
  injection E as <-.
  rewrite bool_decide_eq_false_2 in Hfeed by lra.
  exact Hfeed.
Qed.

Lemma peck_cycle_reaches_target_depth_witness :
  ∃ d,
    last_feed_depth
      (emitted
         (postprocessor
            (stream [LComment "c"; LCommand (command "G0" [("Z", 0%Q)])]))
         pecked_hole)
    = Some d
    ∧ (d == -5)%Q.
Proof.
  apply (peck_cycle_reaches_target_depth 2
           (postprocessor
              (stream [LComment "c"; LCommand (command "G0" [("Z", 0%Q)])]))
           pecked_hole bare_op
           (command "G83" [("X", 1%Q); ("Y", 1%Q); ("Z", (-5)%Q); ("R", 0%Q);
                           ("Q", 2%Q); ("F", 100%Q)])
           (-5) 0 2);
    try reflexivity; vm_compute; reflexivity || discriminate.
Defined.

(** ** The stream only grows: paths and groups *)

Lemma PathTree_nested_ind (P : PathTree → Prop) :
  (∀ label items, Forall P items → P (TGroup label items)) →
  (∀ label obj, P (TPath label obj)) →
  (∀ label, P (TOther label)) →
  ∀ t, P t.
Proof.
  intros HG HP HO. fix IH 1. intros [label items | label obj | label].
  - apply HG. revert items. fix IHl 1. intros [ | t ts].
    + constructor.
    + constructor; [ apply IH | apply IHl ].
  - apply HP.
  - apply HO.
Qed.

Lemma parseCommand_grows
    (splitlines : string → list string) (PathCommand_str : Command → string)
    (match_comment : string → option string)
    (fuel : nat) (self self' : Postprocessor)
    (obj : PathObject) (cmd : Command) :
  parseCommand splitlines PathCommand_str match_comment fuel self obj cmd
  = Ok self' →
  grows_by (λ _, True) self self'.
Proof.
  unfold parseCommand. cbv zeta.
  destruct (bool_decide (Name cmd ∈ commands (conf (gcode self)))).
  - intros H. apply bind_Ok in H as (s1 & E1 & H).
    apply addCommand_grows with (P := λ _, True) in E1; [ | exact I ].
    destruct (bool_decide (Name cmd ∈ ["M3"; "M03"; "M4"; "M04"])).
    { destruct (bool_decide (0 < spindle_wait (conf (gcode self)))%Z);
        apply addCommand_grows with (P := λ _, True) in H; try exact I;
        eauto using grows_by_trans. }
    destruct (bool_decide (Name cmd ∈ ["M6"; "M06"])
              && tool_change_on (tool_change (conf (gcode self))));
      [ | injection H as <-; exact E1 ].
    apply bind_Ok in H as (s2 & E2 & H).
    apply emit_grows with (P := λ _, True) in E2; [ | exact I ].
    destruct (tool_change (conf (gcode self))) as [b | text].
    + apply addCommand_grows with (P := λ _, True) in H; [ | exact I ].
      eauto using grows_by_trans.
    + apply emit_all_grows with (P := λ _, True) in H;
        [ | apply Forall_forall; intros; exact I ].
      eauto using grows_by_trans.
  - destruct (bool_decide (Name cmd ∈ ["G98"; "G99"])
              && translate_drill_cycles (conf (gcode self))).
    { intros H. injection H as <-. split; [ reflexivity | ].
      split; [ reflexivity | ]. exists [].
      split; [ simpl; rewrite app_nil_r; reflexivity | constructor ]. }
    destruct (bool_decide (Name cmd ∈ ["G81"; "G82"; "G83"])
              && translate_drill_cycles (conf (gcode self))).
    { apply (translateDrill_grows (λ _, True) (λ _, True)); auto. }
    destruct (String.eqb (Name cmd) "message").
    { apply emit_grows. exact I. }
    destruct (if comments (conf (gcode self))
              then match_comment (Name cmd) else None) as [text | ].
    + apply emit_grows. exact I.
    + intros H. injection H as <-. apply grows_by_print.
Qed.

Lemma parseCommands_grows
    (splitlines : string → list string) (PathCommand_str : Command → string)
    (match_comment : string → option string)
    (fuel : nat) (obj : PathObject)
    (cmds : list Command) :
  ∀ self self',
    parseCommands splitlines PathCommand_str match_comment fuel self obj cmds
    = Ok self' →
    grows_by (λ _, True) self self'.
Proof.
  induction cmds as [ | cmd cmds IH]; intros self self' H.
  - injection H as <-. apply grows_by_refl.
  - simpl in H. apply bind_Ok in H as (s1 & E1 & H).
    apply parseCommand_grows in E1. apply IH in H.
    eauto using grows_by_trans.
Qed.

Lemma parseItems_grows
    (parse : Postprocessor → PathTree → result Postprocessor)
    (items : list PathTree) :
  Forall (λ t, ∀ self self', parse self t = Ok self' →
                             grows_by (λ _, True) self self') items →
  ∀ self self',
    parseItems parse self items = Ok self' →
    grows_by (λ _, True) self self'.
Proof.
  induction 1 as [ | t ts Ht _ IH]; intros self self' H.
  - injection H as <-. apply grows_by_refl.
  - simpl in H. apply bind_Ok in H as (s1 & E1 & H).
    apply emit_grows with (P := λ _, True) in E1; [ | exact I ].
    apply bind_Ok in H as (s2 & E2 & H).
    apply Ht in E2. apply IH in H. eauto using grows_by_trans.
Qed.

Lemma parseTree_grows
    (splitlines : string → list string) (PathCommand_str : Command → string)
    (match_comment : string → option string)
    (fuel : nat) (t : PathTree) :
  ∀ self self',
    parseTree splitlines PathCommand_str match_comment fuel self t = Ok self' →
    grows_by (λ _, True) self self'.
Proof.
  induction t as [label items IH | label obj | label]
    using PathTree_nested_ind; intros self self' H.
  - simpl in H. apply bind_Ok in H as (s1 & E1 & H).
    apply emit_grows with (P := λ _, True) in E1; [ | exact I ].
    apply (parseItems_grows _ items IH) in H.
    eauto using grows_by_trans.
  - simpl in H. unfold parseObject in H. apply parseCommands_grows in H.
    eapply grows_by_trans; [ apply grows_by_print | exact H ].
  - injection H as <-. apply grows_by_refl.
Qed.

(** X17.  [parseObject] only ever adds lines at the end of the stream: when
    it returns, for a path or for a group of any depth, the stream it was
    given is a prefix of the stream it leaves, and the job and the
    configuration are unchanged. *)
Theorem parseObject_only_appends
    (splitlines : string → list string) (PathCommand_str : Command → string)
    (match_comment : string → option string)
    (fuel : nat) (self self' : Postprocessor)
    (t : PathTree) :
  parseTree splitlines PathCommand_str match_comment fuel self t = Ok self' →
  lines (gcode self) `prefix_of` lines (gcode self')
  ∧ conf (gcode self') = conf (gcode self)
  ∧ job self' = job self.
Proof.
  intros H. apply parseTree_grows in H as (Hj & Hc & new & Hl & _).
  split; [ exists new; exact Hl | ]. split; assumption.
Qed.

(** ** Paths without drill cycles are always parsed *)

Lemma parseCommand_total
    (splitlines : string → list string) (PathCommand_str : Command → string)
    (match_comment : string → option string)
    (fuel : nat) (self : Postprocessor)
    (obj : PathObject) (cmd : Command) :
  bool_decide (Name cmd ∈ ["G81"; "G82"; "G83"]) = false →
  ∃ self',
    parseCommand splitlines PathCommand_str match_comment fuel self obj cmd
    = Ok self'.
Proof.
  intros Hn. unfold parseCommand. cbv zeta. rewrite Hn.
  destruct (bool_decide (Name cmd ∈ commands (conf (gcode self)))).
  - rewrite addCommand_eq. cbn [bind].
    destruct (bool_decide (Name cmd ∈ ["M3"; "M03"; "M4"; "M04"])).
    { destruct (bool_decide (0 < spindle_wait (conf (gcode self)))%Z);
        rewrite addCommand_eq; eauto. }
    destruct (bool_decide (Name cmd ∈ ["M6"; "M06"])
              && tool_change_on (tool_change (conf (gcode self))));
      [ | eauto ].
    match goal with
    | |- ∃ _, bind (emit ?s ?l) _ = _ =>
        destruct (emit_total s l) as (s2 & -> & _)
    end.
    cbn [bind].
    destruct (tool_change (conf (gcode self))) as [b | text].
    + rewrite addCommand_eq. eauto.
    + destruct (emit_all_total (splitlines text) s2) as (s3 & -> & _). eauto.
  - destruct (bool_decide (Name cmd ∈ ["G98"; "G99"])
              && translate_drill_cycles (conf (gcode self))); [ eauto | ].
    cbn [andb].
    destruct (String.eqb (Name cmd) "message").
    { destruct (emit_total self
                  (LComment ("message: " +:+ PathCommand_str cmd)))
        as (s1 & -> & _). eauto. }
    destruct (if comments (conf (gcode self))
              then match_comment (Name cmd) else None) as [text | ];
      [ | eauto ].
    destruct (emit_total self (LComment text)) as (s1 & -> & _). eauto.
Qed.

Lemma parseCommands_total
    (splitlines : string → list string) (PathCommand_str : Command → string)
    (match_comment : string → option string)
    (fuel : nat) (obj : PathObject)
    (cmds : list Command) :
  Forall (λ c, bool_decide (Name c ∈ ["G81"; "G82"; "G83"]) = false) cmds →
  ∀ self,
    ∃ self',
      parseCommands splitlines PathCommand_str match_comment fuel self obj cmds
      = Ok self'.
Proof.
  induction 1 as [ | cmd cmds Hc _ IH]; intros self; simpl; [ eauto | ].
  destruct (parseCommand_total splitlines PathCommand_str match_comment fuel
              self obj cmd Hc) as (s1 & ->).
  cbn [bind]. apply IH.
Qed.

Lemma parseItems_total
    (parse : Postprocessor → PathTree → result Postprocessor)
    (items : list PathTree) :
  Forall (λ t, ∀ self, ∃ self', parse self t = Ok self') items →
  ∀ self, ∃ self', parseItems parse self items = Ok self'.
Proof.
  induction 1 as [ | t ts Ht _ IH]; intros self; simpl; [ eauto | ].
  match goal with
  | |- ∃ _, bind (emit ?s ?l) _ = _ =>
      destruct (emit_total s l) as (s1 & -> & _)
  end.
  cbn [bind]. destruct (Ht s1) as (s2 & ->). cbn [bind]. apply IH.
Qed.

Lemma parseTree_total
    (splitlines : string → list string) (PathCommand_str : Command → string)
    (match_comment : string → option string)
    (fuel : nat)
    (self : Postprocessor) (t : PathTree) :
  Forall (λ c, bool_decide (Name c ∈ ["G81"; "G82"; "G83"]) = false)
    (tree_commands t) →
  ∃ self',
    parseTree splitlines PathCommand_str match_comment fuel self t = Ok self'.
Proof.
  revert self.
  induction t as [label items IH | label obj | label]
    using PathTree_nested_ind; intros self Hc.
  - simpl.
    match goal with
    | |- ∃ _, bind (emit ?s ?l) _ = _ =>
        destruct (emit_total s l) as (s1 & -> & _)
    end.
    cbn [bind]. apply parseItems_total.
    simpl in Hc. clear s1 self.
    induction IH as [ | t ts Ht _ IHts]; [ constructor | ].
    simpl in Hc. apply Forall_app in Hc as [Hc1 Hc2].
    constructor; [ | apply IHts, Hc2 ].
    intros s. apply Ht. exact Hc1.
  - simpl. unfold parseObject. apply parseCommands_total. exact Hc.
  - simpl. eauto.
Qed.

(** X18.  Only drill cycles can make [parseObject] fail: a path or a group
    (of any depth) none of whose commands is named G81, G82 or G83 is parsed
    to the end from any state, whatever its commands are, with no exception
    and no fuel. *)
Theorem parseObject_without_drill_cycles_returns
    (splitlines : string → list string) (PathCommand_str : Command → string)
    (match_comment : string → option string)
    (fuel : nat)
    (self : Postprocessor) (t : PathTree) :
  Forall (λ c, bool_decide (Name c ∈ ["G81"; "G82"; "G83"]) = false)
    (tree_commands t) →
  ∃ self',
    parseTree splitlines PathCommand_str match_comment fuel self t = Ok self'.
Proof.
  apply parseTree_total.
Qed.

Lemma parseObject_only_appends_witness :
  lines (gcode (postprocessor (stream [])))
    `prefix_of` lines (gcode grouped_job_parsed)
  ∧ conf (gcode grouped_job_parsed) = conf (gcode (postprocessor (stream [])))
  ∧ job grouped_job_parsed = job (postprocessor (stream [])).
Proof.
  apply (parseObject_only_appends splitlines_single Name match_parentheses 0
           (postprocessor (stream [])) grouped_job_parsed grouped_job).
  vm_compute. reflexivity.
Defined.

Lemma parseObject_without_drill_cycles_returns_witness :
  ∃ self',
    parseTree splitlines_single Name match_parentheses 0
      (postprocessor (stream [])) grouped_job
    = Ok self'.
Proof.
  apply (parseObject_without_drill_cycles_returns splitlines_single Name
           match_parentheses 0 (postprocessor (stream [])) grouped_job).
  repeat constructor.
Defined.

(** ** The modal retract mode *)

(** X19.  A G98 or G99 command of a path (not in the list of allowed commands,
    drill translation on) adds nothing to the stream and prints nothing; it
    stores its name as the retract mode, and from then on the retract height
    of a cycle is the current Z when the name is G98 and the current Z is
    above R, and R otherwise. *)
Theorem retract_mode_command_sets_the_mode
    (splitlines : string → list string) (PathCommand_str : Command → string)
    (match_comment : string → option string) (fuel : nat)
    (self : Postprocessor) (obj : PathObject) (cmd : Command) :
  bool_decide (Name cmd ∈ ["G98"; "G99"]) = true →
  bool_decide (Name cmd ∈ commands (conf (gcode self))) = false →
  translate_drill_cycles (conf (gcode self)) = true →
  ∃ self',
    parseCommand splitlines PathCommand_str match_comment fuel self obj cmd
    = Ok self'
    ∧ lines (gcode self') = lines (gcode self)
    ∧ console self' = console self
    ∧ ∀ pz r,
        retract_height self' (Some pz) r
        = Ok (if String.eqb (Name cmd) "G98" && bool_decide (r < pz)%Q
              then pz else r).
Proof.
  intros Hn Hc Ht. unfold parseCommand. cbv zeta. rewrite Hc, Hn, Ht.
  cbn [andb]. eexists. split; [ reflexivity | ].
  split; [ reflexivity | ]. split; [ reflexivity | ].
  intros pz r. apply retract_height_str_mode. reflexivity.
Qed.

Lemma retract_mode_command_sets_the_mode_witness :
  ∃ self',
    parseCommand splitlines_single Name match_parentheses 0
      (postprocessor (stream [LComment "c"])) bare_op (command "G99" [])
    = Ok self'
    ∧ lines (gcode self') = lines (gcode (postprocessor (stream [LComment "c"])))
    ∧ console self' = console (postprocessor (stream [LComment "c"]))
    ∧ ∀ pz r,
        retract_height self' (Some pz) r
        = Ok (if String.eqb (Name (command "G99" [])) "G98"
                 && bool_decide (r < pz)%Q
              then pz else r).
Proof.
  apply (retract_mode_command_sets_the_mode splitlines_single Name
           match_parentheses 0 (postprocessor (stream [LComment "c"]))
           bare_op (command "G99" []));
    reflexivity.
Defined.

(** ** What follows a spindle start and a tool change *)

Lemma rapid_feed_other (self : Postprocessor) (c : Command)
    (obj : option PathObject) :
  bool_decide (Name c ∈ ["G0"; "G00"]) = false →
  rapid_feed self c obj = (c, []).
Proof. intros H. unfold rapid_feed. rewrite H. reflexivity. Qed.

Lemma rapid_feed_no_axis (self : Postprocessor) (name : string)
    (obj : option PathObject) :
  fst (rapid_feed self (mkCommand name ∅) obj) = mkCommand name ∅.
Proof.
  unfold rapid_feed. cbn [Name Parameters].
  destruct (bool_decide (name ∈ ["G0"; "G00"])
            && negb (bool_decide (is_Some ((∅ : gmap string Q) !! "F"))));
    [ | reflexivity ].
  destruct (getRapidSpeeds obj (job self)) as [[[v | ] [h | ]] msgs];
    reflexivity.
Qed.

(** After [addCommand] of a command, the stream ends with a command of that
    name: the one stored, or the equal one that made it a duplicate. *)
Lemma addCommand_last_name (self : Postprocessor) (c : Command)
    (obj : option PathObject) :
  ∃ self' pre p,
    addCommand self c obj = Ok self'
    ∧ lines (gcode self') = pre ++ [LCommand p]
    ∧ Name p = Name c
    ∧ conf (gcode self') = conf (gcode self).
Proof.
  rewrite addCommand_eq.
  destruct (is_duplicate (gcode self) (LCommand c)) eqn:Hd.
  - destruct (is_duplicate_Command _ _ Hd) as (p & Hp & Hn & _).
    apply last_Some in Hp as [pre Hpre].
    eexists _, pre, p. split; [ reflexivity | ]. simpl. auto.
  - eexists _, (lines (gcode self)), (fst (rapid_feed self c obj)).
    split; [ reflexivity | ]. simpl.
    split; [ reflexivity | ]. split; [ apply rapid_feed_Name | reflexivity ].
Qed.

Lemma spindle_name_cases (cmd : Command) :
  bool_decide (Name cmd ∈ ["M3"; "M03"; "M4"; "M04"]) = true →
  Name cmd ≠ "G4".
Proof.
  intros H. apply bool_decide_eq_true in H. apply list_elem_of_In in H.
  simpl in H. intros E. rewrite E in H.
  destruct H as [H | [H | [H | [H | []]]]]; discriminate H.
Qed.

(** X20.  An allowed spindle start (M3, M03, M4, M04) is always followed by a
    dwell: after it is parsed the stream ends with the spindle command (just
    stored, or already there when it was a duplicate) and then [G4], with
    [S] set to the configured wait when that is positive and with no
    parameter otherwise. *)
Theorem spindle_start_is_followed_by_a_dwell
    (splitlines : string → list string) (PathCommand_str : Command → string)
    (match_comment : string → option string) (fuel : nat)
    (self : Postprocessor) (obj : PathObject) (cmd : Command) :
  bool_decide (Name cmd ∈ ["M3"; "M03"; "M4"; "M04"]) = true →
  bool_decide (Name cmd ∈ commands (conf (gcode self))) = true →
  ∃ self' pre p,
    parseCommand splitlines PathCommand_str match_comment fuel self obj cmd
    = Ok self'
    ∧ Name p = Name cmd
    ∧ lines (gcode self')
      = pre ++ [LCommand p;
                LCommand
                  (mkCommand "G4"
                     (if bool_decide (0 < spindle_wait (conf (gcode self)))%Z
                      then {[ "S" := inject_Z (spindle_wait (conf (gcode self))) ]}
                      else ∅))].
Proof.
  intros Hm Hc. unfold parseCommand. cbv zeta. rewrite Hc, Hm.
  destruct (addCommand_last_name self cmd (Some obj))
    as (s1 & pre & p & E1 & L1 & Hp & _).
  rewrite E1. cbn [bind].
  assert (Hnd : ∀ ps, is_duplicate (gcode s1) (LCommand (mkCommand "G4" ps))
                      = false).
  { intros ps. apply not_duplicate_other_name. intros p' Hp'.
    rewrite L1, last_snoc in Hp'. injection Hp' as <-.
    rewrite Hp. apply (spindle_name_cases cmd Hm). }
  exists
    {| gcode :=
         set_lines (gcode s1)
           (lines (gcode s1)
            ++ [LCommand
                  (mkCommand "G4"
                     (if bool_decide (0 < spindle_wait (conf (gcode self)))%Z
                      then {[ "S" := inject_Z (spindle_wait (conf (gcode self))) ]}
                      else ∅))]);
       job := job s1;
       console := console s1 |}, pre, p.
  split.
  - destruct (bool_decide (0 < spindle_wait (conf (gcode self)))%Z);
      rewrite addCommand_eq, Hnd, rapid_feed_other by reflexivity;
      cbn [fst snd]; rewrite app_nil_r; reflexivity.
  - split; [ exact Hp | ]. cbn [gcode set_lines lines].
    rewrite L1, <- app_assoc. reflexivity.
Qed.

Lemma spindle_start_is_followed_by_a_dwell_witness :
  ∃ self' pre p,
    parseCommand splitlines_single Name match_parentheses 0
      (postprocessor (stream [])) bare_op (command "M3" [("S", 9000%Q)])
    = Ok self'
    ∧ Name p = Name (command "M3" [("S", 9000%Q)])
    ∧ lines (gcode self')
      = pre ++ [LCommand p;
                LCommand
                  (mkCommand "G4"
                     (if bool_decide
                           (0 < spindle_wait
                                  (conf (gcode (postprocessor (stream [])))))%Z
                      then {[ "S" := inject_Z
                                       (spindle_wait
                                          (conf (gcode (postprocessor
                                                          (stream []))))) ]}
                      else ∅))].
Proof.
  apply (spindle_start_is_followed_by_a_dwell splitlines_single Name
           match_parentheses 0 (postprocessor (stream [])) bare_op
           (command "M3" [("S", 9000%Q)]));
    reflexivity.
Defined.

Lemma tool_change_name_cases (cmd : Command) :
  bool_decide (Name cmd ∈ ["M6"; "M06"]) = true →
  bool_decide (Name cmd ∈ ["M3"; "M03"; "M4"; "M04"]) = false
  ∧ bool_decide (Name cmd ∈ ["G98"; "G99"]) = false
  ∧ bool_decide (Name cmd ∈ ["G81"; "G82"; "G83"]) = false
  ∧ bool_decide (Name cmd ∈ ["G0"; "G00"]) = false
  ∧ String.eqb (Name cmd) "message" = false.
Proof.
  intros H. apply bool_decide_eq_true in H. apply list_elem_of_In in H.
  simpl in H. destruct H as [<- | [<- | []]]; repeat split; reflexivity.
Qed.

(** X21.  Neither M6 nor M06 is in the shipped list of allowed commands: a
    tool change command of a path is then ignored with a warning, and the
    branch that inserts the TOOL CHANGE comment and the pause is not
    reached. *)
Theorem tool_change_command_is_ignored_unless_allowed
    (splitlines : string → list string) (PathCommand_str : Command → string)
    (match_comment : string → option string) (fuel : nat)
    (self : Postprocessor) (obj : PathObject) (cmd : Command) :
  bool_decide (Name cmd ∈ ["M6"; "M06"]) = true →
  commands (conf (gcode self)) = GCODE_COMMANDS →
  match_comment (Name cmd) = None →
  parseCommand splitlines PathCommand_str match_comment fuel self obj cmd
  = Ok (print self (PrintWarning ("Command ignored: " +:+ Name cmd +:+ LF))).
Proof.
  intros Hn Hc Hm.
  destruct (tool_change_name_cases cmd Hn) as (_ & H98 & H81 & _ & Hmsg).
  unfold parseCommand. cbv zeta. rewrite Hc, H98, H81, Hmsg, Hm.
  assert (Hnot : bool_decide (Name cmd ∈ GCODE_COMMANDS) = false).
  { apply bool_decide_eq_true in Hn. apply list_elem_of_In in Hn.
    simpl in Hn. destruct Hn as [<- | [<- | []]]; reflexivity. }
  rewrite Hnot. cbn [andb].
  destruct (comments (conf (gcode self))); reflexivity.
Qed.

Lemma tool_change_command_is_ignored_unless_allowed_witness :
  parseCommand splitlines_single Name match_parentheses 0
    (postprocessor (stream [])) bare_op (command "M6" [("T", 2%Q)])
  = Ok (print (postprocessor (stream []))
          (PrintWarning ("Command ignored: "
                         +:+ Name (command "M6" [("T", 2%Q)]) +:+ LF))).
Proof.
  apply (tool_change_command_is_ignored_unless_allowed splitlines_single Name
           match_parentheses 0 (postprocessor (stream [])) bare_op
           (command "M6" [("T", 2%Q)]));
    reflexivity.
Defined.

Lemma is_duplicate_comment_after_command (g : Gcode) (pre : list line)
    (p : Command) (s : string) :
  lines g = pre ++ [LCommand p] → is_duplicate g (LComment s) = false.
Proof.
  intros H. unfold is_duplicate. rewrite H, last_snoc. simpl.
  apply andb_false_r.
Qed.

Lemma is_duplicate_command_after_comment (g : Gcode) (pre : list line)
    (s : string) (c : Command) :
  lines g = pre ++ [LComment s] → is_duplicate g (LCommand c) = false.
Proof.
  intros H. apply not_true_is_false. intros Hd.
  destruct (is_duplicate_Command _ _ Hd) as (p & Hp & _).
  rewrite H, last_snoc in Hp. discriminate.
Qed.

(** X22.  When M6 (or M06) is among the allowed commands and the tool change
    option is [True], a tool change command of a path leaves the stream
    ending with the command itself, the comment TOOL CHANGE and the pause
    command, in this order; neither the comment nor the pause is ever
    dropped as a duplicate. *)
Theorem allowed_tool_change_inserts_a_pause
    (splitlines : string → list string) (PathCommand_str : Command → string)
    (match_comment : string → option string) (fuel : nat)
    (self : Postprocessor) (obj : PathObject) (cmd : Command) :
  bool_decide (Name cmd ∈ ["M6"; "M06"]) = true →
  bool_decide (Name cmd ∈ commands (conf (gcode self))) = true →
  tool_change (conf (gcode self)) = TCBool true →
  ∃ self' pre p,
    parseCommand splitlines PathCommand_str match_comment fuel self obj cmd
    = Ok self'
    ∧ Name p = Name cmd
    ∧ lines (gcode self')
      = pre ++ [LCommand p; LComment "TOOL CHANGE";
                LCommand (mkCommand (pause (conf (gcode self))) ∅)].
Proof.
  intros Hn Hc Ht.
  destruct (tool_change_name_cases cmd Hn) as (HM3 & _).
  unfold parseCommand. cbv zeta. rewrite Hc, HM3, Hn, Ht. cbn [andb tool_change_on].
  destruct (addCommand_last_name self cmd (Some obj))
    as (s1 & pre & p & E1 & L1 & Hp & C1).
  rewrite E1. cbn [bind].
  unfold emit. rewrite Gcode_append_eq.
  rewrite (is_duplicate_comment_after_command (gcode s1) pre p _ L1).
  cbn [bind]. rewrite addCommand_eq.
  rewrite (is_duplicate_command_after_comment _ (pre ++ [LCommand p])
             "TOOL CHANGE");
    [ | cbn [gcode set_gcode set_lines lines]; rewrite L1; reflexivity ].
  eexists _, pre, p. split; [ reflexivity | ]. split; [ exact Hp | ].
  cbn [gcode set_gcode set_lines lines]. rewrite rapid_feed_no_axis.
  rewrite L1, <- !app_assoc. reflexivity.
Qed.

Lemma allowed_tool_change_inserts_a_pause_witness :
  ∃ self' pre p,
    parseCommand splitlines_single Name match_parentheses 0
      (postprocessor
         (mkGcode []
            (mkConfiguration true true GCODE_COMMENT_SYMBOLS false 1 1 true
               PRECISION "M76" "mm" "" true (TCBool true) 0 GCODE_SPACER
               ("M6" :: GCODE_COMMANDS) None None true)
            (LCommand (mkCommand DRILL_RETRACT_MODE ∅))))
      bare_op (command "M6" [("T", 2%Q)])
    = Ok self'
    ∧ Name p = Name (command "M6" [("T", 2%Q)])
    ∧ lines (gcode self')
      = pre ++ [LCommand p; LComment "TOOL CHANGE";
                LCommand
                  (mkCommand
                     (pause
                        (conf
                           (gcode
                              (postprocessor
                                 (mkGcode []
                                    (mkConfiguration true true
                                       GCODE_COMMENT_SYMBOLS false 1 1 true
                                       PRECISION "M76" "mm" "" true
                                       (TCBool true) 0 GCODE_SPACER
                                       ("M6" :: GCODE_COMMANDS) None None true)
                                    (LCommand
                                       (mkCommand DRILL_RETRACT_MODE ∅)))))))
                     ∅)].
Proof.
  apply (allowed_tool_change_inserts_a_pause splitlines_single Name
           match_parentheses 0
           (postprocessor
              (mkGcode []
                 (mkConfiguration true true GCODE_COMMENT_SYMBOLS false 1 1
                    true PRECISION "M76" "mm" "" true (TCBool true) 0
                    GCODE_SPACER ("M6" :: GCODE_COMMANDS) None None true)
                 (LCommand (mkCommand DRILL_RETRACT_MODE ∅))))
           bare_op (command "M6" [("T", 2%Q)]));
    reflexivity.
Defined.

(** ** Backward lookups read the last line *)

Lemma start_index_last (g : Gcode) (k : nat) :
  length (lines g) = S (S k) → start_index g (-1) = S k.
Proof.
  intros H. unfold start_index. rewrite H.
  rewrite <- (Z.mod_unique (-1) (Z.of_nat (S (S k))) (-1) (Z.of_nat (S k)));
    lia.
Qed.

(** X23.  On a stream of two lines or more, [lastParameter] and [lastCommand]
    (called from the end, as everywhere in the module) depend on the last
    line alone: two streams that end with the same line give the same
    answers, whatever their earlier lines, the names and the defaults. *)
Theorem backward_lookups_read_the_last_line_only (g g' : Gcode)
    (param : string) (names : list string) (default : option Q)
    (default_command : option Command) :
  (2 ≤ length (lines g))%nat →
  (2 ≤ length (lines g'))%nat →
  last (lines g) = last (lines g') →
  Gcode_lastParameter g param names (-1) default
  = Gcode_lastParameter g' param names (-1) default
  ∧ Gcode_lastCommand g names (-1) default_command
    = Gcode_lastCommand g' names (-1) default_command.
Proof.
  intros H1 H2 Hl.
  destruct (length (lines g)) as [ | [ | k]] eqn:E1; try lia.
  destruct (length (lines g')) as [ | [ | k']] eqn:E2; try lia.
  rewrite !last_lookup, E1, E2 in Hl. cbn [pred] in Hl.
  unfold Gcode_lastParameter, Gcode_lastCommand.
  rewrite (start_index_last g k E1), (start_index_last g' k' E2), E1, E2.
  cbn [range_down].
  destruct (decide (S (S k) = 0%nat)) as [? | _]; [ lia | ].
  destruct (decide (S (S k') = 0%nat)) as [? | _]; [ lia | ].
  rewrite Hl. split; reflexivity.
Qed.

Lemma backward_lookups_read_the_last_line_only_witness :
  Gcode_lastParameter
    (stream [LCommand (command "G0" [("X", 7%Q)]); LComment "a";
             LCommand (command "G1" [("Z", 3%Q)])])
    "Z" [] (-1) (Some 0%Q)
  = Gcode_lastParameter
      (stream [LComment "b"; LCommand (command "G1" [("Z", 3%Q)])])
      "Z" [] (-1) (Some 0%Q)
  ∧ Gcode_lastCommand
      (stream [LCommand (command "G0" [("X", 7%Q)]); LComment "a";
               LCommand (command "G1" [("Z", 3%Q)])])
      [] (-1) None
    = Gcode_lastCommand
        (stream [LComment "b"; LCommand (command "G1" [("Z", 3%Q)])])
        [] (-1) None.
Proof.
  apply (backward_lookups_read_the_last_line_only
           (stream [LCommand (command "G0" [("X", 7%Q)]); LComment "a";
                    LCommand (command "G1" [("Z", 3%Q)])])
           (stream [LComment "b"; LCommand (command "G1" [("Z", 3%Q)])])
           "Z" [] (Some 0%Q) None);
    [ simpl; lia | simpl; lia | reflexivity ].
Defined.

(** ** The export: the commands of the configuration *)

(** After a comment has been appended the stream does not end with a
    command: it ends with the comment, or with the line of the same text
    that made it a duplicate. *)
Lemma emit_comment_last (self : Postprocessor) (s : string) :
  ∃ self' pre l,
    emit self (LComment s) = Ok self'
    ∧ lines (gcode self') = pre ++ [l]
    ∧ (∀ c, l ≠ LCommand c)
    ∧ conf (gcode self') = conf (gcode self)
    ∧ job self' = job self.
Proof.
  unfold emit. rewrite Gcode_append_eq. cbn [bind].
  destruct (is_duplicate (gcode self) (LComment s)) eqn:Hd.
  - unfold is_duplicate in Hd. apply andb_true_iff in Hd as [_ Hd].
    destruct (last (lines (gcode self))) as [l | ] eqn:Hl; [ | discriminate ].
    apply last_Some in Hl as [pre Hpre].
    eexists _, pre, l. split; [ reflexivity | ]. simpl.
    split; [ exact Hpre | ]. split; [ | auto ].
    intros c ->. simpl in Hd. discriminate.
  - eexists _, (lines (gcode self)), (LComment s).
    split; [ reflexivity | ]. simpl. split; [ reflexivity | ].
    split; [ discriminate | auto ].
Qed.

Lemma not_duplicate_after_other (g : Gcode) (pre : list line) (l : line)
    (c : Command) :
  lines g = pre ++ [l] →
  (∀ p, l = LCommand p → Name p ≠ Name c) →
  is_duplicate g (LCommand c) = false.
Proof.
  intros Hl Hne. apply not_duplicate_other_name. intros p Hp.
  rewrite Hl, last_snoc in Hp. injection Hp as ->. apply Hne. reflexivity.
Qed.

(** A command without parameters, added after a line that is not a command
    of its name, is stored as it is. *)
Lemma addCommand_bare (self : Postprocessor) (pre : list line) (l : line)
    (name : string) :
  lines (gcode self) = pre ++ [l] →
  (∀ p, l = LCommand p → Name p ≠ name) →
  ∃ self',
    addCommand self (mkCommand name ∅) None = Ok self'
    ∧ lines (gcode self') = pre ++ [l; LCommand (mkCommand name ∅)]
    ∧ conf (gcode self') = conf (gcode self)
    ∧ job self' = job self.
Proof.
  intros Hl Hne. rewrite addCommand_eq.
  rewrite (not_duplicate_after_other (gcode self) pre l (mkCommand name ∅) Hl Hne).
  rewrite rapid_feed_no_axis.
  eexists. split; [ reflexivity | ]. simpl. rewrite Hl, <- app_assoc.
  auto.
Qed.

Lemma dict_getitem_units (k u : string) :
  dict_getitem GCODE_UNITS k = Ok u → u = "G21" ∨ u = "G20".
Proof.
  unfold dict_getitem, GCODE_UNITS. simpl.
  destruct (decide ("mm" = k)); simpl; [ intros H; injection H; auto | ].
  destruct (decide ("in" = k)); simpl; [ intros H; injection H; auto | ].
  discriminate.
Qed.

Lemma dict_getitem_total (d : list (string * string)) (k : string) :
  (∃ v, dict_getitem d k = Ok v) ∨ dict_getitem d k = Raise KeyError.
Proof.
  unfold dict_getitem.
  destruct (list_find (λ e, fst e = k) d) as [[i e] | ]; eauto.
Qed.

(** The search for the job leaves the stream as it is, and the job it finds
    does not depend on what has been printed. *)
Lemma find_parent_job_gcode (objects : list JobObject) :
  ∀ self, gcode (find_parent_job self objects) = gcode self.
Proof.
  induction objects as [ | obj rest IH]; intros self; [ reflexivity | ].
  cbn [find_parent_job]. destruct (fst (getJob obj)); [ reflexivity | ].
  rewrite IH. reflexivity.
Qed.

Lemma find_parent_job_job (objects : list JobObject) :
  ∀ self self',
    job self = job self' →
    job (find_parent_job self objects) = job (find_parent_job self' objects).
Proof.
  induction objects as [ | obj rest IH]; intros self self' Hj; [ exact Hj | ].
  cbn [find_parent_job]. destruct (fst (getJob obj)); [ reflexivity | ].
  apply IH. exact Hj.
Qed.

Lemma find_parent_job_print (objects : list JobObject)
    (self : Postprocessor) (m : logmsg) :
  job (find_parent_job (print self m) objects)
  = job (find_parent_job self objects).
Proof. apply find_parent_job_job. reflexivity. Qed.

Lemma export_job_gcode (GuiUp : bool) (selected_jobs : list RapidSpeeds)
    (self : Postprocessor) (objects : list JobObject) :
  gcode (export_job GuiUp selected_jobs self objects) = gcode self.
Proof.
  unfold export_job. cbv zeta.
  destruct (job (find_parent_job self objects)) eqn:Hj.
  - rewrite Hj. apply find_parent_job_gcode.
  - cbn [job print_all set_job].
    destruct (fst (getSelectedJob GuiUp selected_jobs));
      cbn [gcode print print_all set_job]; apply find_parent_job_gcode.
Qed.

Lemma export_job_job (GuiUp : bool) (selected_jobs : list RapidSpeeds)
    (self : Postprocessor) (objects : list JobObject) :
  job (export_job GuiUp selected_jobs self objects)
  = match job (find_parent_job self objects) with
    | Some j => Some j
    | None => fst (getSelectedJob GuiUp selected_jobs)
    end.
Proof.
  unfold export_job. cbv zeta.
  destruct (job (find_parent_job self objects)) eqn:Hj.
  - rewrite Hj. exact Hj.
  - cbn [job print_all set_job].
    destruct (fst (getSelectedJob GuiUp selected_jobs)); reflexivity.
Qed.

Lemma export_job_print (GuiUp : bool) (selected_jobs : list RapidSpeeds)
    (self : Postprocessor) (objects : list JobObject) (m : logmsg) :
  job (export_job GuiUp selected_jobs (print self m) objects)
  = job (export_job GuiUp selected_jobs self objects).
Proof. rewrite !export_job_job, find_parent_job_print. reflexivity. Qed.

Lemma emit_total_job (self : Postprocessor) (l : line) :
  ∃ self', emit self l = Ok self'
           ∧ conf (gcode self') = conf (gcode self)
           ∧ job self' = job self.
Proof.
  destruct (emit_total self l) as (s & E & C & _).
  exists s. split; [ exact E | ]. split; [ exact C | ].
  destruct (emit_grows (λ _, True) self s l I E) as (J & _). exact J.
Qed.

(** What comes before the commands of the configuration returns, unless the
    thumbnail is asked for with the GUI up and no job has been found. *)
Lemma export_start_reaches_configuration
    (splitlines : string → list string) (opts : ExportOptions)
    (module_name now : string) (GuiUp : bool)
    (selected_jobs : list RapidSpeeds) (image : string)
    (self : Postprocessor) (objects : list JobObject) :
  match job (export_job GuiUp selected_jobs self objects),
        thumbnail opts && GuiUp with
  | None, true =>
      export_start splitlines opts module_name now GuiUp selected_jobs image
        self objects = Raise AttributeError
  | _, _ =>
      ∃ s pre l,
        lines (gcode s) = pre ++ [l]
        ∧ (∀ c, l ≠ LCommand c)
        ∧ conf (gcode s) = conf (gcode self)
        ∧ export_start splitlines opts module_name now GuiUp selected_jobs
            image self objects
          = (s1 ←! addCommand s (mkCommand GCODE_MOTION_MODE ∅) None;
             unit_command ←!
               dict_getitem GCODE_UNITS (units (conf (gcode s1)));
             s2 ←! addCommand s1 (mkCommand unit_command ∅) None;
             addCommand s2 (mkCommand GCODE_WORK_PLANE ∅) None)
  end.
Proof.
  unfold export_start. cbv zeta.
  match goal with
  | |- context [emit ?s (LHeader "Header Start")] => set (s0 := s)
  end.
  assert (C0 : conf (gcode s0) = conf (gcode self))
    by (unfold s0; rewrite export_job_gcode; reflexivity).
  assert (J0 : job s0 = job (export_job GuiUp selected_jobs self objects))
    by (unfold s0; apply export_job_print).
  clearbody s0. rewrite <- J0. clear J0.
  destruct (emit_total_job s0 (LHeader "Header Start"))
    as (s1 & -> & C1 & J1).
  cbn [bind].
  destruct (emit_total_job s1 (LHeader "Exported by FreeCAD"))
    as (s2 & -> & C2 & J2).
  cbn [bind].
  destruct (emit_total_job s2 (LHeader ("Postprocessor: " +:+ module_name)))
    as (s3 & -> & C3 & J3).
  cbn [bind].
  destruct (emit_total_job s3 (LHeader ("Output Time: " +:+ now)))
    as (s4 & -> & C4 & J4).
  cbn [bind].
  assert (J : job s4 = job s0) by congruence.
  assert (H5 : match job s0, thumbnail opts && GuiUp with
               | None, true =>
                   (if thumbnail opts
                    then
                      thumbnail_text ←! getThumbnail GuiUp image (job s4);
                      if negb (String.eqb thumbnail_text "")
                      then emit s4 (LHeader thumbnail_text)
                      else Ok s4
                    else Ok s4) = Raise AttributeError
               | _, _ =>
                   ∃ s5,
                     (if thumbnail opts
                      then
                        thumbnail_text ←! getThumbnail GuiUp image (job s4);
                        if negb (String.eqb thumbnail_text "")
                        then emit s4 (LHeader thumbnail_text)
                        else Ok s4
                      else Ok s4) = Ok s5
                     ∧ conf (gcode s5) = conf (gcode s4)
               end).
  { rewrite J. unfold getThumbnail.
    destruct (job s0), (thumbnail opts), GuiUp; cbn [andb bind];
      try reflexivity; try solve [ eauto ].
    match goal with
    | |- ∃ _, (if ?b then _ else _) = _ ∧ _ => destruct b; [ | eauto ]
    end.
    match goal with
    | |- ∃ _, emit ?s ?l = _ ∧ _ =>
        destruct (emit_total s l) as (s5 & -> & C5 & _)
    end.
    eauto. }
  destruct (job s0), (thumbnail opts && GuiUp);
    try (rewrite H5; reflexivity);
    destruct H5 as (s5 & -> & C5); cbn [bind];
    destruct (emit_total s5 (LHeader "Header End")) as (s6 & -> & C6 & _);
    cbn [bind];
    destruct (emit_total s6 (LComment "PREAMBLE")) as (s7 & -> & C7 & _);
    cbn [bind];
    destruct (emit_all_total (splitlines (preamble opts)) s7)
      as (s8 & -> & C8 & _);
    cbn [bind];
    destruct (emit_comment_last s8 "CONFIGURATION")
      as (s9 & pre & l & -> & L9 & N9 & C9 & _);
    cbn [bind];
    (exists s9, pre, l; split; [ exact L9 | ]; split; [ exact N9 | ];
     split; [ congruence | reflexivity ]).
Qed.

(** From the commands of the configuration on. *)
Lemma export_configuration_cases (s self : Postprocessor)
    (pre : list line) (l : line) :
  lines (gcode s) = pre ++ [l] →
  (∀ c, l ≠ LCommand c) →
  conf (gcode s) = conf (gcode self) →
  match dict_getitem GCODE_UNITS (units (conf (gcode self))) with
  | Ok unit_command =>
      ∃ self' pre',
        (s1 ←! addCommand s (mkCommand GCODE_MOTION_MODE ∅) None;
         unit_command ←! dict_getitem GCODE_UNITS (units (conf (gcode s1)));
         s2 ←! addCommand s1 (mkCommand unit_command ∅) None;
         addCommand s2 (mkCommand GCODE_WORK_PLANE ∅) None) = Ok self'
        ∧ conf (gcode self') = conf (gcode self)
        ∧ (unit_command = "G21" ∨ unit_command = "G20")
        ∧ lines (gcode self')
          = pre' ++ [LCommand (mkCommand "G90" ∅);
                     LCommand (mkCommand unit_command ∅);
                     LCommand (mkCommand "G17" ∅)]
  | _ =>
      (s1 ←! addCommand s (mkCommand GCODE_MOTION_MODE ∅) None;
       unit_command ←! dict_getitem GCODE_UNITS (units (conf (gcode s1)));
       s2 ←! addCommand s1 (mkCommand unit_command ∅) None;
       addCommand s2 (mkCommand GCODE_WORK_PLANE ∅) None) = Raise KeyError
  end.
Proof.
  intros Ls Ns Cs.
  destruct (addCommand_bare s pre l GCODE_MOTION_MODE Ls)
    as (s1 & -> & L1 & C1 & _).
  { intros p ->. exfalso. exact (Ns p eq_refl). }
  cbn [bind]. rewrite C1, Cs.
  destruct (dict_getitem_total GCODE_UNITS (units (conf (gcode self))))
    as [[u Hu] | Hu]; rewrite Hu; [ | reflexivity ].
  cbn [bind].
  pose proof (dict_getitem_units _ _ Hu) as Hcases.
  destruct (addCommand_bare s1 (pre ++ [l]) (LCommand (mkCommand "G90" ∅)) u)
    as (s2 & -> & L2 & C2 & _).
  { rewrite L1. rewrite <- app_assoc. reflexivity. }
  { intros p Hp. injection Hp as <-. simpl.
    destruct Hcases as [-> | ->]; discriminate. }
  cbn [bind].
  destruct (addCommand_bare s2 (pre ++ [l; LCommand (mkCommand "G90" ∅)])
              (LCommand (mkCommand u ∅)) GCODE_WORK_PLANE)
    as (s3 & -> & L3 & C3 & _).
  { rewrite L2. rewrite <- !app_assoc. reflexivity. }
  { intros p Hp. injection Hp as <-. simpl.
    destruct Hcases as [-> | ->]; discriminate. }
  exists s3, (pre ++ [l]). split; [ reflexivity | ].
  split; [ congruence | ].
  split; [ exact Hcases | ]. rewrite L3, <- !app_assoc. reflexivity.
Qed.

(** The first part of [export] by the job, the thumbnail and the units. *)
Lemma export_start_cases
    (splitlines : string → list string) (opts : ExportOptions)
    (module_name now : string) (GuiUp : bool)
    (selected_jobs : list RapidSpeeds) (image : string)
    (self : Postprocessor) (objects : list JobObject) :
  match job (export_job GuiUp selected_jobs self objects),
        thumbnail opts && GuiUp with
  | None, true =>
      export_start splitlines opts module_name now GuiUp selected_jobs image
        self objects = Raise AttributeError
  | _, _ =>
      match dict_getitem GCODE_UNITS (units (conf (gcode self))) with
      | Ok unit_command =>
          ∃ self' pre,
            export_start splitlines opts module_name now GuiUp selected_jobs
              image self objects = Ok self'
            ∧ conf (gcode self') = conf (gcode self)
            ∧ (unit_command = "G21" ∨ unit_command = "G20")
            ∧ lines (gcode self')
              = pre ++ [LCommand (mkCommand "G90" ∅);
                        LCommand (mkCommand unit_command ∅);
                        LCommand (mkCommand "G17" ∅)]
      | _ =>
          export_start splitlines opts module_name now GuiUp selected_jobs
            image self objects = Raise KeyError
      end
  end.
Proof.
  pose proof (export_start_reaches_configuration splitlines opts module_name
                now GuiUp selected_jobs image self objects) as H.
  destruct (job (export_job GuiUp selected_jobs self objects)),
    (thumbnail opts && GuiUp);
    try exact H;
    destruct H as (s & pre & l & Ls & Ns & Cs & ->);
    exact (export_configuration_cases s self pre l Ls Ns Cs).
Qed.

(** X24.  Unless the thumbnail is asked for with the GUI up and no job has
    been found, in which case [getThumbnail] raises [AttributeError], every
    export selects absolute positioning, the units and the XY plane before
    the first operation: when the units are one of mm and in, the first part
    of [export] returns with a stream that ends with [G90], then [G21] (mm)
    or [G20] (in), then [G17], none of them dropped as a duplicate, whatever
    the stream held before and whatever the preamble is.  With any other
    units it raises [KeyError]. *)
Theorem export_selects_mode_units_and_plane
    (splitlines : string → list string) (opts : ExportOptions)
    (module_name now : string) (GuiUp : bool)
    (selected_jobs : list RapidSpeeds) (image : string)
    (self : Postprocessor) (objects : list JobObject) :
  match job (export_job GuiUp selected_jobs self objects),
        thumbnail opts && GuiUp with
  | None, true =>
      export_start splitlines opts module_name now GuiUp selected_jobs image
        self objects = Raise AttributeError
  | _, _ =>
      match dict_getitem GCODE_UNITS (units (conf (gcode self))) with
      | Ok unit_command =>
          ∃ self' pre,
            export_start splitlines opts module_name now GuiUp selected_jobs
              image self objects = Ok self'
            ∧ (unit_command = "G21" ∨ unit_command = "G20")
            ∧ lines (gcode self')
              = pre ++ [LCommand (mkCommand "G90" ∅);
                        LCommand (mkCommand unit_command ∅);
                        LCommand (mkCommand "G17" ∅)]
      | _ =>
          export_start splitlines opts module_name now GuiUp selected_jobs
            image self objects = Raise KeyError
      end
  end.
Proof.
  pose proof (export_start_cases splitlines opts module_name now GuiUp
                selected_jobs image self objects) as H.
  destruct (job (export_job GuiUp selected_jobs self objects)),
    (thumbnail opts && GuiUp);
    try exact H;
    (destruct (dict_getitem GCODE_UNITS (units (conf (gcode self))));
     [ | exact H | exact H ];
     destruct H as (s & pre & E & _ & U & L); eauto).
Qed.

(** ** The export: pauses and coolant *)

(** A comment and then a command without parameters: the command is always
    stored, right after the comment or, when the comment is dropped as a
    duplicate, right after the line of the same text that was there. *)
Lemma comment_then_command (self : Postprocessor) (s name : string) :
  ∃ s1 s2 new,
    emit self (LComment s) = Ok s1
    ∧ conf (gcode s1) = conf (gcode self)
    ∧ addCommand s1 (mkCommand name ∅) None = Ok s2
    ∧ lines (gcode s2)
      = lines (gcode self) ++ new ++ [LCommand (mkCommand name ∅)]
    ∧ conf (gcode s2) = conf (gcode self)
    ∧ job s2 = job self
    ∧ (new = [LComment s]
       ∨ (new = []
          ∧ ∃ pre l, lines (gcode self) = pre ++ [l]
                     ∧ line_text l = s
                     ∧ ∀ c, l ≠ LCommand c)).
Proof.
  unfold emit. rewrite Gcode_append_eq. cbn [bind].
  destruct (is_duplicate (gcode self) (LComment s)) eqn:Hd.
  - unfold is_duplicate in Hd. apply andb_true_iff in Hd as [_ Hd].
    destruct (last (lines (gcode self))) as [l | ] eqn:Hl; [ | discriminate ].
    apply last_Some in Hl as [pre Hpre].
    assert (Hl : (∀ c, l ≠ LCommand c) ∧ line_text l = s).
    { destruct l as [c | t | t | t]; simpl in Hd; try discriminate;
        (split; [ discriminate | ]); simpl;
        apply String.eqb_eq; exact Hd. }
    destruct Hl as [Hnc Htext].
    destruct (addCommand_bare (set_gcode self (gcode self)) pre l name Hpre)
      as (s2 & E2 & L2 & C2 & J2).
    { intros p ->. exfalso. exact (Hnc p eq_refl). }
    eexists _, s2, []. split; [ reflexivity | ]. split; [ reflexivity | ].
    split; [ exact E2 | ].
    split; [ rewrite L2, Hpre, <- app_assoc; reflexivity | ].
    split; [ exact C2 | ]. split; [ exact J2 | ].
    right. split; [ reflexivity | ]. exists pre, l. auto.
  - destruct (addCommand_bare
                (set_gcode self
                   (set_lines (gcode self)
                      (lines (gcode self) ++ [LComment s])))
                (lines (gcode self)) (LComment s) name eq_refl)
      as (s2 & E2 & L2 & C2 & J2).
    { intros p Hp. discriminate Hp. }
    eexists _, s2, [LComment s].
    split; [ reflexivity | ]. split; [ reflexivity | ].
    split; [ exact E2 | ]. split; [ exact L2 | ].
    split; [ exact C2 | ]. split; [ exact J2 | ]. left. reflexivity.
Qed.

Lemma export_operation_grows
    (splitlines : string → list string) (PathCommand_str : Command → string)
    (match_comment : string → option string) (lower : string → string)
    (opts : ExportOptions) (fuel : nat) (self self' : Postprocessor)
    (obj : JobObject) :
  export_operation splitlines PathCommand_str match_comment lower opts fuel
    self obj = Ok self' →
  grows_by (λ _, True) self self'.
Proof.
  unfold export_operation. cbv zeta. intros H.
  apply bind_Ok in H as (s1 & E1 & H).
  apply emit_grows with (P := λ _, True) in E1; [ | exact I ].
  apply bind_Ok in H as (s2 & E2 & H).
  apply emit_all_grows with (P := λ _, True) in E2;
    [ | apply Forall_forall; intros; exact I ].
  apply bind_Ok in H as (s3 & E3 & H).
  assert (G3 : grows_by (λ _, True) s2 s3).
  { destruct (negb (String.eqb (default "None" (obj_coolant obj)) "None"));
      [ | injection E3 as <-; apply grows_by_refl ].
    apply bind_Ok in E3 as (t1 & T1 & E3).
    apply emit_grows with (P := λ _, True) in T1; [ | exact I ].
    apply bind_Ok in E3 as (c & _ & E3).
    apply addCommand_grows with (P := λ _, True) in E3; [ | exact I ].
    eauto using grows_by_trans. }
  apply bind_Ok in H as (s4 & E4 & H).
  apply parseTree_grows in E4.
  apply bind_Ok in H as (s5 & E5 & H).
  apply emit_grows with (P := λ _, True) in E5; [ | exact I ].
  apply bind_Ok in H as (s6 & E6 & H).
  apply emit_all_grows with (P := λ _, True) in E6;
    [ | apply Forall_forall; intros; exact I ].
  assert (G7 : grows_by (λ _, True) s6 self').
  { destruct (negb (String.eqb (default "None" (obj_coolant obj)) "None"));
      [ | injection H as <-; apply grows_by_refl ].
    apply bind_Ok in H as (t1 & T1 & H).
    apply emit_grows with (P := λ _, True) in T1; [ | exact I ].
    apply bind_Ok in H as (c & _ & H).
    apply addCommand_grows with (P := λ _, True) in H; [ | exact I ].
    eauto using grows_by_trans. }
  eauto 10 using grows_by_trans.
Qed.

Lemma grows_by_lines (self self' : Postprocessor) :
  grows_by (λ _, True) self self' →
  ∃ new, lines (gcode self') = lines (gcode self) ++ new.
Proof. intros (_ & _ & new & H & _). exists new. exact H. Qed.

(** X25.  An operation with a coolant mode other than 'None' is exported
    between the command that switches the coolant on and [M9]: when the
    operation is exported, the lines added to the stream hold the command
    that [GCODE_COOLANT] gives for the mode, and end with [M9]; neither
    command is dropped as a duplicate. *)
Theorem coolant_is_switched_on_and_off
    (splitlines : string → list string) (PathCommand_str : Command → string)
    (match_comment : string → option string) (lower : string → string)
    (opts : ExportOptions) (fuel : nat) (self self' : Postprocessor)
    (obj : JobObject) (mode coolant_on : string) :
  obj_coolant obj = Some mode →
  String.eqb mode "None" = false →
  dict_getitem GCODE_COOLANT (lower mode) = Ok coolant_on →
  export_operation splitlines PathCommand_str match_comment lower opts fuel
    self obj = Ok self' →
  ∃ before between,
    lines (gcode self')
    = lines (gcode self) ++ before
      ++ [LCommand (mkCommand coolant_on ∅)] ++ between
      ++ [LCommand (mkCommand "M9" ∅)].
Proof.
  intros Hc Hm Hon H. unfold export_operation in H. cbv zeta in H.
  rewrite Hc in H. cbn [from_option id] in H. rewrite Hm in H. cbn [negb] in H.
  apply bind_Ok in H as (s1 & E1 & H).
  apply emit_grows with (P := λ _, True) in E1; [ | exact I ].
  apply bind_Ok in H as (s2 & E2 & H).
  apply emit_all_grows with (P := λ _, True) in E2;
    [ | apply Forall_forall; intros; exact I ].
  destruct (grows_by_lines self s2 (grows_by_trans _ _ _ _ E1 E2))
    as [n2 L2].
  destruct (comment_then_command s2 ("COOLANT ON: " +:+ mode) coolant_on)
    as (t1 & s3 & n3 & T1 & _ & T3 & L3 & _).
  rewrite T1 in H. cbn [bind] in H. rewrite Hon in H. cbn [bind] in H.
  rewrite T3 in H. cbn [bind] in H.
  apply bind_Ok in H as (s4 & E4 & H). apply parseTree_grows in E4.
  apply bind_Ok in H as (s5 & E5 & H).
  apply emit_grows with (P := λ _, True) in E5; [ | exact I ].
  apply bind_Ok in H as (s6 & E6 & H).
  apply emit_all_grows with (P := λ _, True) in E6;
    [ | apply Forall_forall; intros; exact I ].
  destruct (grows_by_lines s3 s6
              (grows_by_trans _ _ _ _ E4 (grows_by_trans _ _ _ _ E5 E6)))
    as [n6 L6].
  destruct (comment_then_command s6 ("COOLANT OFF: " +:+ mode) "M9")
    as (t2 & s7 & n7 & T2 & _ & T7 & L7 & _).
  rewrite T2 in H. cbn [bind] in H.
  change (dict_getitem GCODE_COOLANT "off") with (Ok (A:=string) "M9") in H.
  cbn [bind] in H. rewrite T7 in H. injection H as <-.
  exists (n2 ++ n3), (n6 ++ n7).
  rewrite L7, L6, L3, L2, <- !app_assoc. reflexivity.
Qed.

(** X26.  A coolant mode other than 'None' whose lower-case form is not a key
    of [GCODE_COOLANT] makes the export of the operation raise [KeyError],
    whatever the operation holds. *)
Theorem unknown_coolant_mode_raises
    (splitlines : string → list string) (PathCommand_str : Command → string)
    (match_comment : string → option string) (lower : string → string)
    (opts : ExportOptions) (fuel : nat) (self : Postprocessor)
    (obj : JobObject) (mode : string) :
  obj_coolant obj = Some mode →
  String.eqb mode "None" = false →
  dict_getitem GCODE_COOLANT (lower mode) = Raise KeyError →
  export_operation splitlines PathCommand_str match_comment lower opts fuel
    self obj = Raise KeyError.
Proof.
  intros Hc Hm Hon. unfold export_operation. cbv zeta.
  rewrite Hc. cbn [from_option id]. rewrite Hm. cbn [negb].
  match goal with
  | |- bind (emit ?s ?l) _ = _ => destruct (emit_total s l) as (s1 & -> & _)
  end.
  cbn [bind].
  destruct (emit_all_total (splitlines (pre_operation opts)) s1)
    as (s2 & -> & _).
  cbn [bind].
  destruct (emit_total s2 (LComment ("COOLANT ON: " +:+ mode)))
    as (s3 & -> & _).
  cbn [bind]. rewrite Hon. reflexivity.
Qed.

(** X27.  When an operation has a tool controller whose name differs from the
    one of the operation before, its export begins with a pause: the lines
    added to the stream are the comment TOOL CHANGE, which names the tool of
    the operation before (or no comment, when the stream already ends with
    a line of this text), then the pause command, which is never dropped as
    a duplicate, then the rest; the loop goes on with the new name. *)
Theorem tool_change_between_operations_pauses
    (splitlines : string → list string) (PathCommand_str : Command → string)
    (match_comment : string → option string) (lower : string → string)
    (opts : ExportOptions) (fuel : nat) (self self' : Postprocessor)
    (obj : JobObject) (previous full_name tool_word : string)
    (tool' : option string) :
  obj_has_Path obj = true →
  obj_inactive obj = false →
  obj_tool obj = Some (full_name, tool_word) →
  String.eqb full_name previous = false →
  export_object splitlines PathCommand_str match_comment lower opts fuel
    (self, Some previous) obj = Ok (self', tool') →
  tool' = Some full_name
  ∧ ∃ comment rest,
      lines (gcode self')
      = lines (gcode self) ++ comment
        ++ [LCommand (mkCommand (pause (conf (gcode self))) ∅)] ++ rest
      ∧ (comment = [LComment ("TOOL CHANGE: " +:+ previous)]
         ∨ (comment = []
            ∧ ∃ pre l, lines (gcode self) = pre ++ [l]
                       ∧ line_text l = "TOOL CHANGE: " +:+ previous
                       ∧ ∀ c, l ≠ LCommand c)).
Proof.
  intros Hp Hi Ht Hne H. unfold export_object in H.
  rewrite Hp, Hi in H. cbn [negb] in H.
  unfold export_tool in H. rewrite Ht, Hne in H. cbn [negb] in H.
  destruct (comment_then_command self ("TOOL CHANGE: " +:+ previous)
              (pause (conf (gcode self))))
    as (s1 & s2 & n2 & E1 & C1 & E2 & L2 & _ & _ & Hn2).
  rewrite E1 in H. cbn [bind] in H. rewrite C1, E2 in H. cbn [bind] in H.
  apply bind_Ok in H as (st & Est & H).
  apply bind_Ok in Est as (s3 & E3 & Est). injection Est as <-.
  assert (G3 : grows_by (λ _, True) s2 s3).
  { destruct (tool_number opts); [ | injection E3 as <-; apply grows_by_refl ].
    eapply emit_grows; [ exact I | exact E3 ]. }
  apply bind_Ok in H as (s4 & E4 & H). cbn [fst snd] in E4, H.
  apply export_operation_grows in E4.
  injection H as <- <-. split; [ reflexivity | ].
  destruct (grows_by_lines s2 s4 (grows_by_trans _ _ _ _ G3 E4)) as [rest L4].
  exists n2, rest. split; [ | exact Hn2 ].
  rewrite L4, L2, <- !app_assoc. reflexivity.
Qed.

Lemma coolant_is_switched_on_and_off_witness :
  ∃ before between,
    lines (gcode flood_profile_exported)
    = lines (gcode (postprocessor (stream []))) ++ before
      ++ [LCommand (mkCommand "M8" ∅)] ++ between
      ++ [LCommand (mkCommand "M9" ∅)].
Proof.
  apply (coolant_is_switched_on_and_off splitlines_single Name
           match_parentheses lower_coolant plain_options 0
           (postprocessor (stream [])) flood_profile_exported flood_profile
           "Flood" "M8");
    vm_compute; reflexivity.
Defined.

Lemma unknown_coolant_mode_raises_witness :
  export_operation splitlines_single Name match_parentheses lower_coolant
    plain_options 0 (postprocessor (stream [])) air_profile
  = Raise KeyError.
Proof.
  apply (unknown_coolant_mode_raises splitlines_single Name match_parentheses
           lower_coolant plain_options 0 (postprocessor (stream []))
           air_profile "Air");
    vm_compute; reflexivity.
Defined.

Lemma tool_change_between_operations_pauses_witness :
  Some "TC__Endmill" = Some "TC__Endmill"
  ∧ ∃ comment rest,
      lines (gcode flood_profile_after_drill)
      = lines (gcode (postprocessor (stream []))) ++ comment
        ++ [LCommand
              (mkCommand (pause (conf (gcode (postprocessor (stream [])))))
                 ∅)]
        ++ rest
      ∧ (comment = [LComment ("TOOL CHANGE: " +:+ "TC__Drill")]
         ∨ (comment = []
            ∧ ∃ pre l, lines (gcode (postprocessor (stream []))) = pre ++ [l]
                       ∧ line_text l = "TOOL CHANGE: " +:+ "TC__Drill"
                       ∧ ∀ c, l ≠ LCommand c)).
Proof.
  apply (tool_change_between_operations_pauses splitlines_single Name
           match_parentheses lower_coolant plain_options 0
           (postprocessor (stream [])) flood_profile_after_drill
           flood_profile "TC__Drill" "TC__Endmill" "T01"
           (Some "TC__Endmill"));
    vm_compute; reflexivity.
Defined.

(** ** The export as a whole *)

Lemma export_tool_total (opts : ExportOptions) (self : Postprocessor)
    (tool : option string) (obj : JobObject) :
  ∃ state, export_tool opts self tool obj = Ok state.
Proof.
  unfold export_tool. destruct (obj_tool obj) as [[full_name word] | ];
    [ | eauto ].
  assert (H : ∃ s1,
             match tool with
             | Some previous =>
                 if negb (String.eqb full_name previous)
                 then
                   self ←! emit self (LComment ("TOOL CHANGE: " +:+ previous));
                   addCommand self (mkCommand (pause (conf (gcode self))) ∅)
                     None
                 else Ok self
             | None => Ok self
             end = Ok s1).
  { destruct tool as [previous | ]; [ | eauto ].
    destruct (negb (String.eqb full_name previous)); [ | eauto ].
    destruct (emit_total self (LComment ("TOOL CHANGE: " +:+ previous)))
      as (s1 & -> & _).
    cbn [bind]. rewrite addCommand_eq. eauto. }
  destruct H as [s1 ->]. cbn [bind].
  destruct (tool_number opts); [ | cbn [bind]; eauto ].
  destruct (emit_total s1 (LStr word)) as (s2 & -> & _). cbn [bind]. eauto.
Qed.

Lemma export_operation_total
    (splitlines : string → list string) (PathCommand_str : Command → string)
    (match_comment : string → option string) (lower : string → string)
    (opts : ExportOptions) (fuel : nat) (self : Postprocessor)
    (obj : JobObject) :
  Forall (λ c, bool_decide (Name c ∈ ["G81"; "G82"; "G83"]) = false)
    (tree_commands (obj_tree obj)) →
  (∀ mode, obj_coolant obj = Some mode → mode ≠ "None" →
           dict_getitem GCODE_COOLANT (lower mode) ≠ Raise KeyError) →
  ∃ self',
    export_operation splitlines PathCommand_str match_comment lower opts fuel
      self obj = Ok self'.
Proof.
  intros Hc Hm. unfold export_operation. cbv zeta.
  match goal with
  | |- ∃ _, bind (emit ?s ?l) _ = _ =>
      destruct (emit_total s l) as (s1 & -> & _)
  end.
  cbn [bind].
  destruct (emit_all_total (splitlines (pre_operation opts)) s1)
    as (s2 & -> & _).
  cbn [bind].
  assert (H3 : ∃ s3,
             (if negb (String.eqb (default "None" (obj_coolant obj)) "None")
              then
                self ←! emit s2
                          (LComment ("COOLANT ON: "
                                     +:+ default "None" (obj_coolant obj)));
                coolant_command ←!
                  dict_getitem GCODE_COOLANT
                    (lower (default "None" (obj_coolant obj)));
                addCommand self (mkCommand coolant_command ∅) None
              else Ok s2) = Ok s3).
  { destruct (obj_coolant obj) as [mode | ] eqn:Ho; cbn [from_option id];
      [ | eauto ].
    destruct (String.eqb mode "None") eqn:Hn; cbn [negb]; [ eauto | ].
    destruct (emit_total s2 (LComment ("COOLANT ON: " +:+ mode)))
      as (s3 & -> & _).
    cbn [bind].
    destruct (dict_getitem_total GCODE_COOLANT (lower mode)) as [[c Hk] | Hk].
    - rewrite Hk. cbn [bind]. rewrite addCommand_eq. eauto.
    - exfalso. apply (Hm mode eq_refl); [ | exact Hk ].
      intros ->. discriminate Hn. }
  destruct H3 as [s3 ->]. cbn [bind].
  destruct (parseTree_total splitlines PathCommand_str match_comment fuel s3
              (obj_tree obj) Hc) as [s4 ->].
  cbn [bind].
  match goal with
  | |- ∃ _, bind (emit ?s ?l) _ = _ =>
      destruct (emit_total s l) as (s5 & -> & _)
  end.
  cbn [bind].
  destruct (emit_all_total (splitlines (post_operation opts)) s5)
    as (s6 & -> & _).
  cbn [bind].
  destruct (negb (String.eqb (default "None" (obj_coolant obj)) "None"));
    [ | eauto ].
  match goal with
  | |- ∃ _, bind (emit ?s ?l) _ = _ =>
      destruct (emit_total s l) as (s7 & -> & _)
  end.
  cbn [bind].
  change (dict_getitem GCODE_COOLANT "off") with (Ok (A:=string) "M9").
  cbn [bind]. rewrite addCommand_eq. eauto.
Qed.

Lemma export_objects_total
    (splitlines : string → list string) (PathCommand_str : Command → string)
    (match_comment : string → option string) (lower : string → string)
    (opts : ExportOptions) (fuel : nat) (objects : list JobObject) :
  Forall (λ obj,
            Forall (λ c, bool_decide (Name c ∈ ["G81"; "G82"; "G83"]) = false)
              (tree_commands (obj_tree obj))
            ∧ ∀ mode, obj_coolant obj = Some mode → mode ≠ "None" →
                      dict_getitem GCODE_COOLANT (lower mode)
                      ≠ Raise KeyError)
    objects →
  ∀ state,
    ∃ state',
      export_objects splitlines PathCommand_str match_comment lower opts fuel
        state objects = Ok state'.
Proof.
  induction 1 as [ | obj objects [Hc Hm] _ IH]; intros [self tool];
    [ simpl; eauto | ].
  cbn [export_objects].
  assert (H : ∃ state',
             export_object splitlines PathCommand_str match_comment lower
               opts fuel (self, tool) obj = Ok state').
  { unfold export_object.
    destruct (negb (obj_has_Path obj)); [ eauto | ].
    destruct (obj_inactive obj); [ eauto | ].
    destruct (export_tool_total opts self tool obj) as [st ->]. cbn [bind].
    destruct (export_operation_total splitlines PathCommand_str match_comment
                lower opts fuel (fst st) obj Hc Hm) as [s ->].
    cbn [bind]. eauto. }
  destruct H as [state' ->]. cbn [bind]. apply IH.
Qed.

(** X28.  An export of paths without drill cycles goes through.  With mm or
    in as units, a job found whenever the thumbnail is asked for with the GUI
    up, objects whose paths hold no command named G81, G82 or G83 and whose
    coolant mode, if they have one, is 'None' or has its lower-case form
    among the keys of [GCODE_COOLANT], the export builds its stream through
    the header, every object and the postamble, and returns the text of that
    stream: none of the lookups and comparisons on the way raises.  This is
    [export] after the argument string has been read and up to the text that
    goes to the editor and the file, for a precision that is not negative,
    the only kind the configuration holds here. *)
Theorem export_without_drill_cycles_completes
    (MIN_SPINDLE_SPEED MAX_SPINDLE_SPEED : Z)
    (BOUNDARIES : list (string * (Q * Q * Q)))
    (unit_length unit_velocity : Q → string → Q) (float_repr : Q → string)
    (splitlines : string → list string) (PathCommand_str : Command → string)
    (match_comment : string → option string) (lower : string → string)
    (opts : ExportOptions) (module_name now : string) (GuiUp : bool)
    (selected_jobs : list RapidSpeeds) (image : string) (fuel : nat)
    (self : Postprocessor) (objects : list JobObject) :
  units (conf (gcode self)) ∈ ["mm"; "in"] →
  (thumbnail opts && GuiUp = true →
   job (export_job GuiUp selected_jobs self objects) ≠ None) →
  Forall (λ obj,
            Forall (λ c, bool_decide (Name c ∈ ["G81"; "G82"; "G83"]) = false)
              (tree_commands (obj_tree obj))
            ∧ ∀ mode, obj_coolant obj = Some mode → mode ≠ "None" →
                      dict_getitem GCODE_COOLANT (lower mode)
                      ≠ Raise KeyError)
    objects →
  ∃ self' text,
    export MIN_SPINDLE_SPEED MAX_SPINDLE_SPEED BOUNDARIES unit_length
      unit_velocity float_repr splitlines PathCommand_str match_comment lower
      opts module_name now GuiUp selected_jobs image fuel self objects
    = Ok (self', text)
    ∧ text = Gcode___str__ MIN_SPINDLE_SPEED MAX_SPINDLE_SPEED unit_length
               unit_velocity float_repr (gcode self').
Proof.
  intros Hu Hj Ho. unfold export.
  pose proof (export_start_cases splitlines opts module_name now GuiUp
                selected_jobs image self objects) as Hs.
  assert (Hk : ∃ u, dict_getitem GCODE_UNITS (units (conf (gcode self)))
                    = Ok u).
  { apply elem_of_cons in Hu as [-> | Hu]; [ vm_compute; eauto | ].
    apply elem_of_cons in Hu as [-> | Hu]; [ vm_compute; eauto | ].
    apply elem_of_nil in Hu. destruct Hu. }
  destruct Hk as [u Hk].
  assert (Hs' : ∃ s1, export_start splitlines opts module_name now GuiUp
                        selected_jobs image self objects = Ok s1).
  { destruct (job (export_job GuiUp selected_jobs self objects)),
      (thumbnail opts && GuiUp);
      try (exfalso; apply Hj; reflexivity);
      rewrite Hk in Hs; destruct Hs as (s1 & pre & E & _); eauto. }
  destruct Hs' as [s1 ->]. cbn [bind].
  destruct (export_objects_total splitlines PathCommand_str match_comment
              lower opts fuel objects Ho (s1, None)) as [state ->].
  cbn [bind]. apply export_finish_total.
Qed.

(** The export of one operation of a job, under the GUI with a thumbnail,
    with the shipped configuration, whose postamble has two lines. *)
Lemma export_without_drill_cycles_completes_witness :
  ∃ self' text,
    export 6000 12000 default_BOUNDARIES metric_length metric_velocity
      repr_integral splitlines_ascii Name match_parentheses lower_coolant
      plain_options "Snapmaker_2_CNC_post" "2026-01-01 12:00:00.000000" true
      [] "iVBORw0KGgo=" 0 (postprocessor (stream [])) [flood_profile]
    = Ok (self', text)
    ∧ text = Gcode___str__ 6000 12000 metric_length metric_velocity
               repr_integral (gcode self').
Proof.
  apply (export_without_drill_cycles_completes 6000 12000 default_BOUNDARIES
           metric_length metric_velocity repr_integral splitlines_ascii Name
           match_parentheses lower_coolant plain_options
           "Snapmaker_2_CNC_post" "2026-01-01 12:00:00.000000" true []
           "iVBORw0KGgo=" 0 (postprocessor (stream [])) [flood_profile]).
  - vm_compute. left.
  - intros _. vm_compute. discriminate.
  - constructor; [ | constructor ].
    split; [ repeat constructor | ].
    intros mode Hmode _. injection Hmode as <-. vm_compute. discriminate.
Defined.
